(** * Atlas: the budget aggregation engine

    A shallow embedding of the budget computations of the Atlas life
    organizer: the monthly breakdown of [BudgetView], its period filter, its
    category progress (rollover) and pie-chart data, and the two copies of
    the spend arithmetic kept by [WishlistView] and by the home dashboard.

    Conventions of the embedding.
    - A JavaScript [number] holding money is an exact rational ([Q]); the
      rounding of IEEE doubles is not modelled, and numerical equality is
      [Qeq] ([==]).
    - A [number] read off a [Date] (year, month) is [num]: an integer or
      [NaN], with JavaScript's comparisons (every comparison with [NaN] is
      false).
    - The [Date] constructor is a parameter [newDate] of the development:
      what an engine accepts beyond the ISO format is left to the engine by
      the language standard.  [isoDate] is one instance, used in examples.
    - An evaluation that leaves this fragment returns [Fault]: reading a
      property of [undefined] ([TypeError]), arithmetic on [undefined]
      ([NotANumber]), a division whose denominator is zero
      ([DivisionByZero]).  The theorems show these are never reached. *)

From Stdlib Require Import ZArith QArith Qminmax Lqa Lia List String Ascii Bool.
From stdpp Require Import base list.
Import ListNotations.
Open Scope Q_scope.

(** ** Results of an evaluation *)

Inductive fault : Set := TypeError | NotANumber | DivisionByZero.

Inductive result (A : Type) : Type :=
| Ok (a : A)
| Fault (f : fault).
Arguments Ok {A} a.
Arguments Fault {A} f.

Definition bind {A B : Type} (r : result A) (k : A -> result B) : result B :=
  match r with
  | Ok a => k a
  | Fault f => Fault f
  end.

Notation "'let*' x ':=' c 'in' k" := (bind c (fun x => k))
  (at level 10, x name, c at level 200, k at level 200).

(** [l.forEach(a => body)] over a state [s] that the body mutates. *)
Fixpoint forEach {S A : Type} (l : list A) (body : S -> A -> result S) (s : S)
  : result S :=
  match l with
  | [] => Ok s
  | a :: l' => let* s' := body s a in forEach l' body s'
  end.

(** [l.map(f)] for an [f] that may leave the fragment. *)
Fixpoint mapM {A B : Type} (f : A -> result B) (l : list A) : result (list B) :=
  match l with
  | [] => Ok []
  | a :: l' => let* b := f a in let* bs := mapM f l' in Ok (b :: bs)
  end.

(** ** Numbers read off a date *)

Inductive num : Set := NaN | Int (z : Z).

Definition lt (a b : num) : bool :=
  match a, b with
  | Int x, Int y => (x <? y)%Z
  | _, _ => false
  end.

Definition le (a b : num) : bool :=
  match a, b with
  | Int x, Int y => (x <=? y)%Z
  | _, _ => false
  end.

Definition strictEq (a b : num) : bool :=
  match a, b with
  | Int x, Int y => (x =? y)%Z
  | _, _ => false
  end.

Inductive Month : Set :=
  Jan | Feb | Mar | Apr | May | Jun | Jul | Aug | Sep | Oct | Nov | Dec.

Definition monthIndex (m : Month) : Z :=
  match m with
  | Jan => 0 | Feb => 1 | Mar => 2 | Apr => 3 | May => 4 | Jun => 5
  | Jul => 6 | Aug => 7 | Sep => 8 | Oct => 9 | Nov => 10 | Dec => 11
  end%Z.

(** A [Date] object, as far as the views observe it: invalid, or a UTC
    year and month. *)
Inductive JSDate : Set :=
| InvalidDate
| UTCDate (year : Z) (month : Month).

Definition getUTCFullYear (d : JSDate) : num :=
  match d with
  | InvalidDate => NaN
  | UTCDate y _ => Int y
  end.

Definition getUTCMonth (d : JSDate) : num :=
  match d with
  | InvalidDate => NaN
  | UTCDate _ m => Int (monthIndex m)
  end.

(** *** One [Date] constructor: the ISO date-time format

    [isoDate] accepts the strings [YYYY-MM-DDT00:00:00Z] that name a day of
    the calendar and nothing else.  It is the instance used to evaluate the
    views on concrete entries. *)

Definition digit (c : ascii) : option Z :=
  let n := nat_of_ascii c in
  if ((48 <=? n) && (n <=? 57))%nat then Some (Z.of_nat (n - 48)) else None.

Fixpoint digits (acc : Z) (cs : list ascii) : option Z :=
  match cs with
  | [] => Some acc
  | c :: cs' =>
      match digit c with
      | Some d => digits (10 * acc + d)%Z cs'
      | None => None
      end
  end.

Definition monthOfNumber (z : Z) : option Month :=
  match z with
  | 1 => Some Jan | 2 => Some Feb | 3 => Some Mar | 4 => Some Apr
  | 5 => Some May | 6 => Some Jun | 7 => Some Jul | 8 => Some Aug
  | 9 => Some Sep | 10 => Some Oct | 11 => Some Nov | 12 => Some Dec
  | _ => None
  end%Z.

Definition isLeap (y : Z) : bool :=
  (((y mod 4 =? 0) && negb (y mod 100 =? 0)) || (y mod 400 =? 0))%Z.

Definition daysIn (y : Z) (m : Month) : Z :=
  match m with
  | Feb => if isLeap y then 29 else 28
  | Apr | Jun | Sep | Nov => 30
  | _ => 31
  end%Z.

Definition isoDate (s : string) : JSDate :=
  if negb (Nat.eqb (String.length s) 20) then InvalidDate
  else if negb (String.eqb (substring 10 10 s) "T00:00:00Z") then InvalidDate
  else if negb (String.eqb (substring 4 1 s) "-" && String.eqb (substring 7 1 s) "-")
  then InvalidDate
  else
    match digits 0 (list_ascii_of_string (substring 0 4 s)),
          digits 0 (list_ascii_of_string (substring 5 2 s)),
          digits 0 (list_ascii_of_string (substring 8 2 s)) with
    | Some y, Some mo, Some d =>
        match monthOfNumber mo with
        | Some m => if ((1 <=? d) && (d <=? daysIn y m))%Z then UTCDate y m else InvalidDate
        | None => InvalidDate
        end
    | _, _, _ => InvalidDate
    end.

(** ** Arrays and loops *)

(** [arr[i]]: [None] is [undefined]. *)
Definition index {A : Type} (arr : list A) (i : num) : option A :=
  match i with
  | NaN => None
  | Int z => if (z <? 0)%Z then None else arr !! Z.to_nat z
  end.

(** The values of [m] in [for (let m = start; m < stop; m++)]. *)
Definition range (start : num) (stop : Z) : list Z :=
  match start with
  | NaN => []
  | Int s => map (fun i => (s + Z.of_nat i)%Z) (seq 0 (Z.to_nat (stop - s)))
  end.

Definition elem {A : Type} (arr : list A) (i : num) : result A :=
  match index arr i with
  | Some x => Ok x
  | None => Fault TypeError
  end.

(** ** The data model (types.ts) *)

Inductive CategoryId : Set :=
  travel | living | leisure | savings | health | education | gifts | misc | crypto.

Definition CategoryId_eqb (a b : CategoryId) : bool :=
  match a, b with
  | travel, travel | living, living | leisure, leisure | savings, savings
  | health, health | education, education | gifts, gifts | misc, misc
  | crypto, crypto => true
  | _, _ => false
  end.

Record BudgetCategory : Type := mkCategory {
  cat_id : CategoryId;
  cat_name : string;
  cat_description : string;
  cat_budget : Q;
  cat_color : string
}.

Record BudgetEntry : Type := mkEntry {
  entry_id : string;
  entry_name : string;
  date : string;
  amount : Q;
  categoryId : CategoryId;
  isRecurring : option bool;
  linkedEventId : option string;
  notes : option string
}.

(** Truthiness of an optional boolean property. *)
Definition truthy (b : option bool) : bool :=
  match b with
  | Some true => true
  | _ => false
  end.

Definition initialCategories : list BudgetCategory :=
  [ mkCategory travel "Travel" "Holidays, weekend getaways, flights, hotels, tours, transportation for trips." 1000 "#3498db";
    mkCategory living "Living" "Day-to-day essential expenses for running your life/home (e.g., Rent, Utilities, Groceries)." 2000 "#e74c3c";
    mkCategory leisure "Leisure" "Fun, hobbies, and non-essential enjoyment spending (e.g., Dining Out, Entertainment)." 500 "#2ecc71";
    mkCategory savings "Savings" "Long-term savings, investments." 500 "#f1c40f";
    mkCategory health "Health & Fitness" "Staying healthy and fit (e.g., Medical, Gym, Sports Gear)." 200 "#1abc9c";
    mkCategory education "Education & Learning" "Self-improvement and skill-building (e.g., Courses, Books)." 200 "#e67e22";
    mkCategory gifts "Gifts & Giving" "Money spent on others or donations (e.g., Birthdays, Weddings)." 200 "#9b59b6";
    mkCategory crypto "Crypto" "Buying cryptocurrencies like Bitcoin, Ethereum, etc." 100 "#f39c12";
    mkCategory misc "Miscellaneous" "Anything that doesn’t fit in other categories (e.g., random purchases, unexpected expenses)." 100 "#95a5a6" ].

(** ** Objects keyed by category id

    [{ [key: string]: number }] with its keys in insertion order, which is
    the order of [Object.values] and of [for ... in]. *)

Abbreviation obj := (list (CategoryId * Q)).

Fixpoint get (k : CategoryId) (o : obj) : option Q :=
  match o with
  | [] => None
  | (k', v) :: o' => if CategoryId_eqb k k' then Some v else get k o'
  end.

(** [o[k] = v]: an existing key keeps its place, a new key goes last. *)
Fixpoint set (k : CategoryId) (v : Q) (o : obj) : obj :=
  match o with
  | [] => [(k, v)]
  | (k', v') :: o' =>
      if CategoryId_eqb k k' then (k, v) :: o' else (k', v') :: set k v o'
  end.

Definition keys (o : obj) : list CategoryId := map fst o.
Definition values (o : obj) : list Q := map snd o.

(** [o[k]] where the code goes on to compute with it. *)
Definition numProp (o : obj) (k : CategoryId) : result Q :=
  match get k o with
  | Some v => Ok v
  | None => Fault NotANumber
  end.

(** [categories.forEach(c => (o[c.id] = 0))] on a fresh object. *)
Definition zeroed (categories : list BudgetCategory) : obj :=
  fold_left (fun o c => set (cat_id c) 0 o) categories [].

(** [a > b] on money. *)
Definition gt (a b : Q) : bool := negb (Qle_bool a b).

Abbreviation MonthData := (list (CategoryId * Q)).

(** ** BudgetView: the monthly breakdown *)

Section Views.

Variable newDate : string -> JSDate.

(** [new Date(`${entry.date}T00:00:00Z`)] *)
Definition entryDateOf (entry : BudgetEntry) : JSDate :=
  newDate (String.append (date entry) "T00:00:00Z").

(** [breakdown[m][k] += a]: the object found at [m] is updated in place.
    ([elem] has found it, so [m] is a number when the update is reached.) *)
Definition addTo (breakdown : list MonthData) (m : num) (k : CategoryId) (a : Q)
  : result (list MonthData) :=
  let* monthData := elem breakdown m in
  let* v := numProp monthData k in
  match m with
  | Int z => Ok (<[Z.to_nat z := set k (v + a) monthData]> breakdown)
  | NaN => Ok breakdown
  end.

Definition addEntry (year : Z) (breakdown : list MonthData) (entry : BudgetEntry)
  : result (list MonthData) :=
  let entryDate := entryDateOf entry in
  let entryYear := getUTCFullYear entryDate in
  let entryStartMonth := getUTCMonth entryDate in
  if truthy (isRecurring entry) then
    if lt entryYear (Int year) then
      forEach (range (Int 0) 12)
        (fun bd m => addTo bd (Int m) (categoryId entry) (amount entry)) breakdown
    else if strictEq entryYear (Int year) then
      forEach (range entryStartMonth 12)
        (fun bd m => addTo bd (Int m) (categoryId entry) (amount entry)) breakdown
    else Ok breakdown
  else
    if strictEq entryYear (Int year) then
      match index breakdown entryStartMonth with
      | Some _ => addTo breakdown entryStartMonth (categoryId entry) (amount entry)
      | None => Ok breakdown
      end
    else Ok breakdown.

Definition monthlyBreakdown (categories : list BudgetCategory)
  (budgetEntries : list BudgetEntry) (year : Z) : result (list MonthData) :=
  let breakdown := map (fun _ => zeroed categories) (repeat 0 12) in
  forEach budgetEntries (addEntry year) breakdown.

(** ** BudgetView: the entries of a period *)

(** ['year' | number] *)
Inductive Period : Set := Year | MonthIndex (m : Z).

Definition inPeriod (year : Z) (selectedPeriod : Period) (entry : BudgetEntry)
  : bool :=
  let entryDate := entryDateOf entry in
  let entryYear := getUTCFullYear entryDate in
  let entryMonth := getUTCMonth entryDate in
  match selectedPeriod with
  | Year =>
      if truthy (isRecurring entry) then le entryYear (Int year)
      else strictEq entryYear (Int year)
  | MonthIndex M =>
      if truthy (isRecurring entry) then
        lt entryYear (Int year)
        || (strictEq entryYear (Int year) && le entryMonth (Int M))
      else strictEq entryYear (Int year) && strictEq entryMonth (Int M)
  end.

Definition entriesForPeriod (budgetEntries : list BudgetEntry) (year : Z)
  (selectedPeriod : Period) : list BudgetEntry :=
  List.filter (inPeriod year selectedPeriod) budgetEntries.

(** ** WishlistView: the budget overview *)

(** [12 - entryMonth] as money. *)
Definition monthsApplied (entryMonth : num) : result Q :=
  match entryMonth with
  | Int em => Ok (inject_Z (12 - em))
  | NaN => Fault NotANumber
  end.

(** The body of the loop over the entries; the state is
    [(totalYearlySpent, totalMonthlySpent)]. *)
Definition overviewStep (currentYear currentMonth : num) (totals : Q * Q)
  (entry : BudgetEntry) : result (Q * Q) :=
  let '(totalYearlySpent, totalMonthlySpent) := totals in
  let entryDate := entryDateOf entry in
  let entryYear := getUTCFullYear entryDate in
  let entryMonth := getUTCMonth entryDate in
  if truthy (isRecurring entry) then
    if lt entryYear currentYear then
      Ok (totalYearlySpent + amount entry * 12, totalMonthlySpent + amount entry)
    else if strictEq entryYear currentYear then
      let* monthsAppliedInYear := monthsApplied entryMonth in
      let totalYearlySpent := totalYearlySpent + amount entry * monthsAppliedInYear in
      if le entryMonth currentMonth then
        Ok (totalYearlySpent, totalMonthlySpent + amount entry)
      else Ok (totalYearlySpent, totalMonthlySpent)
    else Ok totals
  else
    if strictEq entryYear currentYear then
      let totalYearlySpent := totalYearlySpent + amount entry in
      if strictEq entryMonth currentMonth then
        Ok (totalYearlySpent, totalMonthlySpent + amount entry)
      else Ok (totalYearlySpent, totalMonthlySpent)
    else Ok totals.

(** [(totalYearlySpent, totalMonthlySpent)] when the loop ends. *)
Definition overviewTotals (now : JSDate) (budgetEntries : list BudgetEntry)
  : result (Q * Q) :=
  let currentYear := getUTCFullYear now in
  let currentMonth := getUTCMonth now in
  forEach budgetEntries (overviewStep currentYear currentMonth) (0, 0).

Record BudgetOverview : Type := mkOverview {
  remainingYearly : Q;
  remainingMonthly : Q
}.

Definition budgetOverview (now : JSDate) (budgetEntries : list BudgetEntry)
  : result BudgetOverview :=
  let totalMonthlyBudget :=
    fold_left (fun sum cat => sum + cat_budget cat) initialCategories 0 in
  let totalYearlyBudget := totalMonthlyBudget * 12 in
  let* totals := overviewTotals now budgetEntries in
  let '(totalYearlySpent, totalMonthlySpent) := totals in
  Ok (mkOverview (totalYearlyBudget - totalYearlySpent)
                 (totalMonthlyBudget - totalMonthlySpent)).

(** ** Home dashboard: the budget snapshot card *)

Definition snapshotStep (currentYear currentMonth : num) (total : Q)
  (entry : BudgetEntry) : Q :=
  let entryDate := entryDateOf entry in
  let entryYear := getUTCFullYear entryDate in
  let entryMonth := getUTCMonth entryDate in
  if truthy (isRecurring entry) then
    if lt entryYear currentYear
       || (strictEq entryYear currentYear && le entryMonth currentMonth)
    then total + amount entry
    else total
  else
    if strictEq entryYear currentYear && strictEq entryMonth currentMonth
    then total + amount entry
    else total.

Record BudgetSnapshot : Type := mkSnapshot {
  monthlyBudget : Q;
  spentThisMonth : Q
}.

Definition budgetSnapshot (now : JSDate) (budgetEntries : list BudgetEntry)
  : BudgetSnapshot :=
  let currentMonth := getUTCMonth now in
  let currentYear := getUTCFullYear now in
  let monthlyBudget :=
    fold_left (fun sum cat => sum + cat_budget cat) initialCategories 0 in
  let spentThisMonth :=
    fold_left (snapshotStep currentYear currentMonth) budgetEntries 0 in
  mkSnapshot monthlyBudget spentThisMonth.

End Views.

(** ** BudgetView: totals, category progress, pie chart *)

(** [Object.values(o).reduce((acc, v) => acc + v, 0)] *)
Definition sumValues (o : obj) : Q := fold_left Qplus (values o) 0.

Definition totalSpent (monthlyBreakdown : list MonthData) (selectedPeriod : Period)
  : result Q :=
  match selectedPeriod with
  | Year => Ok (fold_left (fun total month => total + sumValues month) monthlyBreakdown 0)
  | MonthIndex M =>
      let* month := elem monthlyBreakdown (Int M) in
      Ok (sumValues month)
  end.

(** [{ ...cat, spent, budget, rollover }] *)
Record CategoryProgress : Type := mkProgress {
  p_id : CategoryId;
  p_name : string;
  p_description : string;
  p_color : string;
  spent : Q;
  budget : Q;
  rollover : Q
}.

Definition progressOf (cat : BudgetCategory) (spent budget rollover : Q)
  : CategoryProgress :=
  mkProgress (cat_id cat) (cat_name cat) (cat_description cat) (cat_color cat)
             spent budget rollover.

(** [rollovers[cat.id] || 0] *)
Definition orZero (v : option Q) : Q :=
  match v with
  | Some q => if Qeq_bool q 0 then 0 else q
  | None => 0
  end.

(** One month of the rollover loop, for one category. *)
Definition rolloverStep (monthlyBreakdown : list MonthData) (month : Z)
  (rollovers : obj) (cat : BudgetCategory) : result obj :=
  let* monthData := elem monthlyBreakdown (Int month) in
  let* spentThisMonth := numProp monthData (cat_id cat) in
  let* carried := numProp rollovers (cat_id cat) in
  let effectiveSpending := spentThisMonth + carried in
  let deficit := effectiveSpending - cat_budget cat in
  Ok (set (cat_id cat) (if gt deficit 0 then deficit else 0) rollovers).

(** [rollovers] after [for (let month = 0; month < stop; month++)]. *)
Definition rolloversBefore (categories : list BudgetCategory)
  (monthlyBreakdown : list MonthData) (stop : Z) : result obj :=
  forEach (range (Int 0) stop)
    (fun rollovers month =>
       forEach categories (rolloverStep monthlyBreakdown month) rollovers)
    (zeroed categories).

Definition categoryProgressData (categories : list BudgetCategory)
  (monthlyBreakdown : list MonthData) (selectedPeriod : Period)
  : result (list CategoryProgress) :=
  match selectedPeriod with
  | Year =>
      mapM (fun cat =>
              let* spent :=
                forEach monthlyBreakdown
                  (fun sum month =>
                     let* v := numProp month (cat_id cat) in Ok (sum + v)) 0 in
              Ok (progressOf cat spent (cat_budget cat * 12) 0))
           categories
  | MonthIndex M =>
      let* rollovers := rolloversBefore categories monthlyBreakdown M in
      mapM (fun cat =>
              let* monthData := elem monthlyBreakdown (Int M) in
              let* spentInSelectedMonth := numProp monthData (cat_id cat) in
              let rolloverAmount := orZero (get (cat_id cat) rollovers) in
              let effectiveSpending := spentInSelectedMonth + rolloverAmount in
              Ok (progressOf cat effectiveSpending (cat_budget cat) rolloverAmount))
           categories
  end.

(** [a / b], marking a zero denominator. *)
Definition div (a b : Q) : result Q :=
  if Qeq_bool b 0 then Fault DivisionByZero else Ok (a / b).

(** CategoryProgressList: the width of a progress bar, before clamping. *)
Definition progressPercentage (cat : CategoryProgress) : result Q :=
  if gt (budget cat) 0 then
    let* ratio := div (spent cat) (budget cat) in Ok (ratio * 100)
  else Ok 0.

Record Slice : Type := mkSlice {
  slice_id : CategoryId;
  slice_name : string;
  value : Q;
  percentage : Q;
  slice_color : string
}.

(** [yearlyCategorySpending] after the loop over the months. *)
Definition yearlySpending (categories : list BudgetCategory)
  (monthlyBreakdown : list MonthData) : result obj :=
  forEach monthlyBreakdown
    (fun yearly month =>
       forEach (keys month)
         (fun yearly categoryId =>
            let* sofar := numProp yearly categoryId in
            let* v := numProp month categoryId in
            Ok (set categoryId (sofar + v) yearly))
         yearly)
    (zeroed categories).

Definition categorySpendingDataForChart (categories : list BudgetCategory)
  (monthlyBreakdown : list MonthData) : result (list Slice) :=
  let* yearlyCategorySpending := yearlySpending categories monthlyBreakdown in
  let totalSpent := sumValues yearlyCategorySpending in
  if Qeq_bool totalSpent 0 then Ok []
  else
    let* slices :=
      mapM (fun cat =>
              let* v := numProp yearlyCategorySpending (cat_id cat) in
              let* ratio := div v totalSpent in
              Ok (mkSlice (cat_id cat) (cat_name cat) v (ratio * 100) (cat_color cat)))
           categories in
    Ok (List.filter (fun d => gt (value d) 0) slices).

(** Every category id is a key. *)
Definition Full (o : obj) : Prop := forall c, exists v, get c o = Some v.

(** The ids of the nine categories, in the order of [initialCategories]. *)
Definition allIds : list CategoryId := map cat_id initialCategories.

(** Twelve buckets, each with the nine category ids as its keys, in order. *)
Definition Shape (breakdown : list MonthData) : Prop :=
  length breakdown = 12%nat /\ Forall (fun md => keys md = allIds) breakdown.

(** ** Reading a breakdown, and what the specification states *)

(** [breakdown[m][c]] *)
Definition bucket (breakdown : list MonthData) (m : Z) (c : CategoryId)
  : option Q :=
  match index breakdown (Int m) with
  | Some monthData => get c monthData
  | None => None
  end.

Definition valueAt (breakdown : list MonthData) (m : Z) (c : CategoryId) : Q :=
  match bucket breakdown m c with
  | Some v => v
  | None => 0
  end.

(** The sum of a list of amounts. *)
Definition total (l : list Q) : Q := fold_right Qplus 0 l.

Definition sumAmounts (entries : list BudgetEntry) : Q :=
  total (map amount entries).

(** A breakdown as the builder leaves it: twelve buckets, each with a value
    for every category of the list. *)
Definition hasKeys (ks : list CategoryId) (o : obj) : bool :=
  forallb (fun k => match get k o with Some _ => true | None => false end) ks.

Definition wellFormed (categories : list BudgetCategory)
  (breakdown : list MonthData) : bool :=
  Nat.eqb (length breakdown) 12
  && forallb (hasKeys (map cat_id categories)) breakdown.

(** [o[k]] read as a number, for a key that is there. *)
Definition valueIn (o : obj) (k : CategoryId) : Q :=
  match get k o with
  | Some v => v
  | None => 0
  end.

(** The rollover a category carries out of a month. *)
Definition carry (spentThisMonth carried budget : Q) : Q :=
  let deficit := spentThisMonth + carried - budget in
  if gt deficit 0 then deficit else 0.

(** The rollover entering month [M], as the specification defines it:
    zero entering month 0, and chained from month to month. *)
Fixpoint rolloverInto (breakdown : list MonthData) (cat : BudgetCategory)
  (M : nat) : Q :=
  match M with
  | O => 0
  | S k =>
      Qmax (valueAt breakdown (Z.of_nat k) (cat_id cat)
            + rolloverInto breakdown cat k - cat_budget cat) 0
  end.

(** The sum of a category's values over the twelve buckets. *)
Definition yearlyTotal (breakdown : list MonthData) (c : CategoryId) : Q :=
  total (map (fun m => valueAt breakdown m c) (range (Int 0) 12)).

(** The periods the navigation offers: the year, or a month 0..11. *)
Definition validPeriod (p : Period) : Prop :=
  match p with
  | Year => True
  | MonthIndex M => (0 <= M < 12)%Z
  end.

(** The sum of the yearly totals of all categories. *)
Definition grandTotal (breakdown : list MonthData) : Q :=
  total (map (yearlyTotal breakdown) allIds).

(** The slice of a category, from the yearly spending [yearly]. *)
Definition sliceOf (yearly : obj) (cat : BudgetCategory) (s : Slice) : Prop :=
  s = mkSlice (cat_id cat) (cat_name cat) (valueIn yearly (cat_id cat))
        (valueIn yearly (cat_id cat) / sumValues yearly * 100) (cat_color cat).

(** What the year view reports for a category. *)
Definition yearProgress (breakdown : list MonthData) (cat : BudgetCategory)
  (p : CategoryProgress) : Prop :=
  p_id p = cat_id cat
  /\ spent p == yearlyTotal breakdown (cat_id cat)
  /\ budget p = cat_budget cat * 12
  /\ rollover p = 0.

(** What the view of month [M] reports for a category. *)
Definition monthProgress (breakdown : list MonthData) (M : Z)
  (cat : BudgetCategory) (p : CategoryProgress) : Prop :=
  p_id p = cat_id cat
  /\ spent p == valueAt breakdown M (cat_id cat)
                + rolloverInto breakdown cat (Z.to_nat M)
  /\ budget p = cat_budget cat
  /\ rollover p == rolloverInto breakdown cat (Z.to_nat M).

(** The sum over all categories of bucket [m]. *)
Definition bucketTotal (breakdown : list MonthData) (m : Z) : Q :=
  total (map (fun c => valueAt breakdown m c) allIds).

(** The sum over the twelve buckets and all categories. *)
Definition yearTotal (breakdown : list MonthData) : Q :=
  total (map (bucketTotal breakdown) (range (Int 0) 12)).

Section Expected.

Variable newDate : string -> JSDate.

Definition entryYear (e : BudgetEntry) : num :=
  getUTCFullYear (entryDateOf newDate e).

Definition entryMonth (e : BudgetEntry) : num :=
  getUTCMonth (entryDateOf newDate e).

(** Non-recurring, of category [c], dated in month [m] of year [Y]. *)
Definition oneTimeIn (Y m : Z) (c : CategoryId) (e : BudgetEntry) : bool :=
  negb (truthy (isRecurring e)) && CategoryId_eqb (categoryId e) c
  && strictEq (entryYear e) (Int Y) && strictEq (entryMonth e) (Int m).

(** Recurring, of category [c], started in a year before [Y]. *)
Definition recurringBefore (Y : Z) (c : CategoryId) (e : BudgetEntry) : bool :=
  truthy (isRecurring e) && CategoryId_eqb (categoryId e) c
  && lt (entryYear e) (Int Y).

(** Recurring, of category [c], started in year [Y] no later than month [m]. *)
Definition recurringSince (Y m : Z) (c : CategoryId) (e : BudgetEntry) : bool :=
  truthy (isRecurring e) && CategoryId_eqb (categoryId e) c
  && strictEq (entryYear e) (Int Y) && le (entryMonth e) (Int m).

Definition expectedSpend (entries : list BudgetEntry) (Y m : Z) (c : CategoryId)
  : Q :=
  sumAmounts (List.filter (oneTimeIn Y m c) entries)
  + sumAmounts (List.filter (recurringBefore Y c) entries)
  + sumAmounts (List.filter (recurringSince Y m c) entries).

(** What one entry adds to bucket [m] of year [Y] under category [c]. *)
Definition contribution (Y m : Z) (c : CategoryId) (e : BudgetEntry) : Q :=
  (if oneTimeIn Y m c e then amount e else 0)
  + (if recurringBefore Y c e then amount e else 0)
  + (if recurringSince Y m c e then amount e else 0).

(** What one entry adds to month [m] of year [Y], and to the whole year,
    over all categories. *)
Definition monthShare (Y m : Z) (e : BudgetEntry) : Q :=
  total (map (fun c => contribution Y m c e) allIds).

Definition yearShare (Y : Z) (e : BudgetEntry) : Q :=
  total (map (fun m => monthShare Y m e) (range (Int 0) 12)).

(** Dated after year [Y], or non-recurring and dated in another year. *)
Definition outsideYear (Y : Z) (e : BudgetEntry) : bool :=
  lt (Int Y) (entryYear e)
  || (negb (truthy (isRecurring e)) && negb (strictEq (entryYear e) (Int Y))).

(** The display rule of the specification for one entry. *)
Definition displayed (Y : Z) (p : Period) (e : BudgetEntry) : Prop :=
  match p with
  | Year =>
      (truthy (isRecurring e) = false /\ entryYear e = Int Y)
      \/ (truthy (isRecurring e) = true
          /\ exists y, entryYear e = Int y /\ (y <= Y)%Z)
  | MonthIndex M =>
      (truthy (isRecurring e) = false
       /\ entryYear e = Int Y /\ entryMonth e = Int M)
      \/ (truthy (isRecurring e) = true
          /\ exists y, entryYear e = Int y
             /\ ((y < Y)%Z
                 \/ (y = Y /\ exists em, entryMonth e = Int em /\ (em <= M)%Z)))
  end.

End Expected.

(** ** Sample data

    Entries and a breakdown on which the views are evaluated below. *)

Definition gym : BudgetEntry :=
  mkEntry "budget-1" "Gym" "2023-05-10" 100 health (Some true) None None.

Definition flight : BudgetEntry :=
  mkEntry "budget-2" "Flight" "2022-01-01" 50 travel (Some false) None None.

Definition hotel : BudgetEntry :=
  mkEntry "budget-3" "Hotel" "2023-01-15" 1150 travel None None None.

Definition dinner : BudgetEntry :=
  mkEntry "budget-4" "Dinner" "2023-02-03" 30 leisure None None (Some "with friends"%string).

Definition undated : BudgetEntry :=
  mkEntry "budget-5" "Undated" "next week" 70 travel (Some true) None None.

Definition sampleEntries : list BudgetEntry :=
  [gym; flight; hotel; dinner; undated].

(** One category with a budget of 100 a month, and a year in which it
    spends 150 in January, 30 in February and nothing afterwards. *)
Definition oneCategory : list BudgetCategory :=
  [mkCategory travel "Travel" "" 100 "#3498db"].

Definition chainedYear : list MonthData :=
  [(travel, 150)] :: [(travel, 30)] :: repeat [(travel, 0)] 10.


(** * The rest of the budget, wishlist and dashboard code

    The handlers that change the entry list and the wishlist, the totals of
    the budget header, the bars of the category list and of the dashboard
    card, and what the wishlist view derives from the budget.
    A [number] that a form produces is [jsnumber]: it may be [NaN]. *)

(** ** Numbers from forms *)

Inductive jsnumber : Type := JNaN | JNum (q : Q).

(** [isNaN(n)] and [n <= 0]. *)
Definition isNaN (n : jsnumber) : bool :=
  match n with
  | JNaN => true
  | JNum _ => false
  end.

Definition leZero (n : jsnumber) : bool :=
  match n with
  | JNaN => false
  | JNum q => Qle_bool q 0
  end.

(** Truthiness of an optional number: [undefined], [NaN] and [0] are falsy. *)
Definition truthyNumber (n : option jsnumber) : bool :=
  match n with
  | Some (JNum q) => negb (Qeq_bool q 0)
  | _ => false
  end.

(** [n || 0] *)
Definition numberOrZero (n : option jsnumber) : Q :=
  match n with
  | Some (JNum q) => if Qeq_bool q 0 then 0 else q
  | _ => 0
  end.

(** Truthiness of a string. *)
Definition nonEmpty (s : string) : bool := negb (String.eqb s "").

(** ** BudgetView: saving and deleting entries *)

(** [Omit<BudgetEntry, 'id'>].  An optional property is absent ([None]) or
    present, possibly with the value [undefined] ([Some None]). *)
Record EntryData : Type := mkData {
  data_name : string;
  data_date : string;
  data_amount : Q;
  data_categoryId : CategoryId;
  data_isRecurring : option (option bool);
  data_linkedEventId : option (option string);
  data_notes : option (option string)
}.

(** A property of a spread [{ ...old, ...new }]. *)
Definition spread {A : Type} (old : option A) (new : option (option A))
  : option A :=
  match new with
  | Some v => v
  | None => old
  end.

(** [{ ...e, ...entryData, id }] *)
Definition merged (e : BudgetEntry) (entryData : EntryData) (id : string)
  : BudgetEntry :=
  mkEntry id (data_name entryData) (data_date entryData)
    (data_amount entryData) (data_categoryId entryData)
    (spread (isRecurring e) (data_isRecurring entryData))
    (spread (linkedEventId e) (data_linkedEventId entryData))
    (spread (notes e) (data_notes entryData)).

(** [{ ...entryData, id }] *)
Definition created (entryData : EntryData) (id : string) : BudgetEntry :=
  mkEntry id (data_name entryData) (data_date entryData)
    (data_amount entryData) (data_categoryId entryData)
    (spread None (data_isRecurring entryData))
    (spread None (data_linkedEventId entryData))
    (spread None (data_notes entryData)).

(** [handleSave(entryData, id)]; [uuid] is what [crypto.randomUUID()]
    returns, and the result is the updater given to [setBudgetEntries]. *)
Definition handleSave (entryData : EntryData) (id : option string)
  (uuid : string) (prev : list BudgetEntry) : list BudgetEntry :=
  match id with
  | Some i =>
      if nonEmpty i then
        map (fun e => if String.eqb (entry_id e) i then merged e entryData i else e)
            prev
      else prev ++ [created entryData (String.append "budget-" uuid)]
  | None => prev ++ [created entryData (String.append "budget-" uuid)]
  end.

(** [handleDelete(id)]; [confirmed] is the answer to [window.confirm]. *)
Definition handleDelete (id : string) (confirmed : bool)
  (prev : list BudgetEntry) : list BudgetEntry :=
  if confirmed then List.filter (fun e => negb (String.eqb (entry_id e) id)) prev
  else prev.

(** The fields of the entry form. *)
Record EntryForm : Type := mkForm {
  form_name : string;
  form_amount : string;
  form_date : string;
  form_categoryId : CategoryId;
  form_isRecurring : bool;
  form_linkedEventId : string;
  form_notes : string
}.

Section EntryModal.

Variable parseFloat : string -> jsnumber.

(** [handleSubmit]: what [onSave] is called with, or [None] after the
    alert. *)
Definition handleSubmit (form : EntryForm) : option EntryData :=
  let numericAmount := parseFloat (form_amount form) in
  if negb (nonEmpty (form_name form)) || isNaN numericAmount
     || leZero numericAmount
  then None
  else
    match numericAmount with
    | JNum amount =>
        Some (mkData (form_name form) (form_date form) amount
                (form_categoryId form)
                (Some (Some (form_isRecurring form)))
                (Some (if nonEmpty (form_linkedEventId form)
                       then Some (form_linkedEventId form) else None))
                (Some (Some (form_notes form))))
    | JNaN => None
    end.

(** Submitting the form of the modal: [editing] is [modalState.data]. *)
Definition submitEntry (form : EntryForm) (editing : option BudgetEntry)
  (uuid : string) (prev : list BudgetEntry) : list BudgetEntry :=
  match handleSubmit form with
  | Some entryData =>
      handleSave entryData (option_map entry_id editing) uuid prev
  | None => prev
  end.

End EntryModal.

(** ** BudgetView: the header and the bars *)

Definition totalBudget (categories : list BudgetCategory)
  (selectedPeriod : Period) : Q :=
  let monthlyBudget := fold_left (fun sum cat => sum + cat_budget cat) categories 0 in
  match selectedPeriod with
  | Year => monthlyBudget * 12
  | MonthIndex _ => monthlyBudget
  end.

Module CategoryProgressList.

Definition totalPeriodBudget (categoryProgressData : list CategoryProgress) : Q :=
  fold_left (fun acc cat => acc + budget cat) categoryProgressData 0.

(** [Math.min(percentage, 100)], the width of the bar. *)
Definition barWidth (cat : CategoryProgress) : result Q :=
  let* percentage := progressPercentage cat in
  Ok (Qmin percentage 100).

(** [selectedPeriod !== 'year' && cat.rollover > 0] *)
Definition showsRollover (selectedPeriod : Period) (cat : CategoryProgress)
  : bool :=
  match selectedPeriod with
  | Year => false
  | MonthIndex _ => gt (rollover cat) 0
  end.

End CategoryProgressList.

Module CategoryPieChart.

(** The total in the middle of the donut. *)
Definition total (categoryData : list Slice) : Q :=
  fold_left (fun acc slice => acc + value slice) categoryData 0.

End CategoryPieChart.

(** ** Home dashboard: what the budget card shows *)

Module BudgetSnapshotCard.

Definition percentage (s : BudgetSnapshot) : result Q :=
  if gt (monthlyBudget s) 0 then
    let* ratio := div (spentThisMonth s) (monthlyBudget s) in Ok (ratio * 100)
  else Ok 0.

Definition barWidth (s : BudgetSnapshot) : result Q :=
  let* percentage := percentage s in
  Ok (Qmin percentage 100).

(** The line under the bar: the amount over budget, or the amount left. *)
Inductive Subtext : Type :=
| OverBudget (amount : Q)
| Remaining (amount : Q).

Definition subtext (s : BudgetSnapshot) : result Subtext :=
  let* percentage := percentage s in
  Ok (if gt percentage 100
      then OverBudget (spentThisMonth s - monthlyBudget s)
      else Remaining (monthlyBudget s - spentThisMonth s)).

End BudgetSnapshotCard.

(** ** The wishlist (types.ts) *)

Inductive Priority : Set := low | medium | high.

(** ['active' | 'completed' | 'on-hold'] *)
Inductive Status : Set := active | completed | onHold.

Definition Status_eqb (a b : Status) : bool :=
  match a, b with
  | active, active | completed, completed | onHold, onHold => true
  | _, _ => false
  end.

Record WishlistItem : Type := mkItem {
  item_id : string;
  listId : string;
  item_name : string;
  priority : Priority;
  item_categoryId : CategoryId;
  estimatedCost : option jsnumber;
  imageUrl : option string;
  description : option string;
  status : Status;
  finalCost : option jsnumber;
  completedDate : option string
}.

Record Wishlist : Type := mkList {
  list_id : string;
  list_name : string
}.

Record WishlistData : Type := mkWishlistData {
  lists : list Wishlist;
  items : list WishlistItem
}.

(** Every item belongs to a list of the data. *)
Definition noOrphans (data : WishlistData) : bool :=
  forallb (fun i => existsb (fun l => String.eqb (list_id l) (listId i))
                      (lists data))
          (items data).

(** What an item adds to the planned wishes: its estimated cost while it is
    active. *)
Definition planned (item : WishlistItem) : Q :=
  if Status_eqb (status item) active then numberOrZero (estimatedCost item) else 0.

(** ** BudgetView: the planned wishes of the header *)

Definition totalPlannedWishes (wishlistData : WishlistData) : result Q :=
  forEach
    (List.filter
       (fun item => Status_eqb (status item) active
                    && truthyNumber (estimatedCost item))
       (items wishlistData))
    (fun sum item =>
       match estimatedCost item with
       | Some (JNum cost) => Ok (sum + cost)
       | _ => Fault NotANumber
       end)
    0.

(** What one entry adds to a category over the twelve months of [Y]. *)
Definition yearContribution (newDate : string -> JSDate) (Y : Z)
  (c : CategoryId) (e : BudgetEntry) : Q :=
  total (map (fun m => contribution newDate Y m c e) (range (Int 0) 12)).

(** ** WishlistView *)

Module WishlistView.

(** [{ monthlyRemaining, yearlyRemaining }] *)
Record CategoryInfo : Type := mkInfo {
  monthlyRemaining : Q;
  yearlyRemaining : Q
}.

(** [info[k]] and [info[k] = v] on an object keyed by category id. *)
Fixpoint property {V : Type} (k : CategoryId) (o : list (CategoryId * V))
  : option V :=
  match o with
  | [] => None
  | (k', v) :: o' => if CategoryId_eqb k k' then Some v else property k o'
  end.

Fixpoint assign {V : Type} (k : CategoryId) (v : V) (o : list (CategoryId * V))
  : list (CategoryId * V) :=
  match o with
  | [] => [(k, v)]
  | (k', v') :: o' =>
      if CategoryId_eqb k k' then (k, v) :: o' else (k', v') :: assign k v o'
  end.

Section Budget.

Variable newDate : string -> JSDate.

(** The body of the inner loop of [categoryBudgetInfo]; the state is
    [(spentThisMonth, spentThisYear)]. *)
Definition categoryStep (currentYear currentMonth : num) (cat : BudgetCategory)
  (spent : Q * Q) (entry : BudgetEntry) : result (Q * Q) :=
  let '(spentThisMonth, spentThisYear) := spent in
  if CategoryId_eqb (categoryId entry) (cat_id cat) then
    let entryDate := entryDateOf newDate entry in
    let entryYear := getUTCFullYear entryDate in
    let entryMonth := getUTCMonth entryDate in
    if truthy (isRecurring entry) then
      if lt entryYear currentYear then
        Ok (spentThisMonth + amount entry, spentThisYear + amount entry * 12)
      else if strictEq entryYear currentYear then
        let* months := monthsApplied entryMonth in
        let spentThisYear := spentThisYear + amount entry * months in
        if le entryMonth currentMonth then
          Ok (spentThisMonth + amount entry, spentThisYear)
        else Ok (spentThisMonth, spentThisYear)
      else Ok spent
    else
      if strictEq entryYear currentYear then
        let spentThisYear := spentThisYear + amount entry in
        if strictEq entryMonth currentMonth then
          Ok (spentThisMonth + amount entry, spentThisYear)
        else Ok (spentThisMonth, spentThisYear)
      else Ok spent
  else Ok spent.

Definition categoryBudgetInfo (now : JSDate) (budgetEntries : list BudgetEntry)
  : result (list (CategoryId * CategoryInfo)) :=
  let currentMonth := getUTCMonth now in
  let currentYear := getUTCFullYear now in
  forEach initialCategories
    (fun info cat =>
       let monthlyBudget := cat_budget cat in
       let yearlyBudget := cat_budget cat * 12 in
       let* spent :=
         forEach budgetEntries (categoryStep currentYear currentMonth cat) (0, 0) in
       let '(spentThisMonth, spentThisYear) := spent in
       Ok (assign (cat_id cat)
             (mkInfo (monthlyBudget - spentThisMonth)
                     (yearlyBudget - spentThisYear))
             info))
    [].

End Budget.

(** The [budgetInfo] handed to the card of an item. *)
Record BudgetInfo : Type := mkBudgetInfo {
  categoryMonthlyRemaining : Q;
  categoryYearlyRemaining : Q;
  totalMonthlyRemaining : Q
}.

Definition budgetInfoProp (categoryBudgetInfo : list (CategoryId * CategoryInfo))
  (budgetOverview : BudgetOverview) (item : WishlistItem) : option BudgetInfo :=
  match property (item_categoryId item) categoryBudgetInfo with
  | Some budgetInfoForCat =>
      Some (mkBudgetInfo (monthlyRemaining budgetInfoForCat)
                         (yearlyRemaining budgetInfoForCat)
                         (remainingMonthly budgetOverview))
  | None => None
  end.

(** [{ className, statusText }] *)
Record Affordability : Type := mkAffordability {
  className : string;
  statusText : string
}.

(** [a >= b] on money. *)
Definition ge (a b : Q) : bool := Qle_bool b a.

(** WishlistItemCard: [affordabilityStatus]. *)
Definition affordabilityStatus (item : WishlistItem)
  (budgetInfo : option BudgetInfo) : option Affordability :=
  match estimatedCost item, budgetInfo with
  | Some (JNum cost), Some info =>
      if Qeq_bool cost 0 then None
      else
        let canAffordCategory := ge (categoryMonthlyRemaining info) cost in
        let canAffordMonth := ge (totalMonthlyRemaining info) cost in
        if canAffordCategory && canAffordMonth then
          Some (mkAffordability "affordable" "✅ In Budget")
        else if canAffordCategory && negb canAffordMonth then
          Some (mkAffordability "unaffordable" "⚠️ Over Month Budget")
        else
          Some (mkAffordability "unaffordable" "❌ Over Cat. Budget")
  | _, _ => None
  end.

(** ['addList' | 'addItem' | 'editItem' | 'completeItem'] *)
Inductive Mode : Set := addList | addItem | editItem | completeItem.

Record WishlistModalState : Type := mkModal {
  mode : Mode;
  modal_listId : option string;
  modal_item : option WishlistItem
}.

(** What the form of the modal hands to [onSave]. *)
Record FormData : Type := mkFormData {
  fd_name : string;
  fd_priority : Priority;
  fd_estimatedCost : string;
  fd_imageUrl : string;
  fd_finalCost : string;
  fd_categoryId : CategoryId;
  fd_description : string
}.

(** [s.split('T')[0]] *)
Fixpoint beforeT (s : string) : string :=
  match s with
  | EmptyString => EmptyString
  | String c s' => if Ascii.eqb c "T" then EmptyString else String c (beforeT s')
  end.

Section Save.

Variable parseFloat : string -> jsnumber.

(** [s ? parseFloat(s) : undefined] *)
Definition parsedCost (s : string) : option jsnumber :=
  if nonEmpty s then Some (parseFloat s) else None.

(** [s || undefined] *)
Definition orUndefined (s : string) : option string :=
  if nonEmpty s then Some s else None.

(** [handleSave(data)].  [uuid] is what [crypto.randomUUID()] returns and
    [completedAt], [enteredAt] what [new Date().toISOString()] returns in
    the updater of the items and for the date of the new entry; the result
    is the wishlist data and the budget entries after the updaters have
    run. *)
Definition handleSave (modalState : option WishlistModalState) (data : FormData)
  (uuid completedAt enteredAt : string)
  (wishlistData : WishlistData) (budgetEntries : list BudgetEntry)
  : WishlistData * list BudgetEntry :=
  match modalState with
  | None => (wishlistData, budgetEntries)
  | Some modalState =>
      match mode modalState, modal_listId modalState, modal_item modalState with
      | addList, _, _ =>
          let newList := mkList (String.append "wishlist-" uuid) (fd_name data) in
          (mkWishlistData (lists wishlistData ++ [newList]) (items wishlistData),
           budgetEntries)
      | addItem, Some l, _ =>
          if nonEmpty l then
            let newItem :=
              mkItem (String.append "wishitem-" uuid) l (fd_name data)
                (fd_priority data) (fd_categoryId data)
                (parsedCost (fd_estimatedCost data))
                (Some (fd_imageUrl data))
                (orUndefined (fd_description data))
                active None None in
            (mkWishlistData (lists wishlistData) (items wishlistData ++ [newItem]),
             budgetEntries)
          else (wishlistData, budgetEntries)
      | editItem, _, Some item =>
          (mkWishlistData (lists wishlistData)
             (map (fun i =>
                     if String.eqb (item_id i) (item_id item) then
                       mkItem (item_id i) (listId i) (fd_name data)
                         (fd_priority data) (fd_categoryId data)
                         (parsedCost (fd_estimatedCost data))
                         (Some (fd_imageUrl data))
                         (orUndefined (fd_description data))
                         (status i) (finalCost i) (completedDate i)
                     else i)
                  (items wishlistData)),
           budgetEntries)
      | completeItem, _, Some item =>
          let finalCost := parsedCost (fd_finalCost data) in
          let wishlistData' :=
            mkWishlistData (lists wishlistData)
              (map (fun i =>
                      if String.eqb (item_id i) (item_id item) then
                        mkItem (item_id i) (listId i) (item_name i) (priority i)
                          (item_categoryId i) (estimatedCost i) (imageUrl i)
                          (description i) completed finalCost (Some completedAt)
                      else i)
                   (items wishlistData)) in
          match finalCost with
          | Some (JNum cost) =>
              if Qeq_bool cost 0 then (wishlistData', budgetEntries)
              else
                let newBudgetEntry :=
                  mkEntry (String.append "budget-" uuid)
                    (String.append "Wish: " (item_name item))
                    (beforeT enteredAt) cost (item_categoryId item)
                    (Some false) None (Some "Completed from wishlist."%string) in
                (wishlistData', budgetEntries ++ [newBudgetEntry])
          | _ => (wishlistData', budgetEntries)
          end
      | _, _, _ => (wishlistData, budgetEntries)
      end
  end.

End Save.

(** [handleDeleteItem(itemId)], [handleDeleteList(listId)]; [confirmed] is
    the answer to [window.confirm]. *)
Definition handleDeleteItem (itemId : string) (confirmed : bool)
  (prev : WishlistData) : WishlistData :=
  if confirmed then
    mkWishlistData (lists prev)
      (List.filter (fun i => negb (String.eqb (item_id i) itemId)) (items prev))
  else prev.

Definition handleDeleteList (l : string) (confirmed : bool)
  (prev : WishlistData) : WishlistData :=
  if confirmed then
    mkWishlistData
      (List.filter (fun x => negb (String.eqb (list_id x) l)) (lists prev))
      (List.filter (fun i => negb (String.eqb (listId i) l)) (items prev))
  else prev.

Definition handleToggleHoldStatus (itemId : string) (prev : WishlistData)
  : WishlistData :=
  mkWishlistData (lists prev)
    (map (fun i =>
            if String.eqb (item_id i) itemId then
              mkItem (item_id i) (listId i) (item_name i) (priority i)
                (item_categoryId i) (estimatedCost i) (imageUrl i)
                (description i)
                (if Status_eqb (status i) active then onHold else active)
                (finalCost i) (completedDate i)
            else i)
         (items prev)).

(** ['active' | 'completed'] and ['priority' | 'cost'] *)
Inductive Filter : Set := showActive | showCompleted.
Inductive Sort : Set := byPriority | byCost.

(** The test of the filter of [sortedAndFilteredItems]. *)
Definition shown (filter : Filter) (item : WishlistItem) : bool :=
  match filter with
  | showActive => Status_eqb (status item) active || Status_eqb (status item) onHold
  | showCompleted => Status_eqb (status item) completed
  end.

Definition priorityOrder (p : Priority) : Z :=
  match p with
  | high => 3
  | medium => 2
  | low => 1
  end.

(** The comparison function of the sort of [sortedAndFilteredItems]. *)
Definition compareItems (filter : Filter) (sort : Sort) (a b : WishlistItem) : Q :=
  let byKey :=
    match sort with
    | byCost => numberOrZero (estimatedCost b) - numberOrZero (estimatedCost a)
    | byPriority =>
        inject_Z (priorityOrder (priority b) - priorityOrder (priority a))
    end in
  match filter with
  | showActive =>
      if Status_eqb (status a) onHold && negb (Status_eqb (status b) onHold)
      then 1
      else if negb (Status_eqb (status a) onHold) && Status_eqb (status b) onHold
      then -1
      else byKey
  | showCompleted => byKey
  end.

End WishlistView.

(** ** Sample data for the handlers

    [wholeNumber] stands for [parseFloat] on the samples: on a string of
    decimal digits it is the number that [parseFloat] returns; every other
    string is taken to [NaN]. *)

Definition wholeNumber (s : string) : jsnumber :=
  match s with
  | EmptyString => JNaN
  | _ =>
      match digits 0 (list_ascii_of_string s) with
      | Some z => JNum (inject_Z z)
      | None => JNaN
      end
  end.

Definition train : EntryData :=
  mkData "Train" "2023-03-04" 45 travel (Some (Some false)) (Some None)
    (Some (Some ""%string)).

Definition trainForm : EntryForm :=
  mkForm "Train" "45" "2023-03-04" travel false "" "".

(** A rent of 6000 a month, three times the budget of its category. *)
Definition rent : BudgetEntry :=
  mkEntry "budget-6" "Rent" "2023-03-01" 6000 living (Some true) None None.

Definition bike : WishlistItem :=
  mkItem "wishitem-1" "wishlist-1" "Bike" high health (Some (JNum 150))
    None None active None None.

Definition tent : WishlistItem :=
  mkItem "wishitem-2" "wishlist-1" "Tent" low travel (Some (JNum 80))
    None None onHold None None.

Definition sampleWishes : WishlistData :=
  mkWishlistData [mkList "wishlist-1" "Outdoors"] [bike; tent].

Definition bikeBought : WishlistView.FormData :=
  WishlistView.mkFormData "Bike" high "150" "" "120" health "".
(** * Properties *)

(** ** Objects *)

Lemma CategoryId_eqb_eq (a b : CategoryId) : CategoryId_eqb a b = true <-> a = b.
Proof. destruct a, b; simpl; split; intro H; try reflexivity; discriminate H. Qed.

Lemma CategoryId_eqb_refl (a : CategoryId) : CategoryId_eqb a a = true.
Proof. apply CategoryId_eqb_eq; reflexivity. Qed.

Lemma CategoryId_eqb_sym (a b : CategoryId) : CategoryId_eqb a b = CategoryId_eqb b a.
Proof. destruct a, b; reflexivity. Qed.

Lemma get_set (k k' : CategoryId) (v : Q) (o : obj) :
  get k (set k' v o) = if CategoryId_eqb k k' then Some v else get k o.
Proof.
  induction o as [|[k0 v0] o IH]; simpl.
  - destruct (CategoryId_eqb k k'); reflexivity.
  - destruct (CategoryId_eqb k' k0) eqn:E0; simpl.
    + apply CategoryId_eqb_eq in E0; subst k0.
      destruct (CategoryId_eqb k k'); reflexivity.
    + rewrite IH. destruct (CategoryId_eqb k k0) eqn:E1; [|reflexivity].
      apply CategoryId_eqb_eq in E1; subst k0.
      rewrite CategoryId_eqb_sym, E0. reflexivity.
Qed.

Lemma keys_set (k : CategoryId) (v : Q) (o : obj) :
  In k (keys o) -> keys (set k v o) = keys o.
Proof.
  induction o as [|[k0 v0] o IH]; simpl; [intros []|].
  intros [->|H].
  - rewrite CategoryId_eqb_refl. reflexivity.
  - destruct (CategoryId_eqb k k0) eqn:E; simpl.
    + apply CategoryId_eqb_eq in E; subst k0. reflexivity.
    + f_equal. apply IH, H.
Qed.

Lemma get_In_keys (k : CategoryId) (o : obj) :
  In k (keys o) <-> exists v, get k o = Some v.
Proof.
  induction o as [|[k0 v0] o IH]; simpl.
  - split; [intros [] | intros [v H]; discriminate].
  - destruct (CategoryId_eqb k k0) eqn:E.
    + apply CategoryId_eqb_eq in E; subst k0. split; eauto.
    + rewrite <- IH. split; [intros [->|H]|]; auto.
      rewrite CategoryId_eqb_refl in E. discriminate.
Qed.

Lemma allIds_complete (c : CategoryId) : In c allIds.
Proof. destruct c; simpl; tauto. Qed.

Lemma allIds_NoDup : NoDup allIds.
Proof. repeat constructor; rewrite list_elem_of_In; simpl; intuition discriminate. Qed.

Lemma keys_Full (o : obj) : keys o = allIds -> Full o.
Proof. intros H c. apply get_In_keys. rewrite H. apply allIds_complete. Qed.

Lemma Full_hasKeys (ks : list CategoryId) (o : obj) : Full o -> hasKeys ks o = true.
Proof.
  intros F. apply forallb_forall. intros k _. destruct (F k) as [v ->]. reflexivity.
Qed.

Lemma hasKeys_get (ks : list CategoryId) (o : obj) (k : CategoryId) :
  hasKeys ks o = true -> In k ks -> exists v, get k o = Some v.
Proof.
  intros H Hin. unfold hasKeys in H. rewrite forallb_forall in H.
  specialize (H k Hin). destruct (get k o); [eauto | discriminate].
Qed.

(** ** Arrays and loops *)

Lemma index_Int {A : Type} (arr : list A) (z : Z) :
  (0 <= z)%Z -> index arr (Int z) = arr !! Z.to_nat z.
Proof. intros H. unfold index. destruct (Z.ltb_spec z 0); [lia | reflexivity]. Qed.

Lemma range_nil (s stop : Z) : (stop <= s)%Z -> range (Int s) stop = [].
Proof. intros H. unfold range. replace (Z.to_nat (stop - s)) with 0%nat by lia. reflexivity. Qed.

Lemma range_cons (s stop : Z) :
  (s < stop)%Z -> range (Int s) stop = s :: range (Int (s + 1)) stop.
Proof.
  intros H. unfold range.
  replace (Z.to_nat (stop - s)) with (S (Z.to_nat (stop - (s + 1)))) by lia.
  simpl. f_equal; [lia|].
  rewrite <- seq_shift, map_map. apply map_ext. intros i. lia.
Qed.

Lemma range_snoc (stop : Z) :
  (0 <= stop)%Z -> range (Int 0) (stop + 1) = range (Int 0) stop ++ [stop].
Proof.
  intros H. unfold range. rewrite !Z.sub_0_r.
  replace (Z.to_nat (stop + 1)) with (Z.to_nat stop + 1)%nat by lia.
  rewrite seq_app, map_app. simpl. f_equal. f_equal. lia.
Qed.

Lemma forEach_app {S A : Type} (l1 l2 : list A) (body : S -> A -> result S) (s : S) :
  forEach (l1 ++ l2) body s = let* s' := forEach l1 body s in forEach l2 body s'.
Proof.
  revert s. induction l1 as [|a l1 IH]; intros s; simpl; [reflexivity|].
  destruct (body s a); simpl; [apply IH | reflexivity].
Qed.

(** ** The monthly breakdown *)

Lemma Shape_lookup (bd : list MonthData) (z : Z) :
  Shape bd -> (0 <= z < 12)%Z ->
  exists md, bd !! Z.to_nat z = Some md /\ keys md = allIds.
Proof.
  intros [L F] Hz.
  destruct (lookup_lt_is_Some_2 bd (Z.to_nat z)) as [md Hmd]; [lia|].
  exists md; split; [assumption|].
  apply (Forall_lookup_1 _ _ _ _ F Hmd).
Qed.

Lemma bucket_Some (bd : list MonthData) (z : Z) (c : CategoryId) :
  Shape bd -> (0 <= z < 12)%Z -> exists v, bucket bd z c = Some v.
Proof.
  intros S Hz. destruct (Shape_lookup bd z S Hz) as (md & Hmd & F).
  unfold bucket. rewrite index_Int by lia. rewrite Hmd. apply keys_Full, F.
Qed.

Lemma bucket_valueAt (bd : list MonthData) (z : Z) (c : CategoryId) (v : Q) :
  bucket bd z c = Some v -> valueAt bd z c = v.
Proof. intros H. unfold valueAt. rewrite H. reflexivity. Qed.

Lemma Shape_wellFormed (cats : list BudgetCategory) (bd : list MonthData) :
  Shape bd -> wellFormed cats bd = true.
Proof.
  intros [L F]. unfold wellFormed. rewrite L. simpl.
  apply forallb_forall. intros md Hin. apply Full_hasKeys, keys_Full.
  rewrite Forall_forall in F. apply F. apply list_elem_of_In. exact Hin.
Qed.

(** [breakdown[z][k] += a] adds [a] to one value and leaves the others. *)
Lemma addTo_spec (bd : list MonthData) (z : Z) (k : CategoryId) (a : Q) :
  Shape bd -> (0 <= z < 12)%Z ->
  exists bd', addTo bd (Int z) k a = Ok bd' /\ Shape bd' /\
    forall m c, (0 <= m < 12)%Z ->
      valueAt bd' m c ==
      valueAt bd m c + (if (m =? z)%Z && CategoryId_eqb c k then a else 0).
Proof.
  intros S Hz. destruct (Shape_lookup bd z S Hz) as (md & Hmd & K).
  destruct (keys_Full md K k) as [v Hv]. destruct S as [L FA].
  exists (<[Z.to_nat z := set k (v + a) md]> bd). split; [|split].
  - unfold addTo, elem, numProp. rewrite index_Int by lia. rewrite Hmd. simpl.
    rewrite Hv. reflexivity.
  - split; [rewrite length_insert; exact L|].
    apply Forall_insert; [exact FA|].
    rewrite keys_set; [exact K | rewrite K; apply allIds_complete].
  - intros m c Hm. unfold valueAt, bucket. rewrite !index_Int by lia.
    destruct (Z.eqb_spec m z) as [->|Hne]; simpl.
    + rewrite list_lookup_insert_eq by lia. rewrite Hmd, get_set.
      destruct (CategoryId_eqb c k) eqn:E.
      * apply CategoryId_eqb_eq in E; subst c. rewrite Hv. reflexivity.
      * destruct (get c md); ring.
    + rewrite list_lookup_insert_ne by lia.
      destruct (bd !! Z.to_nat m) as [md'|]; [destruct (get c md')|]; ring.
Qed.

(** [for (let m = s; m < 12; m++) breakdown[m][k] += a] *)
Lemma addFrom_spec (k : CategoryId) (a : Q) (n : nat) :
  forall (s : Z) (bd : list MonthData),
    Shape bd -> (0 <= s)%Z -> Z.to_nat (12 - s) = n ->
    exists bd',
      forEach (range (Int s) 12) (fun b m => addTo b (Int m) k a) bd = Ok bd'
      /\ Shape bd' /\
      forall m c, (0 <= m < 12)%Z ->
        valueAt bd' m c ==
        valueAt bd m c + (if (s <=? m)%Z && CategoryId_eqb c k then a else 0).
Proof.
  induction n as [|n IH]; intros s bd S Hs Hn.
  - rewrite range_nil by lia. exists bd. split; [reflexivity|]. split; [exact S|].
    intros m c Hm. destruct (Z.leb_spec s m); [lia|]. simpl. ring.
  - rewrite range_cons by lia. simpl.
    destruct (addTo_spec bd s k a S) as (bd1 & E1 & S1 & V1); [lia|].
    rewrite E1. simpl.
    destruct (IH (s + 1)%Z bd1 S1) as (bd2 & E2 & S2 & V2); [lia|lia|].
    exists bd2. split; [exact E2|]. split; [exact S2|].
    intros m c Hm. rewrite (V2 m c Hm), (V1 m c Hm).
    destruct (Z.eqb_spec m s), (Z.leb_spec (s + 1) m), (Z.leb_spec s m);
      try lia; simpl; destruct (CategoryId_eqb c k); ring.
Qed.

Lemma monthIndex_range (mo : Month) : (0 <= monthIndex mo < 12)%Z.
Proof. destruct mo; simpl; lia. Qed.

Lemma total_cons (q : Q) (l : list Q) : total (q :: l) = q + total l.
Proof. reflexivity. Qed.

Lemma sumAmounts_filter_cons (P : BudgetEntry -> bool) (e : BudgetEntry)
  (es : list BudgetEntry) :
  sumAmounts (List.filter P (e :: es)) ==
  (if P e then amount e else 0) + sumAmounts (List.filter P es).
Proof.
  unfold sumAmounts. simpl. destruct (P e); simpl; [reflexivity | ring].
Qed.

Section Breakdown.

Variable newDate : string -> JSDate.

Lemma expectedSpend_cons (e : BudgetEntry) (es : list BudgetEntry) (Y m : Z)
  (c : CategoryId) :
  expectedSpend newDate (e :: es) Y m c ==
  contribution newDate Y m c e + expectedSpend newDate es Y m c.
Proof.
  unfold expectedSpend, contribution. rewrite !sumAmounts_filter_cons. ring.
Qed.

(** One entry of the loop of [monthlyBreakdown]. *)
Lemma addEntry_spec (Y : Z) (bd : list MonthData) (e : BudgetEntry) :
  Shape bd ->
  exists bd', addEntry newDate Y bd e = Ok bd' /\ Shape bd' /\
    forall m c, (0 <= m < 12)%Z ->
      valueAt bd' m c == valueAt bd m c + contribution newDate Y m c e.
Proof.
  intros S.
  unfold addEntry, contribution, oneTimeIn, recurringBefore, recurringSince,
    entryYear, entryMonth.
  destruct (entryDateOf newDate e) as [|y mo];
    cbn [getUTCFullYear getUTCMonth lt le strictEq].
  - exists bd. split; [destruct (truthy (isRecurring e)); reflexivity|].
    split; [exact S|]. intros m c _.
    rewrite !andb_false_r. simpl. ring.
  - pose proof (monthIndex_range mo) as Hmo.
    destruct (truthy (isRecurring e)) eqn:R; cbn [negb andb].
    + destruct (Z.ltb_spec y Y) as [Hlt|Hge].
      * destruct (addFrom_spec (categoryId e) (amount e) 12 0%Z bd S)
          as (bd' & E & S' & V); [lia | reflexivity |].
        exists bd'. split; [exact E|]. split; [exact S'|].
        intros m c Hm. rewrite (V m c Hm).
        destruct (Z.leb_spec 0 m); [|lia].
        destruct (Z.eqb_spec y Y); [lia|].
        rewrite (CategoryId_eqb_sym c). simpl.
        destruct (CategoryId_eqb (categoryId e) c); simpl; ring.
      * destruct (Z.eqb_spec y Y) as [->|Hne].
        -- destruct (addFrom_spec (categoryId e) (amount e)
                       (Z.to_nat (12 - monthIndex mo)) (monthIndex mo) bd S)
             as (bd' & E & S' & V); [lia | reflexivity |].
           exists bd'. split; [exact E|]. split; [exact S'|].
           intros m c Hm. rewrite (V m c Hm).
           rewrite (CategoryId_eqb_sym c).
           destruct (CategoryId_eqb (categoryId e) c),
             (monthIndex mo <=? m)%Z; simpl; ring.
        -- exists bd. split; [reflexivity|]. split; [exact S|].
           intros m c _. rewrite !andb_false_r. simpl. ring.
    + destruct (Z.eqb_spec y Y) as [->|Hne].
      * destruct (Shape_lookup bd (monthIndex mo) S Hmo) as (md & Hmd & _).
        rewrite index_Int by lia. rewrite Hmd.
        destruct (addTo_spec bd (monthIndex mo) (categoryId e) (amount e) S Hmo)
          as (bd' & E & S' & V).
        exists bd'. split; [exact E|]. split; [exact S'|].
        intros m c Hm. rewrite (V m c Hm).
        rewrite (CategoryId_eqb_sym c), (Z.eqb_sym m).
        destruct (CategoryId_eqb (categoryId e) c),
          (monthIndex mo =? m)%Z; simpl; ring.
      * exists bd. split; [reflexivity|]. split; [exact S|].
        intros m c _. rewrite !andb_false_r. simpl. ring.
Qed.

(** The loop over the entries, from any well-shaped breakdown. *)
Lemma addEntries_spec (Y : Z) (es : list BudgetEntry) :
  forall bd, Shape bd ->
  exists bd', forEach es (addEntry newDate Y) bd = Ok bd' /\ Shape bd' /\
    forall m c, (0 <= m < 12)%Z ->
      valueAt bd' m c == valueAt bd m c + expectedSpend newDate es Y m c.
Proof.
  induction es as [|e es IH]; intros bd S.
  - exists bd. split; [reflexivity|]. split; [exact S|].
    intros m c _. unfold expectedSpend, sumAmounts. simpl. ring.
  - destruct (addEntry_spec Y bd e S) as (bd1 & E1 & S1 & V1).
    destruct (IH bd1 S1) as (bd2 & E2 & S2 & V2).
    exists bd2. split; [simpl; rewrite E1; exact E2|]. split; [exact S2|].
    intros m c Hm. rewrite (V2 m c Hm), (V1 m c Hm), expectedSpend_cons. ring.
Qed.

Lemma initial_Shape :
  Shape (map (fun _ : Q => zeroed initialCategories) (repeat 0 12)).
Proof.
  split; [reflexivity|]. simpl.
  repeat constructor.
Qed.

Lemma initial_valueAt (m : Z) (c : CategoryId) :
  (0 <= m < 12)%Z ->
  valueAt (map (fun _ : Q => zeroed initialCategories) (repeat 0 12)) m c = 0.
Proof.
  intros Hm. unfold valueAt, bucket. rewrite index_Int by lia.
  assert (Hn : (Z.to_nat m < 12)%nat) by lia.
  generalize dependent (Z.to_nat m). intros n Hn.
  do 12 (destruct n as [|n]; [destruct c; reflexivity|]). lia.
Qed.

(** The builder returns a well-shaped breakdown whose values are the
    expected sums. *)
Lemma monthlyBreakdown_values (es : list BudgetEntry) (Y : Z) :
  exists bd, monthlyBreakdown newDate initialCategories es Y = Ok bd /\ Shape bd /\
    forall m c, (0 <= m < 12)%Z ->
      valueAt bd m c == expectedSpend newDate es Y m c.
Proof.
  destruct (addEntries_spec Y es _ initial_Shape) as (bd & E & S & V).
  exists bd. split; [exact E|]. split; [exact S|].
  intros m c Hm. rewrite (V m c Hm), (initial_valueAt m c Hm). ring.
Qed.

Lemma outsideYear_skipped (Y : Z) (b : list MonthData) (e : BudgetEntry) :
  outsideYear newDate Y e = true -> addEntry newDate Y b e = Ok b.
Proof.
  unfold outsideYear, addEntry, entryYear.
  destruct (entryDateOf newDate e) as [|y mo]; simpl.
  - destruct (truthy (isRecurring e)); reflexivity.
  - intros H. destruct (Z.ltb_spec Y y) as [Hlt|Hge]; simpl in H.
    + destruct (Z.ltb_spec y Y); [lia|]. destruct (Z.eqb_spec y Y); [lia|].
      destruct (truthy (isRecurring e)); reflexivity.
    + destruct (truthy (isRecurring e)); [discriminate|]. simpl in H.
      destruct (y =? Y)%Z; [discriminate | reflexivity].
Qed.

(** C1. For every entry list and year [Y] the builder returns twelve buckets,
    and bucket [m] holds under category [c] exactly the amounts of the
    non-recurring entries of [c] dated in month [m] of [Y], plus those of the
    recurring entries of [c] started before [Y], plus those of the recurring
    entries of [c] started in [Y] no later than [m]; an entry dated after
    [Y], or non-recurring and dated in another year, leaves every breakdown
    as it is. *)
Theorem monthlyBreakdown_buckets (entries : list BudgetEntry) (Y : Z) :
  exists bd,
    monthlyBreakdown newDate initialCategories entries Y = Ok bd
    /\ length bd = 12%nat
    /\ (forall m c, (0 <= m < 12)%Z ->
          exists v, bucket bd m c = Some v
                    /\ v == expectedSpend newDate entries Y m c)
    /\ (forall b e, outsideYear newDate Y e = true ->
          addEntry newDate Y b e = Ok b).
Proof.
  destruct (monthlyBreakdown_values entries Y) as (bd & E & S & V).
  exists bd. split; [exact E|]. split; [apply S|]. split.
  - intros m c Hm. destruct (bucket_Some bd m c S Hm) as [v Hv].
    exists v. split; [exact Hv|].
    rewrite <- (bucket_valueAt bd m c v Hv). apply V, Hm.
  - intros b e. apply outsideYear_skipped.
Qed.

End Breakdown.

(** ** The entries of a period *)

Section Filter.

Variable newDate : string -> JSDate.

Lemma inPeriod_displayed (Y : Z) (p : Period) (e : BudgetEntry) :
  inPeriod newDate Y p e = true <-> displayed newDate Y p e.
Proof.
  unfold inPeriod, displayed, entryYear, entryMonth.
  destruct (entryDateOf newDate e) as [|y mo];
    cbn [getUTCFullYear getUTCMonth lt le strictEq];
    destruct p as [|M]; destruct (truthy (isRecurring e)); simpl.
  all: try (split; [discriminate|];
            intros [[H1 H2]|[H1 H2]]; try discriminate;
            try (destruct H2 as [? ?]; discriminate);
            destruct H2 as (? & ? & ?); discriminate).
  - rewrite Z.leb_le. split.
    + intros H. right. split; [reflexivity|]. exists y. split; [reflexivity|exact H].
    + intros [[H _]|[_ (y' & [= <-] & H)]]; [discriminate | exact H].
  - rewrite Z.eqb_eq. split.
    + intros ->. left. split; reflexivity.
    + intros [[_ [= ->]]|[H _]]; [reflexivity | discriminate].
  - rewrite orb_true_iff, andb_true_iff, Z.ltb_lt, Z.eqb_eq, Z.leb_le. split.
    + intros H. right. split; [reflexivity|]. exists y. split; [reflexivity|].
      destruct H as [H|[H1 H2]]; [left; exact H|].
      right. split; [exact H1|]. exists (monthIndex mo). split; [reflexivity|exact H2].
    + intros [[H _]|[_ (y' & [= <-] & H)]]; [discriminate|].
      destruct H as [H|[H1 (em & [= <-] & H2)]]; [left; exact H | right; split; assumption].
  - rewrite andb_true_iff, !Z.eqb_eq. split.
    + intros [-> ->]. left. repeat split; reflexivity.
    + intros [(_ & [= ->] & [= ->])|[H _]]; [split; reflexivity | discriminate].
Qed.

(** C4. An entry is in the display list of a period exactly when it is an
    entry of the list that the display rule admits: in the year view,
    non-recurring and dated in [Y], or recurring and dated in a year up to
    [Y]; in the view of month [M], non-recurring and dated in month [M] of
    [Y], or recurring and dated before [Y] or in [Y] no later than [M]. *)
Theorem entriesForPeriod_displayed (entries : list BudgetEntry) (Y : Z)
  (p : Period) (e : BudgetEntry) :
  In e (entriesForPeriod newDate entries Y p)
  <-> In e entries /\ displayed newDate Y p e.
Proof.
  unfold entriesForPeriod. rewrite filter_In, inPeriod_displayed. reflexivity.
Qed.

Lemma invalid_inPeriod (Y : Z) (p : Period) (e : BudgetEntry) :
  entryDateOf newDate e = InvalidDate -> inPeriod newDate Y p e = false.
Proof.
  intros H. unfold inPeriod. rewrite H. simpl.
  destruct p; destruct (truthy (isRecurring e)); reflexivity.
Qed.

Lemma invalid_addEntry (Y : Z) (bd : list MonthData) (e : BudgetEntry) :
  entryDateOf newDate e = InvalidDate -> addEntry newDate Y bd e = Ok bd.
Proof.
  intros H. unfold addEntry. rewrite H. simpl.
  destruct (truthy (isRecurring e)); reflexivity.
Qed.

(** C10. An entry whose date does not parse has no year and no month; the
    builder passes over it, so that the breakdown of every year is the one
    of the list without it, and the filter of every period drops it; both
    return as they do on the other entries. *)
Theorem unparsed_entry_skipped (e : BudgetEntry) :
  entryDateOf newDate e = InvalidDate ->
  entryYear newDate e = NaN /\ entryMonth newDate e = NaN
  /\ (forall Y bd, addEntry newDate Y bd e = Ok bd)
  /\ (forall cats es1 es2 Y,
        monthlyBreakdown newDate cats (es1 ++ e :: es2) Y
        = monthlyBreakdown newDate cats (es1 ++ es2) Y)
  /\ (forall Y p, inPeriod newDate Y p e = false)
  /\ (forall es1 es2 Y p,
        entriesForPeriod newDate (es1 ++ e :: es2) Y p
        = entriesForPeriod newDate (es1 ++ es2) Y p).
Proof.
  intros H. unfold entryYear, entryMonth. rewrite H.
  split; [reflexivity|]. split; [reflexivity|].
  split; [intros Y bd; apply invalid_addEntry, H|].
  split; [|split; [intros Y p; apply invalid_inPeriod, H|]].
  - intros cats es1 es2 Y. unfold monthlyBreakdown.
    rewrite !forEach_app. simpl.
    destruct (forEach es1 (addEntry newDate Y) _) as [bd|f]; simpl; [|reflexivity].
    rewrite (invalid_addEntry Y bd e H). reflexivity.
  - intros es1 es2 Y p. unfold entriesForPeriod.
    rewrite !List.filter_app. simpl. rewrite (invalid_inPeriod Y p e H). reflexivity.
Qed.

End Filter.

(** ** Loops that update one key per element *)

Lemma forEach_keyed {A : Type} (key : A -> CategoryId) (f : A -> Q -> Q)
  (body : obj -> A -> result obj) (l : list A) :
  NoDup (map key l) ->
  forall o,
    (forall o' a v, In a l -> keys o' = keys o -> get (key a) o' = Some v ->
       body o' a = Ok (set (key a) (f a v) o')) ->
    (forall a, In a l -> exists v, get (key a) o = Some v) ->
    exists o',
      forEach l body o = Ok o' /\ keys o' = keys o
      /\ (forall a v, In a l -> get (key a) o = Some v ->
            get (key a) o' = Some (f a v))
      /\ (forall k, ~ In k (map key l) -> get k o' = get k o).
Proof.
  induction l as [|a l IH]; intros ND o Hbody Hget.
  - exists o. split; [reflexivity|]. split; [reflexivity|].
    split; [intros a v [] | reflexivity].
  - apply NoDup_cons in ND. destruct ND as [Hnotin ND].
    rewrite list_elem_of_In in Hnotin.
    destruct (Hget a (or_introl eq_refl)) as [v Hv].
    pose (o1 := set (key a) (f a v) o).
    assert (K1 : keys o1 = keys o).
    { apply keys_set. apply get_In_keys. eauto. }
    assert (G1 : forall k, k <> key a -> get k o1 = get k o).
    { intros k Hk. unfold o1. rewrite get_set.
      destruct (CategoryId_eqb k (key a)) eqn:E; [|reflexivity].
      apply CategoryId_eqb_eq in E. contradiction. }
    assert (Hne : forall b, In b l -> key b <> key a).
    { intros b Hb Heq. apply Hnotin. rewrite <- Heq. apply in_map, Hb. }
    destruct (IH ND o1) as (o' & E & K & Vin & Vout).
    + intros o2 b w Hb K2 Hw. apply Hbody; [right; exact Hb | congruence | exact Hw].
    + intros b Hb. rewrite (G1 _ (Hne b Hb)). apply Hget. right; exact Hb.
    + exists o'. split; [|split; [congruence|split]].
      * simpl. rewrite (Hbody o a v (or_introl eq_refl) eq_refl Hv). exact E.
      * intros b w [<-|Hb] Hw.
        -- rewrite (Vout _ Hnotin). unfold o1. rewrite get_set, CategoryId_eqb_refl.
           congruence.
        -- apply Vin; [exact Hb|]. rewrite (G1 _ (Hne b Hb)). exact Hw.
      * intros k Hk. simpl in Hk. rewrite Vout by tauto. apply G1.
        intros ->. tauto.
Qed.

Lemma get_fold_zero (cats : list BudgetCategory) (k : CategoryId) :
  forall o,
    get k (fold_left (fun o c => set (cat_id c) 0 o) cats o)
    = if existsb (CategoryId_eqb k) (map cat_id cats) then Some 0 else get k o.
Proof.
  induction cats as [|c cats IH]; intros o; simpl; [reflexivity|].
  rewrite IH, get_set.
  destruct (CategoryId_eqb k (cat_id c)); simpl;
    destruct (existsb (CategoryId_eqb k) (map cat_id cats)); reflexivity.
Qed.

Lemma get_zeroed (cats : list BudgetCategory) (cat : BudgetCategory) :
  In cat cats -> get (cat_id cat) (zeroed cats) = Some 0.
Proof.
  intros H. unfold zeroed. rewrite get_fold_zero.
  replace (existsb _ _) with true; [reflexivity|].
  symmetry. apply existsb_exists. exists (cat_id cat).
  split; [apply in_map, H | apply CategoryId_eqb_refl].
Qed.

Lemma mapM_Forall2 {A B : Type} (f : A -> result B) (R : A -> B -> Prop)
  (l : list A) :
  (forall a, In a l -> exists b, f a = Ok b /\ R a b) ->
  exists bs, mapM f l = Ok bs /\ Forall2 R l bs.
Proof.
  induction l as [|a l IH]; intros H.
  - exists []. split; [reflexivity | constructor].
  - destruct (H a (or_introl eq_refl)) as (b & Eb & Rb).
    destruct IH as (bs & Ebs & Rbs); [intros x Hx; apply H; right; exact Hx|].
    exists (b :: bs). split; [simpl; rewrite Eb; simpl; rewrite Ebs; reflexivity|].
    constructor; assumption.
Qed.

(** ** Well-formed breakdowns *)

Lemma wellFormed_length (cats : list BudgetCategory) (bd : list MonthData) :
  wellFormed cats bd = true -> length bd = 12%nat.
Proof.
  unfold wellFormed. rewrite andb_true_iff, Nat.eqb_eq. tauto.
Qed.

Lemma wellFormed_lookup (cats : list BudgetCategory) (bd : list MonthData) (z : Z) :
  wellFormed cats bd = true -> (0 <= z < 12)%Z ->
  exists md, bd !! Z.to_nat z = Some md
             /\ forall cat, In cat cats -> exists v, get (cat_id cat) md = Some v.
Proof.
  intros W Hz. pose proof (wellFormed_length cats bd W) as L.
  destruct (lookup_lt_is_Some_2 bd (Z.to_nat z)) as [md Hmd]; [lia|].
  exists md. split; [exact Hmd|]. intros cat Hcat.
  unfold wellFormed in W. apply andb_true_iff in W. destruct W as [_ W].
  rewrite forallb_forall in W.
  apply (hasKeys_get (map cat_id cats)); [|apply in_map, Hcat].
  apply W. apply list_elem_of_In. eapply list_elem_of_lookup_2. exact Hmd.
Qed.

Lemma wellFormed_bucket (cats : list BudgetCategory) (bd : list MonthData)
  (z : Z) (cat : BudgetCategory) :
  wellFormed cats bd = true -> (0 <= z < 12)%Z -> In cat cats ->
  exists md, index bd (Int z) = Some md
             /\ get (cat_id cat) md = Some (valueAt bd z (cat_id cat)).
Proof.
  intros W Hz Hcat. destruct (wellFormed_lookup cats bd z W Hz) as (md & Hmd & G).
  destruct (G cat Hcat) as [v Hv]. exists md.
  unfold valueAt, bucket. rewrite index_Int by lia. rewrite Hmd, Hv. tauto.
Qed.

(** ** Category progress *)

Lemma gt_true (a b : Q) : gt a b = true <-> b < a.
Proof.
  unfold gt. rewrite negb_true_iff, <- not_true_iff_false, Qle_bool_iff.
  split; [apply Qnot_le_lt | apply Qlt_not_le].
Qed.

Lemma gt_false (a b : Q) : gt a b = false <-> a <= b.
Proof. unfold gt. rewrite negb_false_iff. apply Qle_bool_iff. Qed.

Lemma carry_nonneg (s v b : Q) : 0 <= carry s v b.
Proof.
  unfold carry. cbv zeta. destruct (gt (s + v - b) 0) eqn:E; [|lra].
  apply gt_true in E. lra.
Qed.

Lemma carry_max (s v b : Q) : carry s v b == Qmax (s + v - b) 0.
Proof.
  unfold carry. cbv zeta.
  destruct (Q.max_spec (s + v - b) 0) as [[H ->]|[H ->]];
    destruct (gt (s + v - b) 0) eqn:E;
    try apply gt_true in E; try apply gt_false in E; lra.
Qed.

Lemma carry_underrun (s v b : Q) : s + v <= b -> carry s v b = 0.
Proof.
  intros H. unfold carry. cbv zeta.
  replace (gt (s + v - b) 0) with false; [reflexivity|].
  symmetry. apply gt_false. lra.
Qed.

Lemma Qmax_zero_compat (a b : Q) : a == b -> Qmax a 0 == Qmax b 0.
Proof.
  intros H.
  destruct (Q.max_spec a 0) as [[Ha ->]|[Ha ->]];
    destruct (Q.max_spec b 0) as [[Hb ->]|[Hb ->]]; lra.
Qed.

Lemma rolloverInto_nonneg (bd : list MonthData) (cat : BudgetCategory) (n : nat) :
  0 <= rolloverInto bd cat n.
Proof. destruct n; simpl; [lra | apply Q.le_max_r]. Qed.

Lemma orZero_Some (v : Q) : orZero (Some v) == v.
Proof.
  simpl. destruct (Qeq_bool v 0) eqn:E; [|reflexivity].
  apply Qeq_bool_eq in E. symmetry. exact E.
Qed.

Lemma zeroed_keys_in (cats : list BudgetCategory) (k : CategoryId) :
  In k (keys (zeroed cats)) -> exists cat, In cat cats /\ cat_id cat = k.
Proof.
  intros H. apply get_In_keys in H. destruct H as [v H].
  unfold zeroed in H. rewrite get_fold_zero in H.
  destruct (existsb (CategoryId_eqb k) (map cat_id cats)) eqn:E; [|discriminate].
  apply existsb_exists in E. destruct E as (k' & Hin & Hk).
  apply CategoryId_eqb_eq in Hk; subst k'.
  apply in_map_iff in Hin. destruct Hin as (cat & <- & Hcat). eauto.
Qed.

Lemma total_valueIn (l : list MonthData) (k : CategoryId) :
  length l = 12%nat ->
  total (map (fun md => valueIn md k) l) = yearlyTotal l k.
Proof.
  intros L.
  do 12 (destruct l as [|? l]; [discriminate L|]).
  destruct l; [|discriminate L]. reflexivity.
Qed.

Section Progress.

Variable cats : list BudgetCategory.
Variable bd : list MonthData.
Hypothesis distinct : NoDup (map cat_id cats).
Hypothesis wf : wellFormed cats bd = true.

Lemma rolloverStep_ok (z : Z) (r : obj) (cat : BudgetCategory) (v : Q) :
  (0 <= z < 12)%Z -> In cat cats -> get (cat_id cat) r = Some v ->
  rolloverStep bd z r cat
  = Ok (set (cat_id cat) (carry (valueAt bd z (cat_id cat)) v (cat_budget cat)) r).
Proof using wf.
  intros Hz Hcat Hv.
  destruct (wellFormed_bucket cats bd z cat wf Hz Hcat) as (md & Hmd & Hs).
  unfold rolloverStep, elem, numProp. rewrite Hmd. simpl. rewrite Hs. simpl.
  rewrite Hv. reflexivity.
Qed.

(** One month of the loop: every category's rollover is carried once. *)
Lemma rollover_pass (z : Z) (r : obj) :
  (0 <= z < 12)%Z ->
  (forall cat, In cat cats -> exists v, get (cat_id cat) r = Some v) ->
  exists r',
    forEach cats (rolloverStep bd z) r = Ok r' /\ keys r' = keys r
    /\ forall cat v, In cat cats -> get (cat_id cat) r = Some v ->
         get (cat_id cat) r'
         = Some (carry (valueAt bd z (cat_id cat)) v (cat_budget cat)).
Proof using distinct wf.
  intros Hz Hget.
  destruct (forEach_keyed cat_id
              (fun cat v => carry (valueAt bd z (cat_id cat)) v (cat_budget cat))
              (rolloverStep bd z) cats distinct r) as (r' & E & K & V & _).
  - intros o' cat v Hcat _ Hv. apply rolloverStep_ok; assumption.
  - exact Hget.
  - exists r'. auto.
Qed.

Lemma rolloversBefore_succ (k : Z) (r r' : obj) :
  (0 <= k)%Z ->
  rolloversBefore cats bd k = Ok r ->
  forEach cats (rolloverStep bd k) r = Ok r' ->
  rolloversBefore cats bd (k + 1) = Ok r'.
Proof using Type.
  intros Hk E1 E2. unfold rolloversBefore in *.
  rewrite range_snoc, forEach_app by lia. rewrite E1. simpl.
  rewrite E2. reflexivity.
Qed.

(** The state of the loop after [n] months is the chained rollover. *)
Lemma rolloversBefore_spec (n : nat) :
  (n <= 12)%nat ->
  exists r,
    rolloversBefore cats bd (Z.of_nat n) = Ok r
    /\ keys r = keys (zeroed cats)
    /\ forall cat, In cat cats ->
         exists v, get (cat_id cat) r = Some v /\ v == rolloverInto bd cat n.
Proof using distinct wf.
  induction n as [|n IH]; intros Hn.
  - exists (zeroed cats). split; [reflexivity|]. split; [reflexivity|].
    intros cat Hcat. exists 0. split; [apply get_zeroed, Hcat | reflexivity].
  - destruct IH as (r & E & K & V); [lia|].
    destruct (rollover_pass (Z.of_nat n) r) as (r' & E' & K' & V'); [lia| |].
    { intros cat Hcat. destruct (V cat Hcat) as (v & Hv & _). eauto. }
    exists r'. split; [|split; [congruence|]].
    + replace (Z.of_nat (S n)) with (Z.of_nat n + 1)%Z by lia.
      apply (rolloversBefore_succ _ r r'); [lia | exact E | exact E'].
    + intros cat Hcat. destruct (V cat Hcat) as (v & Hv & Hroll).
      eexists. split; [apply (V' cat v Hcat Hv)|].
      rewrite carry_max. simpl. apply Qmax_zero_compat. rewrite Hroll. reflexivity.
Qed.

Lemma rolloversBefore_nonneg (n : nat) (r : obj) (k : CategoryId) (v : Q) :
  (n <= 12)%nat -> rolloversBefore cats bd (Z.of_nat n) = Ok r ->
  get k r = Some v -> 0 <= v.
Proof using distinct wf.
  intros Hn E Hv. destruct (rolloversBefore_spec n Hn) as (r0 & E0 & K & V).
  rewrite E in E0. injection E0 as <-.
  destruct (zeroed_keys_in cats k) as (cat & Hcat & <-).
  { rewrite <- K. apply get_In_keys. eauto. }
  destruct (V cat Hcat) as (v' & Hv' & Hroll).
  rewrite Hv in Hv'. injection Hv' as <-.
  rewrite Hroll. apply rolloverInto_nonneg.
Qed.

(** The view of month [M]. *)
Lemma progress_month (M : Z) :
  (0 <= M < 12)%Z ->
  exists ps,
    categoryProgressData cats bd (MonthIndex M) = Ok ps
    /\ Forall2 (monthProgress bd M) cats ps.
Proof using distinct wf.
  intros HM. destruct (rolloversBefore_spec (Z.to_nat M)) as (r & E & K & V); [lia|].
  rewrite Z2Nat.id in E by lia.
  unfold categoryProgressData. rewrite E. simpl.
  apply mapM_Forall2. intros cat Hcat.
  destruct (wellFormed_bucket cats bd M cat wf HM Hcat) as (md & Hmd & Hs).
  destruct (V cat Hcat) as (v & Hv & Hroll).
  unfold elem, numProp. rewrite Hmd. simpl. rewrite Hs. simpl.
  eexists. split; [reflexivity|].
  unfold monthProgress. simpl. rewrite Hv.
  split; [reflexivity|]. rewrite !orZero_Some, Hroll.
  split; [reflexivity|]. split; reflexivity.
Qed.

Lemma sum_loop (k : CategoryId) (l : list MonthData) :
  forall s0,
    (forall md, In md l -> exists v, get k md = Some v) ->
    exists s,
      forEach l (fun sum month => let* v := numProp month k in Ok (sum + v)) s0
      = Ok s
      /\ s == s0 + total (map (fun md => valueIn md k) l).
Proof using Type.
  induction l as [|md l IH]; intros s0 H.
  - exists s0. split; [reflexivity | simpl; ring].
  - destruct (H md (or_introl eq_refl)) as [v Hv].
    destruct (IH (s0 + v)) as (s & E & Hs); [intros x Hx; apply H; right; exact Hx|].
    exists s. split.
    + simpl. unfold numProp at 1. rewrite Hv. simpl. exact E.
    + rewrite Hs. simpl. unfold valueIn at 2. rewrite Hv. ring.
Qed.

(** The year view. *)
Lemma progress_year :
  exists ps,
    categoryProgressData cats bd Year = Ok ps
    /\ Forall2 (yearProgress bd) cats ps.
Proof using wf.
  unfold categoryProgressData. apply mapM_Forall2. intros cat Hcat.
  destruct (sum_loop (cat_id cat) bd 0) as (s & E & Hs).
  { intros md Hmd. apply list_elem_of_In, list_elem_of_lookup in Hmd.
    destruct Hmd as [i Hi].
    pose proof (wellFormed_length cats bd wf) as L.
    pose proof (lookup_lt_Some _ _ _ Hi) as Hlt.
    destruct (wellFormed_lookup cats bd (Z.of_nat i) wf) as (md' & Hmd' & G); [lia|].
    rewrite Nat2Z.id in Hmd'.
    assert (md' = md) by congruence. subst md'. apply G, Hcat. }
  rewrite E. simpl. eexists. split; [reflexivity|].
  unfold yearProgress. simpl. split; [reflexivity|].
  split; [|split; reflexivity].
  rewrite Hs, (total_valueIn bd _ (wellFormed_length cats bd wf)). ring.
Qed.

End Progress.

Lemma Forall2_right {A B : Type} (R : A -> B -> Prop) (P : B -> Prop)
  (l : list A) (l' : list B) :
  Forall2 R l l' -> (forall a b, In a l -> R a b -> P b) -> Forall P l'.
Proof.
  intros H. induction H as [|a b l l' HR _ IH]; intros HP; constructor.
  - apply (HP a b); [left; reflexivity | exact HR].
  - apply IH. intros a' b' Hin. apply HP. right; exact Hin.
Qed.

Lemma initial_distinct : NoDup (map cat_id initialCategories).
Proof. exact allIds_NoDup. Qed.

(** C2. For a breakdown with its twelve buckets and a list of categories
    with distinct ids, the loop over the months before [M] leaves in
    [rollovers] the chained rollover (zero at first, then each month the
    larger of spend plus rollover minus budget and zero), and the view of
    month [M] reports for each category this rollover, the month's value
    plus it as [spent], and the category's own budget. *)
Theorem categoryProgress_month (cats : list BudgetCategory)
  (bd : list MonthData) (M : Z) :
  NoDup (map cat_id cats) -> wellFormed cats bd = true -> (0 <= M < 12)%Z ->
  exists r ps,
    rolloversBefore cats bd M = Ok r
    /\ (forall cat, In cat cats ->
          exists v, get (cat_id cat) r = Some v
                    /\ v == rolloverInto bd cat (Z.to_nat M))
    /\ categoryProgressData cats bd (MonthIndex M) = Ok ps
    /\ Forall2 (monthProgress bd M) cats ps
    /\ (forall m cat, (0 <= m < 12)%Z -> In cat cats ->
          bucket bd m (cat_id cat) = Some (valueAt bd m (cat_id cat))).
Proof.
  intros ND W HM.
  destruct (rolloversBefore_spec cats bd ND W (Z.to_nat M)) as (r & E & _ & V); [lia|].
  destruct (progress_month cats bd ND W M HM) as (ps & Eps & F).
  rewrite Z2Nat.id in E by lia.
  exists r, ps. repeat (split; [assumption|]).
  intros m cat Hm Hcat.
  destruct (wellFormed_bucket cats bd m cat W Hm Hcat) as (md & Hmd & Hs).
  unfold bucket. rewrite Hmd. exact Hs.
Qed.

Section YearAndSign.

Variable newDate : string -> JSDate.

(** C3. In the year view every category is reported with the sum of its
    twelve buckets as [spent], twelve times its budget, and rollover 0: for
    every breakdown with its twelve buckets and every category list, and so
    for the breakdown of any entry list. *)
Theorem categoryProgress_year :
  (forall cats bd, wellFormed cats bd = true ->
     exists ps, categoryProgressData cats bd Year = Ok ps
                /\ Forall2 (yearProgress bd) cats ps)
  /\ (forall entries Y,
        exists bd ps,
          monthlyBreakdown newDate initialCategories entries Y = Ok bd
          /\ categoryProgressData initialCategories bd Year = Ok ps
          /\ Forall2 (yearProgress bd) initialCategories ps
          /\ Forall (fun p => rollover p = 0
                              /\ exists cat, In cat initialCategories
                                   /\ p_id p = cat_id cat
                                   /\ budget p = cat_budget cat * 12) ps).
Proof.
  split.
  - intros cats bd W. apply progress_year, W.
  - intros entries Y.
    destruct (monthlyBreakdown_values newDate entries Y) as (bd & E & S & _).
    destruct (progress_year initialCategories bd (Shape_wellFormed _ bd S))
      as (ps & Eps & F).
    exists bd, ps. split; [exact E|]. split; [exact Eps|]. split; [exact F|].
    apply (Forall2_right _ _ _ _ F). intros cat p Hin (Hid & _ & Hb & Hr).
    split; [exact Hr|]. exists cat. split; [exact Hin|]. split; assumption.
Qed.

(** C9. For every entry list, year and month [M], the rollover of every
    category is at least zero after each month of the loop and in what the
    view of month [M] reports; and a month whose spend plus rollover does
    not exceed the budget leaves the rollover at zero. *)
Theorem rollover_never_negative (entries : list BudgetEntry) (Y M : Z) :
  (0 <= M < 12)%Z ->
  exists bd,
    monthlyBreakdown newDate initialCategories entries Y = Ok bd
    /\ (forall k, (0 <= k <= M)%Z ->
          exists r, rolloversBefore initialCategories bd k = Ok r
                    /\ forall c, exists v, get c r = Some v /\ 0 <= v)
    /\ (forall k cat, (0 <= k < M)%Z -> In cat initialCategories ->
          exists r r' s v,
            rolloversBefore initialCategories bd k = Ok r
            /\ rolloversBefore initialCategories bd (k + 1) = Ok r'
            /\ bucket bd k (cat_id cat) = Some s
            /\ get (cat_id cat) r = Some v
            /\ (s + v <= cat_budget cat -> get (cat_id cat) r' = Some 0))
    /\ exists ps,
         categoryProgressData initialCategories bd (MonthIndex M) = Ok ps
         /\ Forall (fun p => 0 <= rollover p) ps.
Proof.
  intros HM.
  destruct (monthlyBreakdown_values newDate entries Y) as (bd & E & S & _).
  pose proof (Shape_wellFormed initialCategories bd S) as W.
  pose proof initial_distinct as ND.
  exists bd. split; [exact E|]. split; [|split].
  - intros k Hk.
    destruct (rolloversBefore_spec _ bd ND W (Z.to_nat k)) as (r & Er & K & V); [lia|].
    exists r. split; [rewrite Z2Nat.id in Er by lia; exact Er|].
    intros c. destruct (keys_Full r K c) as [v Hv]. exists v. split; [exact Hv|].
    apply (rolloversBefore_nonneg _ bd ND W (Z.to_nat k) r c v); [lia|exact Er|exact Hv].
  - intros k cat Hk Hcat.
    destruct (rolloversBefore_spec _ bd ND W (Z.to_nat k)) as (r & Er & K & V); [lia|].
    rewrite Z2Nat.id in Er by lia.
    destruct (rollover_pass _ bd ND W k r) as (r' & E' & _ & V'); [lia| |].
    { intros c Hc. destruct (V c Hc) as (v & Hv & _). eauto. }
    destruct (V cat Hcat) as (v & Hv & _).
    destruct (bucket_Some bd k (cat_id cat) S) as [s Hs]; [lia|].
    exists r, r', s, v. split; [exact Er|].
    split; [apply (rolloversBefore_succ _ bd k r r'); [lia | exact Er | exact E']|].
    split; [exact Hs|]. split; [exact Hv|].
    intros Hle. rewrite (V' cat v Hcat Hv), (bucket_valueAt bd k _ s Hs).
    rewrite carry_underrun by exact Hle. reflexivity.
  - destruct (progress_month _ bd ND W M HM) as (ps & Eps & F).
    exists ps. split; [exact Eps|].
    apply (Forall2_right _ _ _ _ F). intros cat p _ (_ & _ & _ & Hr).
    rewrite Hr. apply rolloverInto_nonneg.
Qed.

End YearAndSign.

(** ** Sums *)

Lemma total_map_plus {A : Type} (f g : A -> Q) (l : list A) :
  total (map (fun x => f x + g x) l) == total (map f l) + total (map g l).
Proof. induction l as [|a l IH]; simpl; [ring | rewrite IH; ring]. Qed.

Lemma total_map_ext {A : Type} (f g : A -> Q) (l : list A) :
  (forall x, In x l -> f x == g x) -> total (map f l) == total (map g l).
Proof.
  induction l as [|a l IH]; intros H; simpl; [reflexivity|].
  rewrite (H a (or_introl eq_refl)), IH; [reflexivity|].
  intros x Hx. apply H. right; exact Hx.
Qed.

Lemma fold_left_total (l : list Q) (s0 : Q) :
  fold_left Qplus l s0 == s0 + total l.
Proof.
  revert s0. induction l as [|q l IH]; intros s0; simpl; [ring|].
  rewrite IH. ring.
Qed.

Lemma range_year : range (Int 0) 12 = [0; 1; 2; 3; 4; 5; 6; 7; 8; 9; 10; 11]%Z.
Proof. reflexivity. Qed.

Lemma In_range_year (m : Z) : In m (range (Int 0) 12) -> (0 <= m < 12)%Z.
Proof. rewrite range_year. simpl. intuition lia. Qed.

(** An object with the nine keys, spelled out. *)
Ltac explode_keys o K :=
  do 9 (destruct o as [|[? ?] o]; [discriminate K|];
        simpl in K; injection K as -> K);
  destruct o; [clear K | discriminate K].

Lemma sumValues_allIds (o : obj) :
  keys o = allIds -> sumValues o == total (map (valueIn o) allIds).
Proof.
  intros K. unfold sumValues. rewrite fold_left_total.
  explode_keys o K. unfold valueIn. simpl. ring.
Qed.

(** ** The three copies of the spend arithmetic *)

(** Evaluate the month counts of a goal. *)
Ltac eval_months :=
  repeat match goal with
    | |- context [inject_Z ?z] =>
        let v := eval vm_compute in (inject_Z z) in change (inject_Z z) with v
    end.

Section Copies.

Variable newDate : string -> JSDate.

Lemma contribution_category (Y m : Z) (c : CategoryId) (e : BudgetEntry) :
  contribution newDate Y m c e
  == if CategoryId_eqb (categoryId e) c
     then contribution newDate Y m (categoryId e) e else 0.
Proof.
  destruct (CategoryId_eqb (categoryId e) c) eqn:E.
  - apply CategoryId_eqb_eq in E. subst c. reflexivity.
  - unfold contribution, oneTimeIn, recurringBefore, recurringSince.
    rewrite E, !andb_false_r. simpl. ring.
Qed.

Lemma monthShare_own (Y m : Z) (e : BudgetEntry) :
  monthShare newDate Y m e == contribution newDate Y m (categoryId e) e.
Proof.
  unfold monthShare.
  rewrite (total_map_ext _ _ _ (fun c _ => contribution_category Y m c e)).
  destruct (categoryId e); simpl; ring.
Qed.

Lemma yearShare_own (Y : Z) (e : BudgetEntry) :
  yearShare newDate Y e
  == total (map (fun m => contribution newDate Y m (categoryId e) e)
                (range (Int 0) 12)).
Proof.
  unfold yearShare. apply total_map_ext. intros m _. apply monthShare_own.
Qed.

(** One entry of the wishlist loop adds its shares to the two totals. *)
Lemma overviewStep_spec (Y : Z) (Mo : Month) (ty tm : Q) (e : BudgetEntry) :
  exists ty' tm',
    overviewStep newDate (Int Y) (Int (monthIndex Mo)) (ty, tm) e = Ok (ty', tm')
    /\ ty' == ty + yearShare newDate Y e
    /\ tm' == tm + monthShare newDate Y (monthIndex Mo) e.
Proof.
  unfold overviewStep.
  setoid_rewrite yearShare_own. setoid_rewrite monthShare_own.
  rewrite range_year.
  unfold contribution, oneTimeIn, recurringBefore, recurringSince,
    entryYear, entryMonth.
  rewrite CategoryId_eqb_refl.
  destruct (entryDateOf newDate e) as [|y mo];
    cbn [getUTCFullYear getUTCMonth lt le strictEq monthsApplied].
  - exists ty, tm. split; [destruct (truthy (isRecurring e)); reflexivity|].
    rewrite !andb_false_r. simpl. split; ring.
  - destruct (truthy (isRecurring e)); cbn [negb andb].
    + destruct (Z.ltb_spec y Y) as [Hlt|Hge].
      * destruct (Z.eqb_spec y Y); [lia|].
        eexists _, _. split; [reflexivity|]. simpl. split; ring.
      * destruct (Z.eqb_spec y Y) as [->|Hne].
        -- cbn [bind]. destruct (monthIndex mo <=? monthIndex Mo)%Z;
             (eexists _, _; split; [reflexivity|]);
             (split; [destruct mo; simpl; eval_months; ring | simpl; ring]).
        -- eexists _, _. split; [reflexivity|]. simpl. split; ring.
    + destruct (Z.eqb_spec y Y) as [->|Hne].
      * destruct (monthIndex mo =? monthIndex Mo)%Z;
          (eexists _, _; split; [reflexivity|]);
          (split; [destruct mo; simpl; ring | simpl; ring]).
      * eexists _, _. split; [reflexivity|]. simpl. split; ring.
Qed.

Lemma overview_loop (Y : Z) (Mo : Month) (es : list BudgetEntry) :
  forall ty tm,
  exists ty' tm',
    forEach es (overviewStep newDate (Int Y) (Int (monthIndex Mo))) (ty, tm)
    = Ok (ty', tm')
    /\ ty' == ty + total (map (yearShare newDate Y) es)
    /\ tm' == tm + total (map (monthShare newDate Y (monthIndex Mo)) es).
Proof.
  induction es as [|e es IH]; intros ty tm.
  - exists ty, tm. split; [reflexivity|]. simpl. split; ring.
  - destruct (overviewStep_spec Y Mo ty tm e) as (ty1 & tm1 & E1 & Hy1 & Hm1).
    destruct (IH ty1 tm1) as (ty2 & tm2 & E2 & Hy2 & Hm2).
    exists ty2, tm2. split; [cbn [forEach]; rewrite E1; exact E2|].
    cbn [map]. rewrite !total_cons, Hy2, Hm2, Hy1, Hm1. split; ring.
Qed.

(** One entry of the reduction of the dashboard adds its month share. *)
Lemma snapshotStep_spec (Y : Z) (Mo : Month) (t : Q) (e : BudgetEntry) :
  snapshotStep newDate (Int Y) (Int (monthIndex Mo)) t e
  == t + monthShare newDate Y (monthIndex Mo) e.
Proof.
  rewrite monthShare_own.
  unfold snapshotStep, contribution, oneTimeIn, recurringBefore, recurringSince,
    entryYear, entryMonth.
  rewrite CategoryId_eqb_refl.
  destruct (entryDateOf newDate e) as [|y mo];
    cbn [getUTCFullYear getUTCMonth lt le strictEq].
  - destruct (truthy (isRecurring e)); simpl; ring.
  - destruct (truthy (isRecurring e)); cbn [negb andb orb].
    + destruct (Z.ltb_spec y Y) as [Hlt|Hge]; cbn [orb].
      * destruct (Z.eqb_spec y Y); [lia|]. simpl. ring.
      * destruct (y =? Y)%Z, (monthIndex mo <=? monthIndex Mo)%Z; simpl; ring.
    + destruct (y =? Y)%Z, (monthIndex mo =? monthIndex Mo)%Z; simpl; ring.
Qed.

Lemma snapshot_loop (Y : Z) (Mo : Month) (es : list BudgetEntry) :
  forall t,
    fold_left (snapshotStep newDate (Int Y) (Int (monthIndex Mo))) es t
    == t + total (map (monthShare newDate Y (monthIndex Mo)) es).
Proof.
  induction es as [|e es IH]; intros t; cbn [fold_left map].
  - unfold total. simpl. ring.
  - rewrite total_cons, IH, snapshotStep_spec. ring.
Qed.

Lemma expected_month_total (Y m : Z) (es : list BudgetEntry) :
  total (map (fun c => expectedSpend newDate es Y m c) allIds)
  == total (map (monthShare newDate Y m) es).
Proof.
  induction es as [|e es IH].
  - unfold expectedSpend, sumAmounts. simpl. ring.
  - rewrite (total_map_ext _ _ _ (fun c _ => expectedSpend_cons newDate e es Y m c)).
    rewrite total_map_plus, IH. reflexivity.
Qed.

Lemma expected_year_total (Y : Z) (es : list BudgetEntry) :
  total (map (fun m => total (map (fun c => expectedSpend newDate es Y m c) allIds))
             (range (Int 0) 12))
  == total (map (yearShare newDate Y) es).
Proof.
  induction es as [|e es IH].
  - unfold expectedSpend, sumAmounts. simpl. ring.
  - cbn [map]. rewrite total_cons, <- IH. unfold yearShare.
    rewrite <- total_map_plus. apply total_map_ext. intros m _.
    rewrite (total_map_ext _ _ _ (fun c _ => expectedSpend_cons newDate e es Y m c)).
    rewrite total_map_plus. reflexivity.
Qed.

Lemma bucketTotal_expected (bd : list MonthData) (es : list BudgetEntry) (Y m : Z) :
  (forall m c, (0 <= m < 12)%Z ->
     valueAt bd m c == expectedSpend newDate es Y m c) ->
  (0 <= m < 12)%Z ->
  bucketTotal bd m == total (map (monthShare newDate Y m) es).
Proof.
  intros V Hm. rewrite <- expected_month_total. unfold bucketTotal.
  apply total_map_ext. intros c _. apply V, Hm.
Qed.

Lemma yearTotal_expected (bd : list MonthData) (es : list BudgetEntry) (Y : Z) :
  (forall m c, (0 <= m < 12)%Z ->
     valueAt bd m c == expectedSpend newDate es Y m c) ->
  yearTotal bd == total (map (yearShare newDate Y) es).
Proof.
  intros V. rewrite <- expected_year_total. unfold yearTotal, bucketTotal.
  apply total_map_ext. intros m Hm. apply total_map_ext. intros c _.
  apply V, In_range_year, Hm.
Qed.

(** C5. With [Y] and [Mo] the current UTC year and month, the yearly spend
    of the wishlist view is the sum over the twelve buckets and all
    categories of the breakdown of [Y], and the monthly spend of the
    wishlist view and of the dashboard are both the sum over all categories
    of the bucket of [Mo]. *)
Theorem duplicated_views_agree (entries : list BudgetEntry) (Y : Z) (Mo : Month) :
  exists bd totalYearlySpent totalMonthlySpent,
    monthlyBreakdown newDate initialCategories entries Y = Ok bd
    /\ overviewTotals newDate (UTCDate Y Mo) entries
       = Ok (totalYearlySpent, totalMonthlySpent)
    /\ totalYearlySpent == yearTotal bd
    /\ totalMonthlySpent == bucketTotal bd (monthIndex Mo)
    /\ spentThisMonth (budgetSnapshot newDate (UTCDate Y Mo) entries)
       == bucketTotal bd (monthIndex Mo).
Proof.
  destruct (monthlyBreakdown_values newDate entries Y) as (bd & E & S & V).
  destruct (overview_loop Y Mo entries 0 0) as (ty & tm & Eo & Hy & Hm).
  exists bd, ty, tm. split; [exact E|]. split; [exact Eo|].
  pose proof (monthIndex_range Mo) as HMo.
  rewrite (yearTotal_expected bd entries Y V).
  rewrite (bucketTotal_expected bd entries Y _ V HMo).
  split; [rewrite Hy; ring|]. split; [rewrite Hm; ring|].
  unfold budgetSnapshot. cbn [spentThisMonth getUTCFullYear getUTCMonth].
  rewrite snapshot_loop. ring.
Qed.

End Copies.

(** ** The pie chart *)

Lemma get_valueIn (o : obj) (k : CategoryId) :
  keys o = allIds -> get k o = Some (valueIn o k).
Proof.
  intros K. destruct (keys_Full o K k) as [v Hv]. unfold valueIn. rewrite Hv.
  reflexivity.
Qed.

(** One month of the loop of the chart: every key of the month is added. *)
Lemma yearly_pass (md y : obj) :
  keys md = allIds -> keys y = allIds ->
  exists y',
    forEach (keys md)
      (fun yearly categoryId =>
         let* sofar := numProp yearly categoryId in
         let* v := numProp md categoryId in
         Ok (set categoryId (sofar + v) yearly)) y = Ok y'
    /\ keys y' = allIds
    /\ forall c, valueIn y' c = valueIn y c + valueIn md c.
Proof.
  intros Kmd Ky.
  destruct (forEach_keyed (fun k : CategoryId => k) (fun k v => v + valueIn md k)
              (fun yearly categoryId =>
                 let* sofar := numProp yearly categoryId in
                 let* v := numProp md categoryId in
                 Ok (set categoryId (sofar + v) yearly))
              (keys md)) with (o := y) as (y' & E & K & V & _).
  - rewrite map_id, Kmd. apply allIds_NoDup.
  - intros o' k v _ _ Hv. unfold numProp. rewrite Hv. simpl.
    rewrite (get_valueIn md k Kmd). reflexivity.
  - intros k _. apply keys_Full, Ky.
  - exists y'. split; [exact E|]. split; [congruence|].
    intros c. assert (Ky' : keys y' = allIds) by congruence.
    pose proof (V c (valueIn y c)) as Hc.
    rewrite (get_valueIn y' c Ky') in Hc.
    assert (Hin : In c (keys md)) by (rewrite Kmd; apply allIds_complete).
    specialize (Hc Hin (get_valueIn y c Ky)). congruence.
Qed.

Lemma yearly_loop (l : list MonthData) :
  Forall (fun md => keys md = allIds) l ->
  forall y, keys y = allIds ->
  exists y',
    forEach l
      (fun yearly month =>
         forEach (keys month)
           (fun yearly categoryId =>
              let* sofar := numProp yearly categoryId in
              let* v := numProp month categoryId in
              Ok (set categoryId (sofar + v) yearly))
           yearly) y = Ok y'
    /\ keys y' = allIds
    /\ forall c, valueIn y' c
                 == valueIn y c + total (map (fun md => valueIn md c) l).
Proof.
  induction 1 as [|md l Kmd _ IH]; intros y Ky.
  - exists y. split; [reflexivity|]. split; [exact Ky|]. intros c. simpl. ring.
  - destruct (yearly_pass md y Kmd Ky) as (y1 & E1 & K1 & V1).
    destruct (IH y1 K1) as (y2 & E2 & K2 & V2).
    exists y2. split; [cbn [forEach]; rewrite E1; exact E2|].
    split; [exact K2|]. intros c. rewrite V2, V1. cbn [map]. rewrite total_cons. ring.
Qed.

Lemma yearlySpending_spec (bd : list MonthData) :
  Shape bd ->
  exists y,
    yearlySpending initialCategories bd = Ok y
    /\ keys y = allIds
    /\ (forall c, valueIn y c == yearlyTotal bd c)
    /\ sumValues y == grandTotal bd.
Proof.
  intros [L F].
  destruct (yearly_loop bd F (zeroed initialCategories) eq_refl) as (y & E & K & V).
  assert (Vy : forall c, valueIn y c == yearlyTotal bd c).
  { intros c. rewrite V, (total_valueIn bd c L).
    destruct c; unfold valueIn; simpl; ring. }
  exists y. split; [exact E|]. split; [exact K|]. split; [exact Vy|].
  rewrite (sumValues_allIds y K). unfold grandTotal.
  apply total_map_ext. intros c _. apply Vy.
Qed.

(** The chart, for a breakdown as the builder leaves it. *)
Lemma chart_spec (bd : list MonthData) :
  Shape bd ->
  exists y,
    yearlySpending initialCategories bd = Ok y
    /\ keys y = allIds
    /\ (forall c, valueIn y c == yearlyTotal bd c)
    /\ sumValues y == grandTotal bd
    /\ (sumValues y == 0 ->
        categorySpendingDataForChart initialCategories bd = Ok [])
    /\ (~ sumValues y == 0 ->
        exists slices,
          Forall2 (sliceOf y) initialCategories slices
          /\ categorySpendingDataForChart initialCategories bd
             = Ok (List.filter (fun d => gt (value d) 0) slices)).
Proof.
  intros S. destruct (yearlySpending_spec bd S) as (y & E & K & V & T).
  exists y. split; [exact E|]. split; [exact K|]. split; [exact V|].
  split; [exact T|]. unfold categorySpendingDataForChart. rewrite E. cbn [bind].
  split.
  - intros H0. apply Qeq_bool_iff in H0. rewrite H0. reflexivity.
  - intros Hne. destruct (Qeq_bool (sumValues y) 0) eqn:Eb.
    { apply Qeq_bool_iff in Eb. contradiction. }
    destruct (mapM_Forall2
                (fun cat =>
                   let* v := numProp y (cat_id cat) in
                   let* ratio := div v (sumValues y) in
                   Ok (mkSlice (cat_id cat) (cat_name cat) v (ratio * 100)
                         (cat_color cat)))
                (sliceOf y) initialCategories) as (slices & Es & Fs).
    + intros cat _. unfold numProp, div.
      rewrite (get_valueIn y (cat_id cat) K), Eb. cbn [bind].
      eexists. split; reflexivity.
    + exists slices. split; [exact Fs|]. rewrite Es. reflexivity.
Qed.

Lemma total_nonneg {A : Type} (f : A -> Q) (l : list A) :
  (forall x, In x l -> 0 <= f x) -> 0 <= total (map f l).
Proof.
  induction l as [|a l IH]; intros H; simpl; [lra|].
  pose proof (H a (or_introl eq_refl)).
  assert (0 <= total (map f l)) by (apply IH; intros x Hx; apply H; right; exact Hx).
  unfold total in *. lra.
Qed.

Lemma total_zero_nonneg {A : Type} (f : A -> Q) (l : list A) :
  (forall x, In x l -> 0 <= f x) -> total (map f l) == 0 ->
  forall x, In x l -> f x == 0.
Proof.
  induction l as [|a l IH]; intros H T x Hx; [destruct Hx|].
  pose proof (H a (or_introl eq_refl)) as Ha.
  assert (Hl : forall y, In y l -> 0 <= f y) by (intros y Hy; apply H; right; exact Hy).
  pose proof (total_nonneg f l Hl) as Hn.
  cbn [map] in T. rewrite total_cons in T.
  destruct Hx as [<-|Hx]; [lra|]. apply IH; [exact Hl | lra | exact Hx].
Qed.

Lemma total_map_scale {A : Type} (f : A -> Q) (T : Q) (l : list A) :
  ~ T == 0 ->
  total (map (fun x => f x / T * 100) l) == total (map f l) / T * 100.
Proof.
  intros HT. induction l as [|a l IH]; cbn [map].
  - unfold total. simpl. field. exact HT.
  - rewrite !total_cons, IH. field. exact HT.
Qed.

Lemma total_filter_zero {A : Type} (f : A -> Q) (P : A -> bool) (l : list A) :
  (forall x, In x l -> P x = false -> f x == 0) ->
  total (map f (List.filter P l)) == total (map f l).
Proof.
  induction l as [|a l IH]; intros H; [reflexivity|].
  assert (Hl : forall x, In x l -> P x = false -> f x == 0)
    by (intros x Hx; apply H; right; exact Hx).
  cbn [List.filter map]. destruct (P a) eqn:E; cbn [map]; rewrite !total_cons, ?IH by exact Hl.
  - reflexivity.
  - rewrite (H a (or_introl eq_refl) E). rewrite <- total_cons. unfold total. simpl. ring.
Qed.

Lemma filter_none {A : Type} (q : A -> bool) (l : list A) :
  (forall x, In x l -> q x = false) -> List.filter q l = [].
Proof.
  induction l as [|a l IH]; intros H; simpl; [reflexivity|].
  rewrite (H a (or_introl eq_refl)). apply IH. intros x Hx. apply H. right; exact Hx.
Qed.

Lemma Forall_filter_keep {A : Type} (P : A -> Prop) (f : A -> bool) (l : list A) :
  Forall P l -> Forall P (List.filter f l).
Proof.
  rewrite !Forall_forall. intros H x Hx.
  apply list_elem_of_In, filter_In in Hx. apply H, list_elem_of_In, Hx.
Qed.

Lemma gt_nonzero (a b : Q) : 0 <= a -> a == b -> gt a 0 = negb (Qeq_bool b 0).
Proof.
  intros Ha Hab. destruct (Qeq_bool b 0) eqn:E; simpl.
  - apply Qeq_bool_iff in E. apply gt_false. lra.
  - apply gt_true. apply Qeq_bool_neq in E. lra.
Qed.

(** The slices kept by the filter are those of the categories kept by [q]. *)
Lemma kept_slices (y : obj) (q : CategoryId -> bool)
  (cats : list BudgetCategory) (slices : list Slice) :
  Forall2 (sliceOf y) cats slices ->
  (forall cat, In cat cats -> gt (valueIn y (cat_id cat)) 0 = q (cat_id cat)) ->
  map slice_id (List.filter (fun d => gt (value d) 0) slices)
  = List.filter q (map cat_id cats).
Proof.
  induction 1 as [|cat s cats slices Hs _ IH]; intros Hq; [reflexivity|].
  cbn [List.filter map]. rewrite <- (Hq cat (or_introl eq_refl)).
  rewrite Hs at 1. cbn [value].
  destruct (gt (valueIn y (cat_id cat)) 0); cbn [map];
    rewrite IH by (intros c Hc; apply Hq; right; exact Hc);
    [rewrite Hs; reflexivity | reflexivity].
Qed.

Lemma slices_percentages (y : obj) (cats : list BudgetCategory)
  (slices : list Slice) :
  Forall2 (sliceOf y) cats slices ->
  map percentage slices
  = map (fun c => valueIn y c / sumValues y * 100) (map cat_id cats).
Proof.
  induction 1 as [|cat s cats slices Hs _ IH]; [reflexivity|].
  cbn [map]. rewrite IH, Hs. reflexivity.
Qed.

Section Chart.

Variable newDate : string -> JSDate.

Lemma sumAmounts_filter_nonneg (P : BudgetEntry -> bool) (es : list BudgetEntry) :
  Forall (fun e => 0 < amount e) es -> 0 <= sumAmounts (List.filter P es).
Proof.
  induction 1 as [|e es He _ IH].
  - unfold sumAmounts, total. simpl. lra.
  - rewrite sumAmounts_filter_cons. destruct (P e); lra.
Qed.

Lemma expectedSpend_nonneg (es : list BudgetEntry) (Y m : Z) (c : CategoryId) :
  Forall (fun e => 0 < amount e) es -> 0 <= expectedSpend newDate es Y m c.
Proof.
  intros H. unfold expectedSpend.
  pose proof (sumAmounts_filter_nonneg (oneTimeIn newDate Y m c) es H).
  pose proof (sumAmounts_filter_nonneg (recurringBefore newDate Y c) es H).
  pose proof (sumAmounts_filter_nonneg (recurringSince newDate Y m c) es H).
  lra.
Qed.

Lemma yearlyTotal_nonneg (bd : list MonthData) (es : list BudgetEntry) (Y : Z)
  (c : CategoryId) :
  Forall (fun e => 0 < amount e) es ->
  (forall m c, (0 <= m < 12)%Z ->
     valueAt bd m c == expectedSpend newDate es Y m c) ->
  0 <= yearlyTotal bd c.
Proof.
  intros H V. unfold yearlyTotal. apply total_nonneg. intros m Hm.
  rewrite (V m c (In_range_year m Hm)). apply expectedSpend_nonneg, H.
Qed.

(** C6. For the breakdown of entries with positive amounts, the slice list
    has one slice for each category whose yearly total is not zero, in the
    order of the categories, and no other; the value of a slice is that
    yearly total and its percentage is the value over the sum of all yearly
    totals, times 100; when that sum is zero the list is empty. *)
Theorem chart_slices (entries : list BudgetEntry) (Y : Z) :
  Forall (fun e => 0 < amount e) entries ->
  exists bd slices,
    monthlyBreakdown newDate initialCategories entries Y = Ok bd
    /\ categorySpendingDataForChart initialCategories bd = Ok slices
    /\ map slice_id slices
       = List.filter (fun c => negb (Qeq_bool (yearlyTotal bd c) 0)) allIds
    /\ Forall (fun s => value s == yearlyTotal bd (slice_id s)
                        /\ percentage s == value s / grandTotal bd * 100) slices
    /\ (grandTotal bd == 0 -> slices = []).
Proof.
  intros Hpos.
  destruct (monthlyBreakdown_values newDate entries Y) as (bd & E & S & V).
  destruct (chart_spec bd S) as (y & _ & K & Vy & T & Hzero & Hnonzero).
  pose proof (fun c => yearlyTotal_nonneg bd entries Y c Hpos V) as N.
  exists bd. destruct (Qeq_dec (sumValues y) 0) as [H0|Hne].
  - exists []. split; [exact E|]. split; [apply Hzero, H0|].
    split; [|split; [constructor | reflexivity]].
    symmetry. apply filter_none. intros c Hc.
    assert (Hc0 : yearlyTotal bd c == 0).
    { apply (total_zero_nonneg (yearlyTotal bd) allIds); [intros x _; apply N | | exact Hc].
      fold (grandTotal bd). rewrite <- T. exact H0. }
    apply Qeq_bool_iff in Hc0. rewrite Hc0. reflexivity.
  - destruct (Hnonzero Hne) as (slices & Fs & Ec).
    exists (List.filter (fun d => gt (value d) 0) slices).
    split; [exact E|]. split; [exact Ec|]. split; [|split].
    + apply (kept_slices y _ initialCategories slices Fs).
      intros cat _. apply gt_nonzero; [rewrite Vy; apply N | apply Vy].
    + apply Forall_filter_keep. apply (Forall2_right _ _ _ _ Fs).
      intros cat s _ ->. cbn [value percentage slice_id].
      split; [apply Vy|]. rewrite T. reflexivity.
    + intros G. rewrite <- T in G. contradiction.
Qed.

(** C7. For the breakdown of entries with positive amounts whose total
    yearly spend is not zero, the percentages of the slices sum to 100. *)
Theorem chart_percentages_sum (entries : list BudgetEntry) (Y : Z) :
  Forall (fun e => 0 < amount e) entries ->
  exists bd slices,
    monthlyBreakdown newDate initialCategories entries Y = Ok bd
    /\ categorySpendingDataForChart initialCategories bd = Ok slices
    /\ (~ grandTotal bd == 0 -> total (map percentage slices) == 100).
Proof.
  intros Hpos.
  destruct (monthlyBreakdown_values newDate entries Y) as (bd & E & S & V).
  destruct (chart_spec bd S) as (y & _ & K & Vy & T & Hzero & Hnonzero).
  pose proof (fun c => yearlyTotal_nonneg bd entries Y c Hpos V) as N.
  exists bd. destruct (Qeq_dec (sumValues y) 0) as [H0|Hne].
  - exists []. split; [exact E|]. split; [apply Hzero, H0|].
    intros G. rewrite <- T in G. contradiction.
  - destruct (Hnonzero Hne) as (slices & Fs & Ec).
    exists (List.filter (fun d => gt (value d) 0) slices).
    split; [exact E|]. split; [exact Ec|]. intros _.
    rewrite total_filter_zero.
    + rewrite (slices_percentages y _ _ Fs).
      rewrite (total_map_scale (valueIn y) (sumValues y) _ Hne).
      fold allIds. rewrite <- (sumValues_allIds y K). field. exact Hne.
    + intros s Hs Hgt. apply gt_false in Hgt.
      apply list_elem_of_In in Hs.
      pose proof (Forall2_right _ (fun s => exists cat, sliceOf y cat s) _ _ Fs
                    (fun cat s _ H => ex_intro _ cat H)) as Fex.
      rewrite Forall_forall in Fex. destruct (Fex s Hs) as (cat & ->).
      cbn [value percentage] in *.
      assert (H0 : valueIn y (cat_id cat) == 0).
      { pose proof (N (cat_id cat)) as Hn. rewrite <- Vy in Hn. lra. }
      rewrite H0. field. exact Hne.
Qed.

Lemma progressPercentage_guarded (cp : CategoryProgress) :
  exists q, progressPercentage cp = Ok q
            /\ (budget cp == 0 -> q = 0)
            /\ (0 < budget cp -> q == spent cp / budget cp * 100).
Proof.
  unfold progressPercentage, div. destruct (gt (budget cp) 0) eqn:G.
  - apply gt_true in G. destruct (Qeq_bool (budget cp) 0) eqn:E.
    { apply Qeq_bool_iff in E. lra. }
    eexists. split; [reflexivity|]. split; [intros H; lra | reflexivity].
  - apply gt_false in G. exists 0. split; [reflexivity|].
    split; [reflexivity | intros H; lra].
Qed.

(** C8. For every entry list and every period the navigation offers, the
    chart data and the category progress are computed without a division by
    zero: with a total spend of zero the chart has no slice, and the bar of
    a category whose budget is zero is at 0. *)
Theorem no_division_by_zero (entries : list BudgetEntry) (Y : Z) (p : Period) :
  validPeriod p ->
  exists bd slices ps,
    monthlyBreakdown newDate initialCategories entries Y = Ok bd
    /\ categorySpendingDataForChart initialCategories bd = Ok slices
    /\ (grandTotal bd == 0 -> slices = [])
    /\ categoryProgressData initialCategories bd p = Ok ps
    /\ Forall (fun cp => exists q, progressPercentage cp = Ok q) ps
    /\ forall cp : CategoryProgress,
         exists q, progressPercentage cp = Ok q /\ (budget cp == 0 -> q = 0).
Proof.
  intros Hp.
  destruct (monthlyBreakdown_values newDate entries Y) as (bd & E & S & V).
  destruct (chart_spec bd S) as (y & _ & K & Vy & T & Hzero & Hnonzero).
  pose proof (Shape_wellFormed initialCategories bd S) as W.
  assert (Hps : exists ps, categoryProgressData initialCategories bd p = Ok ps).
  { destruct p as [|M].
    - destruct (progress_year _ bd W) as (ps & Eps & _). eauto.
    - destruct (progress_month _ bd initial_distinct W M Hp) as (ps & Eps & _). eauto. }
  destruct Hps as [ps Eps].
  assert (Hcp : forall cp : CategoryProgress,
             exists q, progressPercentage cp = Ok q /\ (budget cp == 0 -> q = 0)).
  { intros cp. destruct (progressPercentage_guarded cp) as (q & Eq & H0 & _). eauto. }
  assert (Hall : Forall (fun cp => exists q, progressPercentage cp = Ok q) ps).
  { apply Forall_forall. intros cp _. destruct (Hcp cp) as (q & Eq & _). eauto. }
  exists bd. destruct (Qeq_dec (sumValues y) 0) as [H0|Hne].
  - exists [], ps. split; [exact E|]. split; [apply Hzero, H0|]. auto.
  - destruct (Hnonzero Hne) as (slices & Fs & Ec).
    exists (List.filter (fun d => gt (value d) 0) slices), ps.
    split; [exact E|]. split; [exact Ec|].
    split; [intros G; rewrite <- T in G; contradiction|]. auto.
Qed.

End Chart.

(** ** The totals of the budget view and of the wishlist view *)

Lemma total_exchange {A B : Type} (f : A -> B -> Q) (l1 : list A) (l2 : list B) :
  total (map (fun x => total (map (f x) l2)) l1)
  == total (map (fun y => total (map (fun x => f x y) l1)) l2).
Proof.
  induction l1 as [|a l1 IH]; cbn [map].
  - unfold total at 1. cbn [fold_right].
    induction l2 as [|b l2 IH2]; cbn [map]; [reflexivity|].
    rewrite total_cons, <- IH2. unfold total. simpl. ring.
  - rewrite total_cons, IH, <- total_map_plus. apply total_map_ext.
    intros y _. rewrite total_cons. reflexivity.
Qed.

(** The total of the year is the total of the chart. *)
Lemma yearTotal_grandTotal (bd : list MonthData) : yearTotal bd == grandTotal bd.
Proof.
  unfold yearTotal, bucketTotal, grandTotal, yearlyTotal.
  apply (total_exchange (fun m c => valueAt bd m c)).
Qed.

Lemma totalSpent_month (bd : list MonthData) (m : Z) :
  Shape bd -> (0 <= m < 12)%Z ->
  exists t, totalSpent bd (MonthIndex m) = Ok t /\ t == bucketTotal bd m.
Proof.
  intros S Hm. destruct (Shape_lookup bd m S Hm) as (md & Hmd & K).
  exists (sumValues md). split.
  - unfold totalSpent, elem. rewrite index_Int by lia. rewrite Hmd. reflexivity.
  - rewrite (sumValues_allIds md K). unfold bucketTotal.
    apply total_map_ext. intros c _.
    unfold valueAt, bucket. rewrite index_Int by lia. rewrite Hmd. reflexivity.
Qed.

Lemma totalSpent_year (bd : list MonthData) :
  Shape bd ->
  exists t, totalSpent bd Year = Ok t /\ t == yearTotal bd.
Proof.
  intros S. eexists. split; [reflexivity|].
  assert (H : forall (l : list MonthData) s0,
             fold_left (fun total month => total + sumValues month) l s0
             == s0 + total (map sumValues l)).
  { induction l as [|md l IH]; intros s0; cbn [fold_left map].
    - unfold total. simpl. ring.
    - rewrite IH, total_cons. ring. }
  rewrite H, yearTotal_grandTotal. unfold grandTotal.
  destruct S as [L F].
  rewrite (total_map_ext sumValues (fun md => total (map (valueIn md) allIds)) bd).
  - rewrite (total_exchange (fun md c => valueIn md c)).
    rewrite Qplus_0_l. apply total_map_ext. intros c _.
    rewrite (total_valueIn bd c L). reflexivity.
  - intros md Hmd. apply sumValues_allIds.
    rewrite Forall_forall in F. apply F, list_elem_of_In, Hmd.
Qed.

Section Remaining.

Variable newDate : string -> JSDate.

(** What the wishlist view shows: the budgets of the nine categories less
    the totals of the budget view. *)
Lemma budgetOverview_remaining (entries : list BudgetEntry) (Y : Z) (Mo : Month) :
  exists bd o spentYear spentMonth,
    monthlyBreakdown newDate initialCategories entries Y = Ok bd
    /\ totalSpent bd Year = Ok spentYear
    /\ totalSpent bd (MonthIndex (monthIndex Mo)) = Ok spentMonth
    /\ budgetOverview newDate (UTCDate Y Mo) entries = Ok o
    /\ remainingYearly o == 4800 * 12 - spentYear
    /\ remainingMonthly o == 4800 - spentMonth.
Proof.
  destruct (monthlyBreakdown_values newDate entries Y) as (bd & E & S & V).
  destruct (overview_loop newDate Y Mo entries 0 0) as (ty & tm & Eo & Hy & Hm).
  destruct (totalSpent_year bd S) as (sy & Esy & Hsy).
  destruct (totalSpent_month bd (monthIndex Mo) S (monthIndex_range Mo))
    as (sm & Esm & Hsm).
  assert (B : fold_left (fun sum cat => sum + cat_budget cat) initialCategories 0
              = 4800) by reflexivity.
  exists bd, (mkOverview (4800 * 12 - ty) (4800 - tm)), sy, sm.
  split; [exact E|]. split; [exact Esy|]. split; [exact Esm|]. split.
  - unfold budgetOverview, overviewTotals. cbn [getUTCFullYear getUTCMonth].
    rewrite Eo, B. reflexivity.
  - cbn [remainingYearly remainingMonthly].
    rewrite Hsy, Hsm, (yearTotal_expected newDate bd entries Y V).
    rewrite (bucketTotal_expected newDate bd entries Y _ V (monthIndex_range Mo)).
    rewrite Hy, Hm. split; ring.
Qed.

End Remaining.

(** ** The views on the sample data *)

Lemma categoryProgress_month_witness :
  NoDup (map cat_id oneCategory)
  /\ wellFormed oneCategory chainedYear = true
  /\ (0 <= 2 < 12)%Z
  /\ exists r ps,
       rolloversBefore oneCategory chainedYear 2 = Ok r
       /\ (forall cat, In cat oneCategory ->
             exists v, get (cat_id cat) r = Some v
                       /\ v == rolloverInto chainedYear cat (Z.to_nat 2))
       /\ categoryProgressData oneCategory chainedYear (MonthIndex 2) = Ok ps
       /\ Forall2 (monthProgress chainedYear 2) oneCategory ps
       /\ (forall m cat, (0 <= m < 12)%Z -> In cat oneCategory ->
             bucket chainedYear m (cat_id cat)
             = Some (valueAt chainedYear m (cat_id cat))).
Proof.
  assert (ND : NoDup (map cat_id oneCategory)).
  { simpl. apply NoDup_singleton. }
  assert (HM : (0 <= 2 < 12)%Z) by lia.
  split; [exact ND|]. split; [reflexivity|]. split; [exact HM|].
  exact (categoryProgress_month oneCategory chainedYear 2 ND eq_refl HM).
Defined.

Lemma categoryProgress_year_witness :
  wellFormed oneCategory chainedYear = true
  /\ exists ps, categoryProgressData oneCategory chainedYear Year = Ok ps
                /\ Forall2 (yearProgress chainedYear) oneCategory ps.
Proof.
  split; [reflexivity|].
  exact (proj1 (categoryProgress_year isoDate) oneCategory chainedYear eq_refl).
Defined.

Lemma sample_amounts_positive : Forall (fun e => 0 < amount e) sampleEntries.
Proof. repeat constructor. Defined.

Lemma chart_slices_witness :
  Forall (fun e => 0 < amount e) sampleEntries
  /\ exists bd slices,
       monthlyBreakdown isoDate initialCategories sampleEntries 2023 = Ok bd
       /\ categorySpendingDataForChart initialCategories bd = Ok slices
       /\ map slice_id slices
          = List.filter (fun c => negb (Qeq_bool (yearlyTotal bd c) 0)) allIds
       /\ Forall (fun s => value s == yearlyTotal bd (slice_id s)
                           /\ percentage s == value s / grandTotal bd * 100) slices
       /\ (grandTotal bd == 0 -> slices = []).
Proof.
  split; [exact sample_amounts_positive|].
  exact (chart_slices isoDate sampleEntries 2023 sample_amounts_positive).
Defined.

Lemma chart_percentages_sum_witness :
  Forall (fun e => 0 < amount e) sampleEntries
  /\ exists bd slices,
       monthlyBreakdown isoDate initialCategories sampleEntries 2023 = Ok bd
       /\ categorySpendingDataForChart initialCategories bd = Ok slices
       /\ (~ grandTotal bd == 0 -> total (map percentage slices) == 100).
Proof.
  split; [exact sample_amounts_positive|].
  exact (chart_percentages_sum isoDate sampleEntries 2023 sample_amounts_positive).
Defined.

Lemma no_division_by_zero_witness :
  validPeriod (MonthIndex 1)
  /\ exists bd slices ps,
       monthlyBreakdown isoDate initialCategories sampleEntries 2023 = Ok bd
       /\ categorySpendingDataForChart initialCategories bd = Ok slices
       /\ (grandTotal bd == 0 -> slices = [])
       /\ categoryProgressData initialCategories bd (MonthIndex 1) = Ok ps
       /\ Forall (fun cp => exists q, progressPercentage cp = Ok q) ps
       /\ forall cp : CategoryProgress,
            exists q, progressPercentage cp = Ok q /\ (budget cp == 0 -> q = 0).
Proof.
  assert (Hp : validPeriod (MonthIndex 1)) by (simpl; lia).
  split; [exact Hp|].
  exact (no_division_by_zero isoDate sampleEntries 2023 (MonthIndex 1) Hp).
Defined.

Lemma rollover_never_negative_witness :
  (0 <= 2 < 12)%Z
  /\ exists bd,
       monthlyBreakdown isoDate initialCategories sampleEntries 2023 = Ok bd
       /\ (forall k, (0 <= k <= 2)%Z ->
             exists r, rolloversBefore initialCategories bd k = Ok r
                       /\ forall c, exists v, get c r = Some v /\ 0 <= v)
       /\ (forall k cat, (0 <= k < 2)%Z -> In cat initialCategories ->
             exists r r' s v,
               rolloversBefore initialCategories bd k = Ok r
               /\ rolloversBefore initialCategories bd (k + 1) = Ok r'
               /\ bucket bd k (cat_id cat) = Some s
               /\ get (cat_id cat) r = Some v
               /\ (s + v <= cat_budget cat -> get (cat_id cat) r' = Some 0))
       /\ exists ps,
            categoryProgressData initialCategories bd (MonthIndex 2) = Ok ps
            /\ Forall (fun p => 0 <= rollover p) ps.
Proof.
  assert (HM : (0 <= 2 < 12)%Z) by lia.
  split; [exact HM|].
  exact (rollover_never_negative isoDate sampleEntries 2023 2 HM).
Defined.

Lemma unparsed_entry_skipped_witness :
  entryDateOf isoDate undated = InvalidDate
  /\ entryYear isoDate undated = NaN /\ entryMonth isoDate undated = NaN
  /\ (forall Y bd, addEntry isoDate Y bd undated = Ok bd)
  /\ (forall cats es1 es2 Y,
        monthlyBreakdown isoDate cats (es1 ++ undated :: es2) Y
        = monthlyBreakdown isoDate cats (es1 ++ es2) Y)
  /\ (forall Y p, inPeriod isoDate Y p undated = false)
  /\ (forall es1 es2 Y p,
        entriesForPeriod isoDate (es1 ++ undated :: es2) Y p
        = entriesForPeriod isoDate (es1 ++ es2) Y p).
Proof.
  split; [reflexivity|].
  exact (unparsed_entry_skipped isoDate undated eq_refl).
Defined.

(** A recurring entry of 2023-05-10 is in all twelve buckets of 2024, in
    May to December of 2023, and in no bucket of 2022. *)
Example recurring_entry_by_year :
  exists bd24 bd23 bd22,
    monthlyBreakdown isoDate initialCategories [gym] 2024 = Ok bd24
    /\ monthlyBreakdown isoDate initialCategories [gym] 2023 = Ok bd23
    /\ monthlyBreakdown isoDate initialCategories [gym] 2022 = Ok bd22
    /\ map (fun m => bucket bd24 m health) (range (Int 0) 12)
       = repeat (Some 100) 12
    /\ map (fun m => bucket bd23 m health) (range (Int 0) 12)
       = repeat (Some 0) 4 ++ repeat (Some 100) 8
    /\ map (fun m => bucket bd22 m health) (range (Int 0) 12)
       = repeat (Some 0) 12.
Proof.
  do 3 eexists. repeat (split; [vm_compute; reflexivity|]). vm_compute. reflexivity.
Qed.

(** A one-time entry of 2022 adds nothing to 2023. *)
Example one_time_entry_other_year :
  monthlyBreakdown isoDate initialCategories [flight] 2023
  = monthlyBreakdown isoDate initialCategories [] 2023.
Proof. vm_compute. reflexivity. Qed.

(** A deficit of 50 is carried into February, absorbed there, and March
    starts at zero. *)
Example rollover_chain :
  exists ps1 ps2,
    categoryProgressData oneCategory chainedYear (MonthIndex 1) = Ok ps1
    /\ categoryProgressData oneCategory chainedYear (MonthIndex 2) = Ok ps2
    /\ map (fun p => (spent p, budget p, rollover p)) ps1 = [(80, 100, 50)]
    /\ map (fun p => (spent p, budget p, rollover p)) ps2 = [(0, 100, 0)].
Proof.
  do 2 eexists. repeat (split; [vm_compute; reflexivity|]). vm_compute. reflexivity.
Qed.

(** The sample entries in 2023: two slices, whose percentages sum to 100;
    the wishlist and the dashboard agree with the budget view in March. *)
Example sample_year :
  exists bd slices,
    monthlyBreakdown isoDate initialCategories sampleEntries 2023 = Ok bd
    /\ categorySpendingDataForChart initialCategories bd = Ok slices
    /\ map slice_id slices = [travel; leisure; health]
    /\ total (map percentage slices) == 100
    /\ totalSpent bd Year = Ok 1980
    /\ overviewTotals isoDate (UTCDate 2023 Mar) sampleEntries = Ok (1980, 0)
    /\ spentThisMonth (budgetSnapshot isoDate (UTCDate 2023 Mar) sampleEntries) = 0
    /\ map entry_id (entriesForPeriod isoDate sampleEntries 2023 Year)
       = ["budget-1"; "budget-3"; "budget-4"]%string.
Proof.
  do 2 eexists. repeat (split; [vm_compute; reflexivity|]). vm_compute. reflexivity.
Qed.


(** * Properties of the rest of the code *)

(** ** Saving and deleting entries *)

Lemma total_app (l1 l2 : list Q) : total (l1 ++ l2) == total l1 + total l2.
Proof.
  induction l1 as [|q l1 IH]; cbn [app].
  - change (total []) with 0. ring.
  - rewrite !total_cons, IH. ring.
Qed.

Lemma total_filter_split {A : Type} (f : A -> Q) (p : A -> bool) (l : list A) :
  total (map f l)
  == total (map f (List.filter p l))
     + total (map f (List.filter (fun x => negb (p x)) l)).
Proof.
  induction l as [|a l IH]; cbn [map List.filter].
  - change (total []) with 0. ring.
  - rewrite total_cons, IH. destruct (p a); cbn [negb map]; rewrite total_cons; ring.
Qed.

Lemma string_eqb_neq (a b : string) : String.eqb a b = false <-> a <> b.
Proof. apply String.eqb_neq. Qed.

Section Handlers.

Variable newDate : string -> JSDate.

Lemma expectedSpend_total (es : list BudgetEntry) (Y m : Z) (c : CategoryId) :
  expectedSpend newDate es Y m c == total (map (contribution newDate Y m c) es).
Proof.
  induction es as [|e es IH].
  - unfold expectedSpend, sumAmounts, total. simpl. ring.
  - rewrite expectedSpend_cons, IH. cbn [map]. rewrite total_cons. reflexivity.
Qed.

(** The buckets of two entry lists differ by the difference of their
    expected sums. *)
Lemma breakdown_pair (es es' : list BudgetEntry) (Y : Z) :
  exists bd bd',
    monthlyBreakdown newDate initialCategories es Y = Ok bd
    /\ monthlyBreakdown newDate initialCategories es' Y = Ok bd'
    /\ forall m c, (0 <= m < 12)%Z ->
         exists v v',
           bucket bd m c = Some v /\ bucket bd' m c = Some v'
           /\ v == total (map (contribution newDate Y m c) es)
           /\ v' == total (map (contribution newDate Y m c) es').
Proof.
  destruct (monthlyBreakdown_values newDate es Y) as (bd & E & S & V).
  destruct (monthlyBreakdown_values newDate es' Y) as (bd' & E' & S' & V').
  exists bd, bd'. split; [exact E|]. split; [exact E'|].
  intros m c Hm.
  destruct (bucket_Some bd m c S Hm) as [v Hv].
  destruct (bucket_Some bd' m c S' Hm) as [v' Hv'].
  exists v, v'. split; [exact Hv|]. split; [exact Hv'|].
  rewrite <- (bucket_valueAt bd m c v Hv), <- (bucket_valueAt bd' m c v' Hv').
  rewrite (V m c Hm), (V' m c Hm), !expectedSpend_total. split; reflexivity.
Qed.

(** X1. Saving a new entry raises each bucket of each year by what that one
    entry contributes to it, and by nothing else. *)
Theorem handleSave_add_breakdown (entryData : EntryData) (uuid : string)
  (prev : list BudgetEntry) (Y : Z) :
  exists bd bd',
    monthlyBreakdown newDate initialCategories prev Y = Ok bd
    /\ monthlyBreakdown newDate initialCategories
         (handleSave entryData None uuid prev) Y = Ok bd'
    /\ forall m c, (0 <= m < 12)%Z ->
         exists v v',
           bucket bd m c = Some v /\ bucket bd' m c = Some v'
           /\ v' == v + contribution newDate Y m c
                          (created entryData (String.append "budget-" uuid)).
Proof.
  destruct (breakdown_pair prev (handleSave entryData None uuid prev) Y)
    as (bd & bd' & E & E' & H).
  exists bd, bd'. split; [exact E|]. split; [exact E'|].
  intros m c Hm. destruct (H m c Hm) as (v & v' & Hv & Hv' & Ev & Ev').
  exists v, v'. split; [exact Hv|]. split; [exact Hv'|].
  rewrite Ev, Ev'. cbn [handleSave]. rewrite map_app, total_app.
  cbn [map]. rewrite total_cons. change (total []) with 0. ring.
Qed.

(** X2. A confirmed delete removes exactly the entries with that id, and
    each bucket falls by what the removed entries contributed; a declined
    delete changes nothing. *)
Theorem handleDelete_breakdown (id : string) (prev : list BudgetEntry) (Y : Z) :
  handleDelete id false prev = prev
  /\ (forall e, In e (handleDelete id true prev)
                <-> In e prev /\ entry_id e <> id)
  /\ exists bd bd',
       monthlyBreakdown newDate initialCategories prev Y = Ok bd
       /\ monthlyBreakdown newDate initialCategories
            (handleDelete id true prev) Y = Ok bd'
       /\ forall m c, (0 <= m < 12)%Z ->
            exists v v',
              bucket bd m c = Some v /\ bucket bd' m c = Some v'
              /\ v == v' + total (map (contribution newDate Y m c)
                                     (List.filter
                                        (fun e => String.eqb (entry_id e) id)
                                        prev)).
Proof.
  split; [reflexivity|]. split.
  - intros e. cbn [handleDelete]. rewrite filter_In, negb_true_iff, string_eqb_neq.
    reflexivity.
  - destruct (breakdown_pair prev (handleDelete id true prev) Y)
      as (bd & bd' & E & E' & H).
    exists bd, bd'. split; [exact E|]. split; [exact E'|].
    intros m c Hm. destruct (H m c Hm) as (v & v' & Hv & Hv' & Ev & Ev').
    exists v, v'. split; [exact Hv|]. split; [exact Hv'|].
    rewrite Ev, Ev'. cbn [handleDelete].
    rewrite (total_filter_split _ (fun e => String.eqb (entry_id e) id) prev).
    ring.
Qed.

End Handlers.

(** X3. Deleting the entry that was just added gives back the list as it
    was, when no earlier entry has the new id. *)
Theorem add_then_delete (entryData : EntryData) (uuid : string)
  (prev : list BudgetEntry) :
  Forall (fun e => entry_id e <> String.append "budget-" uuid) prev ->
  handleDelete (String.append "budget-" uuid) true
    (handleSave entryData None uuid prev) = prev.
Proof.
  intros H. cbn [handleSave handleDelete]. rewrite List.filter_app.
  cbn [List.filter created entry_id]. rewrite String.eqb_refl. cbn [negb].
  rewrite app_nil_r. induction H as [|e l He _ IH]; [reflexivity|].
  cbn [List.filter]. apply string_eqb_neq in He. rewrite He. cbn [negb].
  f_equal. exact IH.
Qed.

Lemma edit_keeps_ids (entryData : EntryData) (i uuid : string)
  (prev : list BudgetEntry) :
  nonEmpty i = true ->
  map entry_id (handleSave entryData (Some i) uuid prev) = map entry_id prev.
Proof.
  intros Hi. cbn [handleSave]. rewrite Hi, map_map. apply map_ext_in.
  intros e _. destruct (String.eqb (entry_id e) i) eqn:E; [|reflexivity].
  apply String.eqb_eq in E. symmetry. exact E.
Qed.

(** X4. An edit keeps the ids of the list, in order; it changes only the
    entries with the edited id, which take every field of the form; saving
    the same edit again changes nothing more, and an edit of an id that no
    entry has changes nothing. *)
Theorem handleSave_edit (entryData : EntryData) (i uuid : string)
  (prev : list BudgetEntry) :
  nonEmpty i = true ->
  let next := handleSave entryData (Some i) uuid prev in
  map entry_id next = map entry_id prev
  /\ (forall n e, prev !! n = Some e -> entry_id e <> i -> next !! n = Some e)
  /\ (forall n e, prev !! n = Some e -> entry_id e = i ->
        exists e', next !! n = Some e' /\ entry_id e' = i
                   /\ entry_name e' = data_name entryData
                   /\ date e' = data_date entryData
                   /\ amount e' = data_amount entryData
                   /\ categoryId e' = data_categoryId entryData)
  /\ handleSave entryData (Some i) uuid next = next
  /\ (Forall (fun e => entry_id e <> i) prev -> next = prev).
Proof.
  intros Hi next.
  split; [apply edit_keeps_ids, Hi|].
  unfold next. cbn [handleSave]. rewrite Hi.
  split; [|split; [|split]].
  - intros n e Hn He. rewrite list_lookup_fmap, Hn. cbn.
    apply string_eqb_neq in He. rewrite He. reflexivity.
  - intros n e Hn He. rewrite list_lookup_fmap, Hn. cbn.
    apply String.eqb_eq in He. rewrite He. eexists. split; [reflexivity|].
    repeat split; reflexivity.
  - rewrite map_map. apply map_ext. intros e.
    destruct (String.eqb (entry_id e) i) eqn:E.
    + unfold merged at 1. cbn [entry_id]. rewrite String.eqb_refl.
      unfold merged, spread. cbn [isRecurring linkedEventId notes].
      destruct (data_isRecurring entryData), (data_linkedEventId entryData),
        (data_notes entryData); reflexivity.
    + rewrite E. reflexivity.
  - intros H. induction H as [|e l He _ IH]; [reflexivity|].
    cbn [map]. apply string_eqb_neq in He. rewrite He. f_equal. exact IH.
Qed.

(** X5. The ids of the entries stay distinct: under an add whose new id is
    not in use, under any edit, and under any delete. *)
Theorem entry_ids_stay_distinct (entryData : EntryData) (id : option string)
  (uuid del : string) (confirmed : bool) (prev : list BudgetEntry) :
  NoDup (map entry_id prev) ->
  ~ In (String.append "budget-" uuid) (map entry_id prev) ->
  NoDup (map entry_id (handleSave entryData id uuid prev))
  /\ NoDup (map entry_id (handleDelete del confirmed prev)).
Proof.
  intros ND Hfresh.
  assert (Hadd : NoDup (map entry_id
                          (prev ++ [created entryData (String.append "budget-" uuid)]))).
  { rewrite map_app. cbn [map created entry_id].
    apply NoDup_app. split; [exact ND|]. split; [|apply NoDup_singleton].
    intros x Hx Hx'. apply list_elem_of_In in Hx.
    apply list_elem_of_singleton in Hx'. subst x. contradiction. }
  split.
  - destruct id as [i|]; [|exact Hadd].
    destruct (nonEmpty i) eqn:Hi.
    + rewrite (edit_keeps_ids entryData i uuid prev Hi). exact ND.
    + cbn [handleSave]. rewrite Hi. exact Hadd.
  - destruct confirmed; [|exact ND]. cbn [handleDelete].
    clear Hfresh Hadd. induction prev as [|e l IH]; [constructor|].
    cbn [map] in ND. apply NoDup_cons in ND. destruct ND as [Hnotin ND].
    cbn [List.filter]. destruct (negb (String.eqb (entry_id e) del)).
    + cbn [map]. apply NoDup_cons. split; [|apply IH, ND].
      intros Hin. apply Hnotin.
      apply list_elem_of_In in Hin. apply list_elem_of_In.
      apply in_map_iff in Hin. destruct Hin as (x & Hx & Hin).
      apply filter_In in Hin. apply in_map_iff. exists x. tauto.
    + apply IH, ND.
Qed.

Section Validation.

Variable parseFloat : string -> jsnumber.

Lemma handleSubmit_positive (form : EntryForm) (entryData : EntryData) :
  handleSubmit parseFloat form = Some entryData ->
  0 < data_amount entryData
  /\ form_name form <> ""%string
  /\ parseFloat (form_amount form) = JNum (data_amount entryData).
Proof.
  unfold handleSubmit.
  destruct (parseFloat (form_amount form)) as [|q]; cbn [isNaN leZero].
  - rewrite orb_true_r. discriminate.
  - rewrite orb_false_r.
    destruct (nonEmpty (form_name form)) eqn:N; cbn [negb orb]; [|discriminate].
    destruct (Qle_bool q 0) eqn:L; [discriminate|].
    intros [= <-]. cbn [data_amount].
    split; [|split; [|reflexivity]].
    + apply Qnot_le_lt. intros H. apply Qle_bool_iff in H. congruence.
    + unfold nonEmpty in N. apply negb_true_iff, string_eqb_neq in N. exact N.
Qed.

(** X6. The form saves nothing unless the name is not empty and the amount
    parses to a number above zero; so if every amount in the list is
    positive, it still is after any submit of the form, for an add or for an
    edit, and after any delete. *)
Theorem amounts_stay_positive (form : EntryForm) (editing : option BudgetEntry)
  (uuid del : string) (confirmed : bool) (prev : list BudgetEntry) :
  Forall (fun e => 0 < amount e) prev ->
  Forall (fun e => 0 < amount e) (submitEntry parseFloat form editing uuid prev)
  /\ Forall (fun e => 0 < amount e) (handleDelete del confirmed prev)
  /\ (form_name form = ""%string \/ isNaN (parseFloat (form_amount form)) = true
      \/ leZero (parseFloat (form_amount form)) = true ->
      submitEntry parseFloat form editing uuid prev = prev).
Proof.
  intros H. split; [|split].
  - unfold submitEntry. destruct (handleSubmit parseFloat form) as [d|] eqn:E;
      [|exact H].
    destruct (handleSubmit_positive form d E) as (Hpos & _ & _).
    assert (Hadd : Forall (fun e => 0 < amount e)
                     (prev ++ [created d (String.append "budget-" uuid)])).
    { apply Forall_app. split; [exact H|]. constructor; [exact Hpos|constructor]. }
    unfold handleSave. destruct (option_map entry_id editing) as [i|]; [|exact Hadd].
    destruct (nonEmpty i); [|exact Hadd].
    apply Forall_forall. intros e He. apply list_elem_of_In, in_map_iff in He.
    destruct He as (x & <- & Hx).
    destruct (String.eqb (entry_id x) i); [exact Hpos|].
    rewrite Forall_forall in H. apply H, list_elem_of_In, Hx.
  - destruct confirmed; [|exact H]. cbn [handleDelete].
    apply Forall_forall. intros e He. apply list_elem_of_In, filter_In in He.
    rewrite Forall_forall in H. apply H, list_elem_of_In, He.
  - intros Hbad. unfold submitEntry, handleSubmit.
    destruct Hbad as [Hn|[Hn|Hn]].
    + rewrite Hn. reflexivity.
    + rewrite Hn, orb_true_r. reflexivity.
    + rewrite Hn, orb_true_r. reflexivity.
Qed.

End Validation.

(** ** The header, the bars and the chart *)

Lemma fold_budget {A : Type} (f : A -> Q) (l : list A) (s0 : Q) :
  fold_left (fun acc x => acc + f x) l s0 == s0 + total (map f l).
Proof.
  revert s0. induction l as [|a l IH]; intros s0; cbn [fold_left map].
  - change (total []) with 0. ring.
  - rewrite IH, total_cons. ring.
Qed.

Lemma Forall2_total {A B : Type} (R : A -> B -> Prop) (f : A -> Q) (g : B -> Q)
  (l : list A) (l' : list B) :
  Forall2 R l l' -> (forall a b, In a l -> R a b -> g b == f a) ->
  total (map g l') == total (map f l).
Proof.
  induction 1 as [|a b l l' HR _ IH]; intros H; [reflexivity|].
  cbn [map]. rewrite !total_cons, (H a b (or_introl eq_refl) HR), IH; [reflexivity|].
  intros a' b' Hin. apply H. right; exact Hin.
Qed.

Lemma total_map_times {A : Type} (f : A -> Q) (k : Q) (l : list A) :
  total (map (fun x => f x * k) l) == total (map f l) * k.
Proof.
  induction l as [|a l IH]; cbn [map].
  - change (total []) with 0. ring.
  - rewrite !total_cons, IH. ring.
Qed.

(** X7. The total in the title of the category list is the total budget of
    the header, in the year view and in every month view. *)
Theorem title_total_is_header_total (cats : list BudgetCategory)
  (bd : list MonthData) (p : Period) :
  NoDup (map cat_id cats) -> wellFormed cats bd = true -> validPeriod p ->
  exists ps,
    categoryProgressData cats bd p = Ok ps
    /\ CategoryProgressList.totalPeriodBudget ps == totalBudget cats p.
Proof.
  intros ND W Hp. unfold CategoryProgressList.totalPeriodBudget, totalBudget.
  destruct p as [|M].
  - destruct (progress_year cats bd W) as (ps & E & F).
    exists ps. split; [exact E|]. rewrite !fold_budget, !Qplus_0_l.
    rewrite (Forall2_total _ (fun cat => cat_budget cat * 12) budget _ _ F).
    + apply total_map_times.
    + intros cat cp _ (_ & _ & Hb & _). rewrite Hb. reflexivity.
  - destruct (progress_month cats bd ND W M Hp) as (ps & E & F).
    exists ps. split; [exact E|]. rewrite !fold_budget, !Qplus_0_l.
    apply (Forall2_total _ cat_budget budget _ _ F).
    intros cat cp _ (_ & _ & Hb & _). rewrite Hb. reflexivity.
Qed.

Lemma initial_budgets_positive (cat : BudgetCategory) :
  In cat initialCategories -> 0 < cat_budget cat.
Proof.
  intros H. simpl in H.
  repeat (destruct H as [<-|H]; [reflexivity|]). destruct H.
Qed.

Lemma Qmin_100 (q : Q) : 0 <= q -> 0 <= Qmin q 100 /\ Qmin q 100 <= 100.
Proof.
  intros H. destruct (Q.min_spec q 100) as [[H1 ->]|[H1 ->]]; lra.
Qed.

Lemma Qmin_full (q : Q) : Qmin q 100 == 100 <-> 100 <= q.
Proof.
  destruct (Q.min_spec q 100) as [[H1 ->]|[H1 ->]]; split; intros; lra.
Qed.

Lemma ratio_full (s b : Q) : 0 < b -> (100 <= s / b * 100 <-> b <= s).
Proof.
  intros Hb. assert (Hne : ~ b == 0) by lra.
  assert (E : s / b * b == s) by (field; exact Hne).
  pose proof (Qmult_le_r 1 (s / b) b Hb) as H.
  rewrite E, Qmult_1_l in H. rewrite H. split; intros; lra.
Qed.

Lemma ratio_nonneg (s b : Q) : 0 < b -> 0 <= s -> 0 <= s / b * 100.
Proof.
  intros Hb Hs. assert (Hne : ~ b == 0) by lra.
  assert (E : s / b * b == s) by (field; exact Hne).
  pose proof (Qmult_le_r 0 (s / b) b Hb) as H.
  rewrite E, Qmult_0_l in H. apply H in Hs. lra.
Qed.

(** A bar: its width is the percentage capped at 100, and it is full exactly
    when the spend reaches the budget. *)
Lemma barWidth_spec (cp : CategoryProgress) :
  0 < budget cp -> 0 <= spent cp ->
  exists w, CategoryProgressList.barWidth cp = Ok w
            /\ 0 <= w /\ w <= 100 /\ (w == 100 <-> budget cp <= spent cp).
Proof.
  intros Hb Hs. destruct (progressPercentage_guarded cp) as (q & E & _ & Hq).
  specialize (Hq Hb).
  exists (Qmin q 100). split.
  - unfold CategoryProgressList.barWidth. rewrite E. reflexivity.
  - assert (H0 : 0 <= q) by (rewrite Hq; apply ratio_nonneg; assumption).
    destruct (Qmin_100 q H0) as [H1 H2]. split; [exact H1|]. split; [exact H2|].
    rewrite Qmin_full, Hq. apply ratio_full, Hb.
Qed.

Section Bars.

Variable newDate : string -> JSDate.

(** X8. For entries with positive amounts and every period, each bar of the
    category list has a width from 0 to 100, and is full exactly when what
    the category spent (with its rollover) reaches its budget for the
    period. *)
Theorem bar_widths (entries : list BudgetEntry) (Y : Z) (p : Period) :
  Forall (fun e => 0 < amount e) entries -> validPeriod p ->
  exists bd ps,
    monthlyBreakdown newDate initialCategories entries Y = Ok bd
    /\ categoryProgressData initialCategories bd p = Ok ps
    /\ Forall (fun cp =>
                 exists w, CategoryProgressList.barWidth cp = Ok w
                           /\ 0 <= w /\ w <= 100
                           /\ (w == 100 <-> budget cp <= spent cp)) ps.
Proof.
  intros Hpos Hp.
  destruct (monthlyBreakdown_values newDate entries Y) as (bd & E & S & V).
  pose proof (Shape_wellFormed initialCategories bd S) as W.
  exists bd. destruct p as [|M].
  - destruct (progress_year initialCategories bd W) as (ps & Eps & F).
    exists ps. split; [exact E|]. split; [exact Eps|].
    apply (Forall2_right _ _ _ _ F). intros cat cp Hin (_ & Hs & Hb & _).
    pose proof (initial_budgets_positive cat Hin) as Hcat.
    apply barWidth_spec; [rewrite Hb; lra|].
    rewrite Hs. apply (yearlyTotal_nonneg newDate bd entries Y _ Hpos V).
  - destruct (progress_month initialCategories bd initial_distinct W M Hp)
      as (ps & Eps & F).
    exists ps. split; [exact E|]. split; [exact Eps|].
    apply (Forall2_right _ _ _ _ F). intros cat cp Hin (_ & Hs & Hb & _).
    pose proof (initial_budgets_positive cat Hin) as Hcat.
    apply barWidth_spec; [rewrite Hb; exact Hcat|].
    rewrite Hs, (V M _ Hp).
    pose proof (expectedSpend_nonneg newDate entries Y M (cat_id cat) Hpos).
    pose proof (rolloverInto_nonneg bd cat (Z.to_nat M)). lra.
Qed.

(** X9. In every period the [spent] of the bars add up to the total spent
    of the header plus the rollovers carried into the period: nothing in a
    year view, and in a month view the header leaves the rollovers out. *)
Theorem bars_sum_to_header (entries : list BudgetEntry) (Y : Z) (p : Period) :
  validPeriod p ->
  exists bd ps t,
    monthlyBreakdown newDate initialCategories entries Y = Ok bd
    /\ categoryProgressData initialCategories bd p = Ok ps
    /\ totalSpent bd p = Ok t
    /\ total (map spent ps) == t + total (map rollover ps)
    /\ (p = Year -> total (map rollover ps) == 0).
Proof.
  intros Hp.
  destruct (monthlyBreakdown_values newDate entries Y) as (bd & E & S & V).
  pose proof (Shape_wellFormed initialCategories bd S) as W.
  exists bd. destruct p as [|M].
  - destruct (progress_year initialCategories bd W) as (ps & Eps & F).
    destruct (totalSpent_year bd S) as (t & Et & Ht).
    exists ps, t. split; [exact E|]. split; [exact Eps|]. split; [exact Et|].
    assert (R0 : total (map rollover ps) == 0).
    { rewrite (Forall2_total _ (fun _ => 0) rollover _ _ F).
      - clear. induction initialCategories as [|a l IH]; [reflexivity|].
        cbn [map]. rewrite total_cons, IH. ring.
      - intros cat cp _ (_ & _ & _ & Hr). rewrite Hr. reflexivity. }
    split; [|intros _; exact R0].
    rewrite R0, Ht, yearTotal_grandTotal.
    rewrite (Forall2_total _ (fun cat => yearlyTotal bd (cat_id cat)) spent _ _ F).
    + unfold grandTotal, allIds. rewrite map_map. ring.
    + intros cat cp _ (_ & Hs & _). exact Hs.
  - destruct (progress_month initialCategories bd initial_distinct W M Hp)
      as (ps & Eps & F).
    destruct (totalSpent_month bd M S Hp) as (t & Et & Ht).
    exists ps, t. split; [exact E|]. split; [exact Eps|]. split; [exact Et|].
    split; [|discriminate].
    rewrite (Forall2_total _ (fun cat => valueAt bd M (cat_id cat)
                                         + rolloverInto bd cat (Z.to_nat M))
               spent _ _ F)
      by (intros cat cp _ (_ & Hs & _); exact Hs).
    rewrite (Forall2_total _ (fun cat => rolloverInto bd cat (Z.to_nat M))
               rollover _ _ F)
      by (intros cat cp _ (_ & _ & _ & Hr); exact Hr).
    rewrite total_map_plus, Ht. unfold bucketTotal, allIds. rewrite map_map.
    reflexivity.
Qed.

Lemma Forall2_join {A B C : Type} (R : A -> B -> Prop) (R' : A -> C -> Prop)
  (l : list A) (ps : list B) (ps' : list C) :
  Forall2 R l ps -> Forall2 R' l ps' ->
  Forall2 (fun p p' => exists c, R c p /\ R' c p') ps ps'.
Proof.
  intros F. revert ps'. induction F as [|c p l ps Hc _ IH]; intros ps' F'.
  - inversion F'. constructor.
  - inversion F' as [|c' p' l' ps'' Hc' F'']. subst. constructor.
    + exists c. split; assumption.
    + apply IH. exact F''.
Qed.

(** X10. In the view of a month, the rollover of a category is what its bar
    of the month before was over its budget, and nothing if the bar was
    within the budget; the note about the rollover shows exactly in the
    first case.  January has no rollover and no note: nothing is carried
    over from the year before. *)
Theorem rollover_note (entries : list BudgetEntry) (Y : Z) (M : Z) :
  (0 <= M < 11)%Z ->
  exists bd ps ps' ps0,
    monthlyBreakdown newDate initialCategories entries Y = Ok bd
    /\ categoryProgressData initialCategories bd (MonthIndex M) = Ok ps
    /\ categoryProgressData initialCategories bd (MonthIndex (M + 1)) = Ok ps'
    /\ Forall2 (fun cp cp' =>
                  p_id cp' = p_id cp
                  /\ rollover cp' == Qmax (spent cp - budget cp) 0
                  /\ (CategoryProgressList.showsRollover (MonthIndex (M + 1)) cp'
                      = true <-> budget cp < spent cp)) ps ps'
    /\ categoryProgressData initialCategories bd (MonthIndex 0) = Ok ps0
    /\ Forall (fun cp =>
                 rollover cp == 0
                 /\ CategoryProgressList.showsRollover (MonthIndex 0) cp = false)
         ps0.
Proof.
  intros HM.
  destruct (monthlyBreakdown_values newDate entries Y) as (bd & E & S & V).
  pose proof (Shape_wellFormed initialCategories bd S) as W.
  destruct (progress_month initialCategories bd initial_distinct W M)
    as (ps & Eps & F); [lia|].
  destruct (progress_month initialCategories bd initial_distinct W (M + 1))
    as (ps' & Eps' & F'); [lia|].
  destruct (progress_month initialCategories bd initial_distinct W 0)
    as (ps0 & Eps0 & F0); [lia|].
  exists bd, ps, ps', ps0.
  split; [exact E|]. split; [exact Eps|]. split; [exact Eps'|].
  split; [|split; [exact Eps0|]].
  - eapply Forall2_impl; [exact (Forall2_join _ _ _ _ _ F F')|].
    intros cp cp' (cat & (Hid & Hs & Hb & Hr) & (Hid' & _ & _ & Hr')).
    split; [congruence|].
    replace (Z.to_nat (M + 1)) with (Datatypes.S (Z.to_nat M)) in Hr' by lia.
    cbn [rolloverInto] in Hr'. rewrite Z2Nat.id in Hr' by lia.
    unfold CategoryProgressList.showsRollover. rewrite gt_true.
    destruct (Q.max_spec (valueAt bd M (cat_id cat)
                          + rolloverInto bd cat (Z.to_nat M) - cat_budget cat) 0)
      as [[H1 H2]|[H1 H2]];
      destruct (Q.max_spec (spent cp - budget cp) 0) as [[H3 H4]|[H3 H4]];
      rewrite Hb in *; rewrite Hr', H2, H4; split; try split; intros; lra.
  - apply (Forall2_right _ _ _ _ F0). intros cat cp _ (_ & _ & _ & Hr).
    change (Z.to_nat 0) with 0%nat in Hr. cbn [rolloverInto] in Hr.
    split; [exact Hr|]. unfold CategoryProgressList.showsRollover.
    apply gt_false. rewrite Hr. apply Qle_refl.
Qed.

Lemma slices_values (y : obj) (cats : list BudgetCategory) (slices : list Slice) :
  Forall2 (sliceOf y) cats slices ->
  map value slices = map (valueIn y) (map cat_id cats).
Proof.
  induction 1 as [|cat s cats slices Hs _ IH]; [reflexivity|].
  cbn [map]. rewrite IH, Hs. reflexivity.
Qed.

(** X11. For entries with positive amounts, the total in the middle of the
    donut is the total spent of the header in the year view. *)
Theorem pie_total_is_header_total (entries : list BudgetEntry) (Y : Z) :
  Forall (fun e => 0 < amount e) entries ->
  exists bd slices t,
    monthlyBreakdown newDate initialCategories entries Y = Ok bd
    /\ categorySpendingDataForChart initialCategories bd = Ok slices
    /\ totalSpent bd Year = Ok t
    /\ CategoryPieChart.total slices == t.
Proof.
  intros Hpos.
  destruct (monthlyBreakdown_values newDate entries Y) as (bd & E & S & V).
  destruct (chart_spec bd S) as (y & _ & K & Vy & T & Hzero & Hnonzero).
  destruct (totalSpent_year bd S) as (t & Et & Ht).
  pose proof (fun c => yearlyTotal_nonneg newDate bd entries Y c Hpos V) as N.
  assert (Tt : sumValues y == t) by (rewrite T, Ht, yearTotal_grandTotal; reflexivity).
  exists bd. destruct (Qeq_dec (sumValues y) 0) as [H0|Hne].
  - exists [], t. split; [exact E|]. split; [apply Hzero, H0|]. split; [exact Et|].
    unfold CategoryPieChart.total. cbn [fold_left]. rewrite <- Tt, H0. reflexivity.
  - destruct (Hnonzero Hne) as (slices & Fs & Ec).
    exists (List.filter (fun d => gt (value d) 0) slices), t.
    split; [exact E|]. split; [exact Ec|]. split; [exact Et|].
    unfold CategoryPieChart.total. rewrite fold_budget, Qplus_0_l.
    rewrite total_filter_zero.
    + rewrite (slices_values y _ _ Fs). fold allIds.
      rewrite <- (sumValues_allIds y K). exact Tt.
    + intros s Hs Hgt. apply gt_false in Hgt. apply list_elem_of_In in Hs.
      pose proof (Forall2_right _ (fun s => exists cat, sliceOf y cat s) _ _ Fs
                    (fun cat s _ H => ex_intro _ cat H)) as Fex.
      rewrite Forall_forall in Fex. destruct (Fex s Hs) as (cat & ->).
      cbn [value] in *. pose proof (N (cat_id cat)) as Hn.
      rewrite <- Vy in Hn. lra.
Qed.

(** X12. What the wishlist view shows as left for the year and for the
    month is the total budget of the header less its total spent, for the
    current year and month. *)
Theorem wishlist_left_is_header_left (entries : list BudgetEntry) (Y : Z)
  (Mo : Month) :
  exists bd o spentYear spentMonth,
    monthlyBreakdown newDate initialCategories entries Y = Ok bd
    /\ totalSpent bd Year = Ok spentYear
    /\ totalSpent bd (MonthIndex (monthIndex Mo)) = Ok spentMonth
    /\ budgetOverview newDate (UTCDate Y Mo) entries = Ok o
    /\ remainingYearly o == totalBudget initialCategories Year - spentYear
    /\ remainingMonthly o
       == totalBudget initialCategories (MonthIndex (monthIndex Mo)) - spentMonth.
Proof.
  destruct (budgetOverview_remaining newDate entries Y Mo)
    as (bd & o & sy & sm & E & Ey & Em & Eo & Hy & Hm).
  exists bd, o, sy, sm. do 4 (split; [assumption|]).
  assert (B : fold_left (fun sum cat => sum + cat_budget cat) initialCategories 0
              = 4800) by reflexivity.
  unfold totalBudget. rewrite B. split; assumption.
Qed.

End Bars.

(** ** The budget card of the dashboard *)

Lemma ratio_over (s b : Q) : 0 < b -> (100 < s / b * 100 <-> b < s).
Proof.
  intros Hb. assert (Hne : ~ b == 0) by lra.
  assert (E : s / b * b == s) by (field; exact Hne).
  pose proof (Qmult_lt_r 1 (s / b) b Hb) as H.
  rewrite E, Qmult_1_l in H. rewrite H. split; intros; lra.
Qed.

Section SnapshotCard.

Variable newDate : string -> JSDate.

Lemma snapshot_nonneg (cy cm : num) (es : list BudgetEntry) :
  Forall (fun e => 0 < amount e) es ->
  forall t, 0 <= t -> 0 <= fold_left (snapshotStep newDate cy cm) es t.
Proof.
  induction 1 as [|e es He _ IH]; intros t Ht; cbn [fold_left]; [exact Ht|].
  apply IH. unfold snapshotStep.
  repeat match goal with |- context [if ?b then _ else _] => destruct b end; lra.
Qed.

(** X13. For entries with positive amounts the bar of the budget card has a
    width from 0 to 100; the card reports an overspend, of the spend less
    4800, exactly when the month's spend is above the 4800 budgeted for a
    month, and otherwise what is left of the 4800. *)
Theorem snapshot_card (now : JSDate) (entries : list BudgetEntry) :
  Forall (fun e => 0 < amount e) entries ->
  let s := budgetSnapshot newDate now entries in
  monthlyBudget s = 4800
  /\ exists w st,
       BudgetSnapshotCard.barWidth s = Ok w
       /\ BudgetSnapshotCard.subtext s = Ok st
       /\ 0 <= w /\ w <= 100
       /\ (4800 < spentThisMonth s ->
           st = BudgetSnapshotCard.OverBudget (spentThisMonth s - 4800))
       /\ (spentThisMonth s <= 4800 ->
           st = BudgetSnapshotCard.Remaining (4800 - spentThisMonth s)).
Proof.
  intros Hpos s. split; [reflexivity|].
  assert (Hs : 0 <= spentThisMonth s).
  { unfold s, budgetSnapshot. cbn [spentThisMonth].
    apply snapshot_nonneg; [exact Hpos | lra]. }
  assert (Hb : monthlyBudget s = 4800) by reflexivity.
  assert (Ep : BudgetSnapshotCard.percentage s
               = Ok (spentThisMonth s / 4800 * 100)).
  { unfold BudgetSnapshotCard.percentage, div. rewrite Hb. reflexivity. }
  exists (Qmin (spentThisMonth s / 4800 * 100) 100).
  eexists. split; [|split].
  - unfold BudgetSnapshotCard.barWidth. rewrite Ep. reflexivity.
  - unfold BudgetSnapshotCard.subtext. rewrite Ep, Hb. reflexivity.
  - assert (H48 : 0 < 4800) by reflexivity.
    pose proof (ratio_nonneg (spentThisMonth s) 4800 H48 Hs) as H0.
    destruct (Qmin_100 _ H0) as [H1 H2]. split; [exact H1|]. split; [exact H2|].
    split; intros H.
    + apply (ratio_over _ _ H48) in H. apply gt_true in H. rewrite H. reflexivity.
    + assert (G : gt (spentThisMonth s / 4800 * 100) 100 = false).
      { apply gt_false. destruct (Qlt_le_dec 100 (spentThisMonth s / 4800 * 100))
          as [Hlt|Hle]; [|exact Hle].
        apply (ratio_over _ _ H48) in Hlt. lra. }
      rewrite G. reflexivity.
Qed.

End SnapshotCard.

(** ** The handlers and the header on the sample data *)

Lemma sample_ids_distinct : NoDup (map entry_id sampleEntries).
Proof.
  repeat (apply NoDup_cons; split;
          [rewrite list_elem_of_In; cbn; intuition discriminate|]).
  apply NoDup_nil_2.
Defined.

Lemma sample_id_fresh : ~ In (String.append "budget-" "7") (map entry_id sampleEntries).
Proof. cbn. intuition discriminate. Defined.

Lemma handleSave_add_breakdown_witness :
  (0 <= 2 < 12)%Z
  /\ exists bd bd' v v',
       monthlyBreakdown isoDate initialCategories sampleEntries 2023 = Ok bd
       /\ monthlyBreakdown isoDate initialCategories
            (handleSave train None "7" sampleEntries) 2023 = Ok bd'
       /\ bucket bd 2 travel = Some v /\ bucket bd' 2 travel = Some v'
       /\ v' == v + contribution isoDate 2023 2 travel
                      (created train (String.append "budget-" "7")).
Proof.
  assert (HM : (0 <= 2 < 12)%Z) by lia.
  split; [exact HM|].
  destruct (handleSave_add_breakdown isoDate train "7" sampleEntries 2023)
    as (bd & bd' & E & E' & H).
  destruct (H 2%Z travel HM) as (v & v' & Hv & Hv' & Hq).
  exists bd, bd', v, v'. repeat split; assumption.
Defined.

Lemma handleDelete_breakdown_witness :
  (0 <= 0 < 12)%Z
  /\ exists bd bd' v v',
       monthlyBreakdown isoDate initialCategories sampleEntries 2023 = Ok bd
       /\ monthlyBreakdown isoDate initialCategories
            (handleDelete "budget-3" true sampleEntries) 2023 = Ok bd'
       /\ bucket bd 0 travel = Some v /\ bucket bd' 0 travel = Some v'
       /\ v == v' + total (map (contribution isoDate 2023 0 travel)
                              (List.filter
                                 (fun e => String.eqb (entry_id e) "budget-3")
                                 sampleEntries)).
Proof.
  assert (HM : (0 <= 0 < 12)%Z) by lia.
  split; [exact HM|].
  destruct (handleDelete_breakdown isoDate "budget-3" sampleEntries 2023)
    as (_ & _ & bd & bd' & E & E' & H).
  destruct (H 0%Z travel HM) as (v & v' & Hv & Hv' & Hq).
  exists bd, bd', v, v'. repeat split; assumption.
Defined.

Lemma add_then_delete_witness :
  Forall (fun e => entry_id e <> String.append "budget-" "7") sampleEntries
  /\ handleDelete (String.append "budget-" "7") true
       (handleSave train None "7" sampleEntries) = sampleEntries.
Proof.
  assert (H : Forall (fun e => entry_id e <> String.append "budget-" "7")
                sampleEntries).
  { repeat (constructor; [cbn; discriminate|]). constructor. }
  split; [exact H|]. exact (add_then_delete train "7" sampleEntries H).
Defined.

Lemma handleSave_edit_witness :
  nonEmpty "budget-3" = true
  /\ map entry_id (handleSave train (Some "budget-3"%string) "7" sampleEntries)
     = map entry_id sampleEntries
  /\ handleSave train (Some "budget-3"%string) "7"
       (handleSave train (Some "budget-3"%string) "7" sampleEntries)
     = handleSave train (Some "budget-3"%string) "7" sampleEntries.
Proof.
  split; [reflexivity|].
  pose proof (handleSave_edit train "budget-3" "7" sampleEntries eq_refl) as H.
  cbv zeta in H. destruct H as (H1 & _ & _ & H4 & _). split; assumption.
Defined.

Lemma entry_ids_stay_distinct_witness :
  NoDup (map entry_id sampleEntries)
  /\ ~ In (String.append "budget-" "7") (map entry_id sampleEntries)
  /\ NoDup (map entry_id (handleSave train None "7" sampleEntries))
  /\ NoDup (map entry_id (handleDelete "budget-2" true sampleEntries)).
Proof.
  split; [exact sample_ids_distinct|]. split; [exact sample_id_fresh|].
  exact (entry_ids_stay_distinct train None "7" "budget-2" true sampleEntries
           sample_ids_distinct sample_id_fresh).
Defined.

Lemma amounts_stay_positive_witness :
  Forall (fun e => 0 < amount e) sampleEntries
  /\ Forall (fun e => 0 < amount e)
       (submitEntry wholeNumber trainForm None "7" sampleEntries)
  /\ Forall (fun e => 0 < amount e) (handleDelete "budget-2" true sampleEntries).
Proof.
  split; [exact sample_amounts_positive|].
  destruct (amounts_stay_positive wholeNumber trainForm None "7" "budget-2" true
              sampleEntries sample_amounts_positive) as (H1 & H2 & _).
  split; assumption.
Defined.

Lemma title_total_is_header_total_witness :
  NoDup (map cat_id oneCategory)
  /\ wellFormed oneCategory chainedYear = true
  /\ validPeriod (MonthIndex 2)
  /\ exists ps,
       categoryProgressData oneCategory chainedYear (MonthIndex 2) = Ok ps
       /\ CategoryProgressList.totalPeriodBudget ps
          == totalBudget oneCategory (MonthIndex 2).
Proof.
  assert (ND : NoDup (map cat_id oneCategory)).
  { simpl. apply NoDup_singleton. }
  assert (Hp : validPeriod (MonthIndex 2)) by (simpl; lia).
  split; [exact ND|]. split; [reflexivity|]. split; [exact Hp|].
  exact (title_total_is_header_total oneCategory chainedYear (MonthIndex 2)
           ND eq_refl Hp).
Defined.

Lemma bar_widths_witness :
  Forall (fun e => 0 < amount e) sampleEntries
  /\ validPeriod (MonthIndex 1)
  /\ exists bd ps,
       monthlyBreakdown isoDate initialCategories sampleEntries 2023 = Ok bd
       /\ categoryProgressData initialCategories bd (MonthIndex 1) = Ok ps
       /\ Forall (fun cp =>
                    exists w, CategoryProgressList.barWidth cp = Ok w
                              /\ 0 <= w /\ w <= 100
                              /\ (w == 100 <-> budget cp <= spent cp)) ps.
Proof.
  assert (Hp : validPeriod (MonthIndex 1)) by (simpl; lia).
  split; [exact sample_amounts_positive|]. split; [exact Hp|].
  exact (bar_widths isoDate sampleEntries 2023 (MonthIndex 1)
           sample_amounts_positive Hp).
Defined.

Lemma bars_sum_to_header_witness :
  validPeriod (MonthIndex 1)
  /\ exists bd ps t,
       monthlyBreakdown isoDate initialCategories sampleEntries 2023 = Ok bd
       /\ categoryProgressData initialCategories bd (MonthIndex 1) = Ok ps
       /\ totalSpent bd (MonthIndex 1) = Ok t
       /\ total (map spent ps) == t + total (map rollover ps)
       /\ (MonthIndex 1 = Year -> total (map rollover ps) == 0).
Proof.
  assert (Hp : validPeriod (MonthIndex 1)) by (simpl; lia).
  split; [exact Hp|].
  exact (bars_sum_to_header isoDate sampleEntries 2023 (MonthIndex 1) Hp).
Defined.

Lemma pie_total_is_header_total_witness :
  Forall (fun e => 0 < amount e) sampleEntries
  /\ exists bd slices t,
       monthlyBreakdown isoDate initialCategories sampleEntries 2023 = Ok bd
       /\ categorySpendingDataForChart initialCategories bd = Ok slices
       /\ totalSpent bd Year = Ok t
       /\ CategoryPieChart.total slices == t.
Proof.
  split; [exact sample_amounts_positive|].
  exact (pie_total_is_header_total isoDate sampleEntries 2023
           sample_amounts_positive).
Defined.

Lemma snapshot_card_witness :
  Forall (fun e => 0 < amount e) (rent :: sampleEntries)
  /\ 4800 < spentThisMonth (budgetSnapshot isoDate (UTCDate 2023 Mar)
                              (rent :: sampleEntries))
  /\ exists w st,
       BudgetSnapshotCard.barWidth
         (budgetSnapshot isoDate (UTCDate 2023 Mar) (rent :: sampleEntries)) = Ok w
       /\ BudgetSnapshotCard.subtext
            (budgetSnapshot isoDate (UTCDate 2023 Mar) (rent :: sampleEntries))
          = Ok st
       /\ 0 <= w /\ w <= 100
       /\ st = BudgetSnapshotCard.OverBudget
                 (spentThisMonth (budgetSnapshot isoDate (UTCDate 2023 Mar)
                                    (rent :: sampleEntries)) - 4800).
Proof.
  assert (Hpos : Forall (fun e => 0 < amount e) (rent :: sampleEntries)).
  { constructor; [reflexivity | exact sample_amounts_positive]. }
  assert (Hover : 4800 < spentThisMonth (budgetSnapshot isoDate (UTCDate 2023 Mar)
                                           (rent :: sampleEntries))).
  { vm_compute. reflexivity. }
  split; [exact Hpos|]. split; [exact Hover|].
  pose proof (snapshot_card isoDate (UTCDate 2023 Mar) (rent :: sampleEntries) Hpos)
    as H.
  cbv zeta in H. destruct H as (_ & w & st & Hw & Hst & H0 & H100 & Ho & _).
  exists w, st. repeat split; try assumption. exact (Ho Hover).
Defined.

Lemma rollover_note_witness :
  (0 <= 0 < 11)%Z
  /\ exists bd ps ps' ps0,
       monthlyBreakdown isoDate initialCategories sampleEntries 2023 = Ok bd
       /\ categoryProgressData initialCategories bd (MonthIndex 0) = Ok ps
       /\ categoryProgressData initialCategories bd (MonthIndex (0 + 1)) = Ok ps'
       /\ Forall2 (fun cp cp' =>
                     p_id cp' = p_id cp
                     /\ rollover cp' == Qmax (spent cp - budget cp) 0
                     /\ (CategoryProgressList.showsRollover (MonthIndex (0 + 1)) cp'
                         = true <-> budget cp < spent cp)) ps ps'
       /\ categoryProgressData initialCategories bd (MonthIndex 0) = Ok ps0
       /\ Forall (fun cp =>
                    rollover cp == 0
                    /\ CategoryProgressList.showsRollover (MonthIndex 0) cp = false)
            ps0.
Proof.
  assert (HM : (0 <= 0 < 11)%Z) by lia.
  split; [exact HM|]. exact (rollover_note isoDate sampleEntries 2023 0 HM).
Defined.

(** The hotel of January 2023 is 150 over the travel budget: the view of
    February carries the 150 and shows the note. *)
Example february_rollover_shown :
  exists ps,
    categoryProgressData initialCategories
      match monthlyBreakdown isoDate initialCategories sampleEntries 2023 with
      | Ok bd => bd
      | Fault _ => []
      end (MonthIndex 1) = Ok ps
    /\ map (fun cp => (p_id cp, rollover cp,
                       CategoryProgressList.showsRollover (MonthIndex 1) cp))
         (firstn 2 ps)
       = [(travel, 150, true); (living, 0, false)].
Proof.
  eexists. split; vm_compute; reflexivity.
Qed.

(** ** The wishlist view: what is left per category *)

Import WishlistView.

Lemma property_assign {V : Type} (k k' : CategoryId) (v : V)
  (o : list (CategoryId * V)) :
  property k (assign k' v o)
  = if CategoryId_eqb k k' then Some v else property k o.
Proof.
  induction o as [|[k0 v0] o IH]; simpl.
  - destruct (CategoryId_eqb k k'); reflexivity.
  - destruct (CategoryId_eqb k' k0) eqn:E0; simpl.
    + apply CategoryId_eqb_eq in E0; subst k0.
      destruct (CategoryId_eqb k k'); reflexivity.
    + rewrite IH. destruct (CategoryId_eqb k k0) eqn:E1; [|reflexivity].
      apply CategoryId_eqb_eq in E1; subst k0.
      rewrite CategoryId_eqb_sym, E0. reflexivity.
Qed.

(** A loop that assigns one value per element, under distinct keys. *)
Lemma forEach_assigned {A V : Type} (key : A -> CategoryId) (G : A -> V)
  (body : list (CategoryId * V) -> A -> result (list (CategoryId * V)))
  (l : list A) :
  (forall info a, In a l -> body info a = Ok (assign (key a) (G a) info)) ->
  NoDup (map key l) ->
  forall info0,
  exists info,
    forEach l body info0 = Ok info
    /\ (forall a, In a l -> property (key a) info = Some (G a))
    /\ (forall k, ~ In k (map key l) -> property k info = property k info0).
Proof.
  induction l as [|a l IH]; intros Hbody ND info0.
  - exists info0. split; [reflexivity|]. split; [intros a []|reflexivity].
  - apply NoDup_cons in ND. destruct ND as [Hnotin ND].
    rewrite list_elem_of_In in Hnotin.
    destruct (IH (fun info x Hx => Hbody info x (or_intror Hx)) ND
                (assign (key a) (G a) info0)) as (info & E & Vin & Vout).
    exists info. split; [|split].
    + cbn [forEach]. rewrite (Hbody info0 a (or_introl eq_refl)). exact E.
    + intros x [<-|Hx]; [|apply Vin, Hx].
      rewrite (Vout _ Hnotin), property_assign, CategoryId_eqb_refl. reflexivity.
    + intros k Hk. rewrite Vout by (intros H; apply Hk; right; exact H).
      rewrite property_assign.
      destruct (CategoryId_eqb k (key a)) eqn:Ek; [|reflexivity].
      apply CategoryId_eqb_eq in Ek. subst k. exfalso. apply Hk. left; reflexivity.
Qed.

Section CategoryInfo.

Variable newDate : string -> JSDate.

Lemma contribution_other (Y m : Z) (c : CategoryId) (e : BudgetEntry) :
  CategoryId_eqb (categoryId e) c = false -> contribution newDate Y m c e == 0.
Proof.
  intros H. rewrite contribution_category, H. reflexivity.
Qed.

Lemma yearContribution_other (Y : Z) (c : CategoryId) (e : BudgetEntry) :
  CategoryId_eqb (categoryId e) c = false -> yearContribution newDate Y c e == 0.
Proof.
  intros H. unfold yearContribution.
  rewrite (total_map_ext _ (fun _ => 0) _ (fun m _ => contribution_other Y m c e H)).
  rewrite range_year. unfold total. simpl. ring.
Qed.

Lemma categoryStep_spec (Y : Z) (Mo : Month) (cat : BudgetCategory)
  (sm sy : Q) (e : BudgetEntry) :
  exists sm' sy',
    categoryStep newDate (Int Y) (Int (monthIndex Mo)) cat (sm, sy) e
    = Ok (sm', sy')
    /\ sm' == sm + contribution newDate Y (monthIndex Mo) (cat_id cat) e
    /\ sy' == sy + yearContribution newDate Y (cat_id cat) e.
Proof.
  unfold categoryStep.
  destruct (CategoryId_eqb (categoryId e) (cat_id cat)) eqn:Ec.
  2:{ exists sm, sy. split; [reflexivity|].
      rewrite (contribution_other _ _ _ _ Ec), (yearContribution_other _ _ _ Ec). split; ring. }
  apply CategoryId_eqb_eq in Ec. rewrite <- Ec. unfold yearContribution. rewrite range_year.
  unfold contribution, oneTimeIn, recurringBefore, recurringSince,
    entryYear, entryMonth.
  rewrite CategoryId_eqb_refl.
  destruct (entryDateOf newDate e) as [|y mo];
    cbn [getUTCFullYear getUTCMonth lt le strictEq monthsApplied].
  - exists sm, sy. split; [destruct (truthy (isRecurring e)); reflexivity|].
    rewrite !andb_false_r. simpl. split; ring.
  - destruct (truthy (isRecurring e)); cbn [negb andb].
    + destruct (Z.ltb_spec y Y) as [Hlt|Hge].
      * destruct (Z.eqb_spec y Y); [lia|].
        eexists _, _. split; [reflexivity|]. simpl. split; ring.
      * destruct (Z.eqb_spec y Y) as [->|Hne].
        -- cbn [bind]. destruct (monthIndex mo <=? monthIndex Mo)%Z;
             (eexists _, _; split; [reflexivity|]);
             (split; [simpl; ring | destruct mo; simpl; eval_months; ring]).
        -- eexists _, _. split; [reflexivity|]. simpl. split; ring.
    + destruct (Z.eqb_spec y Y) as [->|Hne].
      * destruct (monthIndex mo =? monthIndex Mo)%Z;
          (eexists _, _; split; [reflexivity|]);
          (split; [simpl; ring | destruct mo; simpl; ring]).
      * eexists _, _. split; [reflexivity|]. simpl. split; ring.
Qed.

Lemma category_loop (Y : Z) (Mo : Month) (cat : BudgetCategory)
  (es : list BudgetEntry) :
  forall sm sy,
  exists sm' sy',
    forEach es (categoryStep newDate (Int Y) (Int (monthIndex Mo)) cat) (sm, sy)
    = Ok (sm', sy')
    /\ sm' == sm + total (map (contribution newDate Y (monthIndex Mo) (cat_id cat)) es)
    /\ sy' == sy + total (map (yearContribution newDate Y (cat_id cat)) es).
Proof.
  induction es as [|e es IH]; intros sm sy.
  - exists sm, sy. split; [reflexivity|]. cbn [map]. change (total []) with 0.
    split; ring.
  - destruct (categoryStep_spec Y Mo cat sm sy e) as (sm1 & sy1 & E1 & Hm1 & Hy1).
    destruct (IH sm1 sy1) as (sm2 & sy2 & E2 & Hm2 & Hy2).
    exists sm2, sy2. split; [cbn [forEach]; rewrite E1; exact E2|].
    cbn [map]. rewrite !total_cons, Hm2, Hy2, Hm1, Hy1. split; ring.
Qed.

(** What is left of each category, in terms of what the entries add. *)
Lemma categoryBudgetInfo_shares (Y : Z) (Mo : Month) (es : list BudgetEntry) :
  exists info,
    categoryBudgetInfo newDate (UTCDate Y Mo) es = Ok info
    /\ forall cat, In cat initialCategories ->
         exists i,
           property (cat_id cat) info = Some i
           /\ monthlyRemaining i
              == cat_budget cat
                 - total (map (contribution newDate Y (monthIndex Mo) (cat_id cat)) es)
           /\ yearlyRemaining i
              == cat_budget cat * 12 - total (map (yearContribution newDate Y (cat_id cat)) es).
Proof.
  pose (G := fun cat : BudgetCategory =>
               match forEach es (categoryStep newDate (Int Y) (Int (monthIndex Mo)) cat)
                       (0, 0) with
               | Ok (sm, sy) => mkInfo (cat_budget cat - sm) (cat_budget cat * 12 - sy)
               | Fault _ => mkInfo 0 0
               end).
  unfold categoryBudgetInfo. cbn [getUTCFullYear getUTCMonth].
  match goal with |- context [forEach initialCategories ?b []] => set (body := b) end.
  destruct (forEach_assigned cat_id G body initialCategories) with (info0 := @nil (CategoryId * CategoryInfo))
    as (info & E & Vin & _).
  - intros info cat _. unfold body, G.
    destruct (category_loop Y Mo cat es 0 0) as (sm & sy & El & _). rewrite El.
    reflexivity.
  - exact initial_distinct.
  - exists info. split; [exact E|]. intros cat Hcat.
    exists (G cat). split; [apply Vin, Hcat|]. unfold G.
    destruct (category_loop Y Mo cat es 0 0) as (sm & sy & El & Hm & Hy). rewrite El.
    cbn [monthlyRemaining yearlyRemaining]. rewrite Hm, Hy. split; ring.
Qed.

Lemma yearContribution_total (Y : Z) (c : CategoryId) (es : list BudgetEntry)
  (bd : list MonthData) :
  (forall m c, (0 <= m < 12)%Z ->
     valueAt bd m c == expectedSpend newDate es Y m c) ->
  total (map (yearContribution newDate Y c) es) == yearlyTotal bd c.
Proof.
  intros V. unfold yearContribution, yearlyTotal.
  rewrite (total_exchange (fun e m => contribution newDate Y m c e)).
  apply total_map_ext. intros m Hm.
  rewrite (V m c (In_range_year m Hm)), expectedSpend_total. reflexivity.
Qed.

(** X14. For each category, what the wishlist view has left for the month
    is the category's budget less its value in the bucket of the current
    month, and what it has left for the year is twelve times the budget less
    the sum of its twelve buckets: the rollover of the budget view is not
    counted. *)
Theorem categoryBudgetInfo_agrees (entries : list BudgetEntry) (Y : Z) (Mo : Month) :
  exists bd info,
    monthlyBreakdown newDate initialCategories entries Y = Ok bd
    /\ categoryBudgetInfo newDate (UTCDate Y Mo) entries = Ok info
    /\ forall cat, In cat initialCategories ->
         exists i v,
           property (cat_id cat) info = Some i
           /\ bucket bd (monthIndex Mo) (cat_id cat) = Some v
           /\ monthlyRemaining i == cat_budget cat - v
           /\ yearlyRemaining i
              == cat_budget cat * 12 - yearlyTotal bd (cat_id cat).
Proof.
  destruct (monthlyBreakdown_values newDate entries Y) as (bd & E & S & V).
  destruct (categoryBudgetInfo_shares Y Mo entries) as (info & Ei & H).
  exists bd, info. split; [exact E|]. split; [exact Ei|].
  intros cat Hcat. destruct (H cat Hcat) as (i & Hi & Hm & Hy).
  destruct (bucket_Some bd (monthIndex Mo) (cat_id cat) S (monthIndex_range Mo))
    as [v Hv].
  exists i, v. split; [exact Hi|]. split; [exact Hv|]. split.
  - rewrite Hm, <- (bucket_valueAt bd _ _ v Hv), (V _ _ (monthIndex_range Mo)).
    rewrite expectedSpend_total. reflexivity.
  - rewrite Hy, (yearContribution_total Y _ entries bd V). reflexivity.
Qed.

End CategoryInfo.

Lemma total_map_minus {A : Type} (f g : A -> Q) (l : list A) :
  total (map (fun x => f x - g x) l) == total (map f l) - total (map g l).
Proof.
  induction l as [|a l IH]; cbn [map].
  - change (total []) with 0. ring.
  - rewrite !total_cons, IH. ring.
Qed.

Lemma total_neg_exists {A : Type} (f : A -> Q) (l : list A) :
  total (map f l) < 0 -> exists x, In x l /\ f x < 0.
Proof.
  induction l as [|a l IH]; cbn [map].
  - change (total []) with 0. intros H. lra.
  - rewrite total_cons. intros H.
    destruct (Qlt_le_dec (f a) 0) as [Ha|Ha].
    + exists a. split; [left; reflexivity | exact Ha].
    + destruct IH as (x & Hx & Hfx); [lra|]. exists x. split; [right; exact Hx | exact Hfx].
Qed.

Lemma initial_category (k : CategoryId) :
  exists cat, In cat initialCategories /\ cat_id cat = k.
Proof.
  pose proof (allIds_complete k) as H. unfold allIds in H.
  apply in_map_iff in H. destruct H as (cat & Hid & Hin). exists cat. tauto.
Qed.

Section Affordability.

Variable newDate : string -> JSDate.

(** What is left for the month in all is the sum of what is left of the
    categories. *)
Lemma remainingMonthly_sum (Y : Z) (Mo : Month) (es : list BudgetEntry) :
  exists o,
    budgetOverview newDate (UTCDate Y Mo) es = Ok o
    /\ remainingMonthly o
       == total (map (fun cat =>
                        cat_budget cat
                        - total (map (contribution newDate Y (monthIndex Mo)
                                        (cat_id cat)) es))
                     initialCategories).
Proof.
  destruct (overview_loop newDate Y Mo es 0 0) as (ty & tm & Eo & _ & Hm).
  assert (B : fold_left (fun sum cat => sum + cat_budget cat) initialCategories 0
              = 4800) by reflexivity.
  exists (mkOverview (4800 * 12 - ty) (4800 - tm)). split.
  - unfold budgetOverview, overviewTotals. cbn [getUTCFullYear getUTCMonth].
    rewrite Eo, B. reflexivity.
  - cbn [remainingMonthly]. rewrite Hm, total_map_minus.
    rewrite <- (map_map cat_id
                  (fun c => total (map (contribution newDate Y (monthIndex Mo) c) es))).
    fold allIds.
    rewrite (total_exchange (fun c e => contribution newDate Y (monthIndex Mo) c e)).
    unfold monthShare.
    assert (T : total (map cat_budget initialCategories) == 4800) by reflexivity.
    rewrite T. ring.
Qed.

(** X15. A wish is marked as over the month's budget only when some other
    category has overspent its budget this month. *)
Theorem over_month_budget (entries : list BudgetEntry) (Y : Z) (Mo : Month)
  (item : WishlistItem) :
  exists info o,
    categoryBudgetInfo newDate (UTCDate Y Mo) entries = Ok info
    /\ budgetOverview newDate (UTCDate Y Mo) entries = Ok o
    /\ forall a,
         affordabilityStatus item (budgetInfoProp info o item) = Some a ->
         statusText a = "⚠️ Over Month Budget"%string ->
         exists cat i,
           In cat initialCategories
           /\ cat_id cat <> item_categoryId item
           /\ property (cat_id cat) info = Some i
           /\ monthlyRemaining i < 0.
Proof.
  destruct (categoryBudgetInfo_shares newDate Y Mo entries) as (info & Ei & H).
  destruct (remainingMonthly_sum Y Mo entries) as (o & Eo & Ho).
  exists info, o. split; [exact Ei|]. split; [exact Eo|].
  intros a Ha Htext.
  set (r := fun cat : BudgetCategory =>
              cat_budget cat
              - total (map (contribution newDate Y (monthIndex Mo) (cat_id cat))
                         entries)) in *.
  destruct (initial_category (item_categoryId item)) as (catk & Hk & Ek).
  destruct (H catk Hk) as (ik & Hik & Hmk & _).
  unfold affordabilityStatus, budgetInfoProp in Ha. rewrite <- Ek, Hik in Ha.
  cbn [categoryMonthlyRemaining totalMonthlyRemaining] in Ha.
  destruct (estimatedCost item) as [[|cost]|]; try discriminate Ha.
  destruct (Qeq_bool cost 0); [discriminate Ha|]. unfold ge in Ha.
  destruct (Qle_bool cost (monthlyRemaining ik)) eqn:Hcat; cbn [andb negb] in Ha.
  2:{ injection Ha as <-. discriminate Htext. }
  destruct (Qle_bool cost (remainingMonthly o)) eqn:Hmonth; cbn [negb] in Ha.
  { injection Ha as <-. discriminate Htext. }
  apply Qle_bool_iff in Hcat.
  assert (Hlt : remainingMonthly o < cost).
  { apply Qnot_le_lt. intros Hle. apply Qle_bool_iff in Hle. congruence. }
  destruct (total_neg_exists
              (fun cat => if CategoryId_eqb (cat_id cat) (item_categoryId item)
                          then 0 else r cat) initialCategories)
    as (cat & Hcat' & Hneg).
  - fold (r catk) in Hmk. rewrite Hmk in Hcat. rewrite Ho in Hlt.
    clear - Hlt Hcat Hk Ek. rewrite <- Ek.
    simpl in Hk.
    repeat (destruct Hk as [<-|Hk];
            [cbn [map initialCategories cat_id CategoryId_eqb total fold_right] in *; lra|]).
    destruct Hk.
  - destruct (CategoryId_eqb (cat_id cat) (item_categoryId item)) eqn:Ec; [lra|].
    destruct (H cat Hcat') as (i & Hi & Hm & _).
    exists cat, i. split; [exact Hcat'|]. split; [|split; [exact Hi|]].
    + intros Heq. rewrite Heq, CategoryId_eqb_refl in Ec. discriminate.
    + fold (r cat) in Hm. rewrite Hm. exact Hneg.
Qed.

End Affordability.

(** ** The wishlist view: completing, holding and deleting wishes *)

Section Completion.

Variable parseFloat : string -> jsnumber.
Variable newDate : string -> JSDate.

(** X16. Completing a wish marks the items with its id as completed and
    keeps the lists and the ids; it adds no budget entry when the final cost
    is empty, not a number or zero; otherwise, with today in month [Mo] of
    year [Y], what the wishlist view has left for the wish's category falls
    by the final cost, for the month and for the year, and what is left of
    the other categories stays. *)
Theorem complete_wish (modalList : option string) (item : WishlistItem)
  (form : FormData) (uuid completedAt enteredAt : string)
  (data : WishlistData) (entries : list BudgetEntry) :
  let after :=
    handleSave parseFloat (Some (mkModal completeItem modalList (Some item)))
      form uuid completedAt enteredAt data entries in
  lists (fst after) = lists data
  /\ map item_id (items (fst after)) = map item_id (items data)
  /\ Forall (fun i => item_id i = item_id item -> status i = completed)
       (items (fst after))
  /\ (truthyNumber (parsedCost parseFloat (fd_finalCost form)) = false ->
      snd after = entries)
  /\ (forall cost Y Mo,
        nonEmpty (fd_finalCost form) = true ->
        parseFloat (fd_finalCost form) = JNum cost ->
        ~ cost == 0 ->
        newDate (String.append (beforeT enteredAt) "T00:00:00Z") = UTCDate Y Mo ->
        exists info info',
          categoryBudgetInfo newDate (UTCDate Y Mo) entries = Ok info
          /\ categoryBudgetInfo newDate (UTCDate Y Mo) (snd after) = Ok info'
          /\ forall cat, In cat initialCategories ->
               exists i i',
                 property (cat_id cat) info = Some i
                 /\ property (cat_id cat) info' = Some i'
                 /\ monthlyRemaining i'
                    == monthlyRemaining i
                       - (if CategoryId_eqb (cat_id cat) (item_categoryId item)
                          then cost else 0)
                 /\ yearlyRemaining i'
                    == yearlyRemaining i
                       - (if CategoryId_eqb (cat_id cat) (item_categoryId item)
                          then cost else 0)).
Proof.
  intros after. unfold after, handleSave. cbn [mode modal_listId modal_item].
  set (items' := map _ (items data)).
  assert (Hids : map item_id items' = map item_id (items data)).
  { unfold items'. rewrite map_map. apply map_ext. intros i.
    destruct (String.eqb (item_id i) (item_id item)); reflexivity. }
  assert (Hdone : Forall (fun i => item_id i = item_id item -> status i = completed)
                    items').
  { unfold items'. apply Forall_forall. intros i Hi.
    apply list_elem_of_In, in_map_iff in Hi. destruct Hi as (x & <- & _).
    destruct (String.eqb (item_id x) (item_id item)) eqn:E; [reflexivity|].
    intros Heq. apply String.eqb_neq in E. contradiction. }
  unfold parsedCost.
  destruct (nonEmpty (fd_finalCost form)) eqn:Hne;
    [destruct (parseFloat (fd_finalCost form)) as [|q] eqn:Hp;
       [|destruct (Qeq_bool q 0) eqn:Hz]|];
    cbn [fst snd lists items truthyNumber negb];
    (split; [reflexivity|]); (split; [exact Hids|]); (split; [exact Hdone|]);
    (split; [try reflexivity; try discriminate|]);
    try (intros cost Y Mo; discriminate).
  - intros cost Y Mo _ [= <-] Hcost _. apply Qeq_bool_iff in Hz. contradiction.
  - rewrite Hz. discriminate.
  - intros cost Y Mo _ [= <-] _ Hdate.
    set (e := mkEntry _ _ _ _ _ _ _ _).
    assert (Hc : forall m c,
               contribution newDate Y m c e
               == if CategoryId_eqb (item_categoryId item) c
                     && (monthIndex Mo =? m)%Z then q else 0).
    { intros m c. unfold contribution, oneTimeIn, recurringBefore, recurringSince,
        entryYear, entryMonth, entryDateOf.
      cbn [e date isRecurring categoryId amount truthy negb]. rewrite Hdate.
      cbn [getUTCFullYear getUTCMonth strictEq andb]. rewrite Z.eqb_refl.
      destruct (CategoryId_eqb (item_categoryId item) c), (monthIndex Mo =? m)%Z;
        simpl; ring. }
    assert (Hy : forall c,
               yearContribution newDate Y c e
               == if CategoryId_eqb (item_categoryId item) c then q else 0).
    { intros c. unfold yearContribution.
      rewrite (total_map_ext _ _ _ (fun m _ => Hc m c)). rewrite range_year.
      destruct (CategoryId_eqb (item_categoryId item) c); destruct Mo; simpl; ring. }
    destruct (categoryBudgetInfo_shares newDate Y Mo entries) as (info & Ei & H).
    destruct (categoryBudgetInfo_shares newDate Y Mo (entries ++ [e]))
      as (info' & Ei' & H').
    exists info, info'. split; [exact Ei|]. split; [exact Ei'|].
    intros cat Hcat. destruct (H cat Hcat) as (i & Hi & Hm & Hyr).
    destruct (H' cat Hcat) as (i' & Hi' & Hm' & Hyr').
    exists i, i'. split; [exact Hi|]. split; [exact Hi'|].
    rewrite Hm', Hyr', Hm, Hyr, !map_app, !total_app. cbn [map].
    rewrite !total_cons, Hc, Hy, Z.eqb_refl, andb_true_r.
    change (total []) with 0. rewrite (CategoryId_eqb_sym (cat_id cat)).
    split; ring.
Qed.

End Completion.

Lemma item_eta (i : WishlistItem) :
  mkItem (item_id i) (listId i) (item_name i) (priority i) (item_categoryId i)
    (estimatedCost i) (imageUrl i) (description i) (status i) (finalCost i)
    (completedDate i) = i.
Proof. destruct i; reflexivity. Qed.


Lemma existsb_filter_list (l : string) (x : string) (ls : list Wishlist) :
  String.eqb x l = false ->
  existsb (fun w => String.eqb (list_id w) x)
    (List.filter (fun w => negb (String.eqb (list_id w) l)) ls)
  = existsb (fun w => String.eqb (list_id w) x) ls.
Proof.
  intros Hx. induction ls as [|w ls IH]; [reflexivity|]. cbn [List.filter existsb].
  destruct (String.eqb (list_id w) l) eqn:E; cbn [negb existsb].
  - rewrite IH. apply String.eqb_eq in E. rewrite E, String.eqb_sym, Hx. reflexivity.
  - rewrite IH. reflexivity.
Qed.

Section Orphans.

Variable parseFloat : string -> jsnumber.

(** X18. If every wish belongs to a list, it still does after a wish or a
    list is deleted (a deleted list takes its wishes with it), after a hold
    is toggled, and after any save of the modal, provided a wish is only
    added to a list that is there. *)
Theorem no_orphans_kept (data : WishlistData) (entries : list BudgetEntry)
  (x : string) (confirmed : bool) (modalState : option WishlistModalState)
  (form : FormData) (uuid completedAt enteredAt : string) :
  noOrphans data = true ->
  (forall m l, modalState = Some m -> mode m = addItem ->
     modal_listId m = Some l ->
     existsb (fun w => String.eqb (list_id w) l) (lists data) = true) ->
  noOrphans (handleDeleteList x confirmed data) = true
  /\ noOrphans (handleDeleteItem x confirmed data) = true
  /\ noOrphans (handleToggleHoldStatus x data) = true
  /\ noOrphans (fst (handleSave parseFloat modalState form uuid completedAt
                       enteredAt data entries)) = true
  /\ Forall (fun i => listId i <> x)
       (items (handleDeleteList x true data)).
Proof.
  intros H Hadd. unfold noOrphans in *. rewrite forallb_forall in H.
  assert (Hmap : forall (f : WishlistItem -> WishlistItem),
             (forall i, listId (f i) = listId i) ->
             forallb (fun i => existsb (fun l => String.eqb (list_id l) (listId i))
                                 (lists data)) (map f (items data)) = true).
  { intros f Hf. apply forallb_forall. intros i Hi.
    apply in_map_iff in Hi. destruct Hi as (j & <- & Hj). rewrite Hf. apply H, Hj. }
  split; [|split; [|split; [|split]]].
  - destruct confirmed; cbn [handleDeleteList lists items];
      [|apply forallb_forall; exact H].
    apply forallb_forall. intros i Hi. apply filter_In in Hi. destruct Hi as [Hi Hx].
    apply negb_true_iff in Hx. rewrite existsb_filter_list by exact Hx. apply H, Hi.
  - destruct confirmed; cbn [handleDeleteItem lists items];
      [|apply forallb_forall; exact H].
    apply forallb_forall. intros i Hi. apply filter_In in Hi. apply H, Hi.
  - cbn [handleToggleHoldStatus lists items]. apply Hmap. intros i.
    destruct (String.eqb (item_id i) x); reflexivity.
  - unfold handleSave. destruct modalState as [m|]; [|apply forallb_forall; exact H].
    destruct (mode m) eqn:Em, (modal_listId m) as [l|] eqn:El,
      (modal_item m) as [it|] eqn:Eit;
      cbn [fst lists items]; try (apply forallb_forall; exact H).
    all: try (apply forallb_forall; intros i Hi; rewrite existsb_app;
              rewrite (H i Hi); reflexivity).
    all: try (destruct (nonEmpty l); cbn [fst lists items];
              [|apply forallb_forall; exact H];
              rewrite forallb_app; apply andb_true_intro; split;
              [apply forallb_forall; exact H|];
              cbn [forallb listId]; rewrite (Hadd m l eq_refl Em El); reflexivity).
    all: try (apply Hmap; intros i;
              destruct (String.eqb (item_id i) (item_id it)); reflexivity).
    all: try (destruct (parsedCost parseFloat (fd_finalCost form)) as [[|q]|];
              [| destruct (Qeq_bool q 0) |]; cbn [fst lists items];
              apply Hmap; intros i;
              destruct (String.eqb (item_id i) (item_id it)); reflexivity).
  - cbn [handleDeleteList items]. apply Forall_forall. intros i Hi.
    apply list_elem_of_In, filter_In in Hi. destruct Hi as [_ Hi].
    apply negb_true_iff, String.eqb_neq in Hi. exact Hi.
Qed.

End Orphans.

(** ** The planned wishes of the budget header *)

Lemma planned_loop (l : list WishlistItem) :
  forall s0,
  exists s,
    forEach
      (List.filter
         (fun item => Status_eqb (status item) active
                      && truthyNumber (estimatedCost item)) l)
      (fun sum item =>
         match estimatedCost item with
         | Some (JNum cost) => Ok (sum + cost)
         | _ => Fault NotANumber
         end) s0 = Ok s
    /\ s == s0 + total (map planned l).
Proof.
  induction l as [|i l IH]; intros s0.
  - exists s0. split; [reflexivity|]. cbn [map]. change (total []) with 0. ring.
  - cbn [List.filter map]. rewrite total_cons. unfold planned at 1.
    destruct (Status_eqb (status i) active); cbn [andb].
    + destruct (estimatedCost i) as [[|q]|] eqn:Ec; cbn [truthyNumber numberOrZero].
      * destruct (IH s0) as (s & E & Hs). exists s. split; [exact E|]. rewrite Hs. ring.
      * destruct (Qeq_bool q 0) eqn:Hz; cbn [negb].
        -- destruct (IH s0) as (s & E & Hs). exists s. split; [exact E|].
           rewrite Hs. ring.
        -- destruct (IH (s0 + q)) as (s & E & Hs). exists s.
           split; [cbn [forEach bind]; rewrite Ec; exact E|]. rewrite Hs. ring.
      * destruct (IH s0) as (s & E & Hs). exists s. split; [exact E|]. rewrite Hs. ring.
    + destruct (IH s0) as (s & E & Hs). exists s. split; [exact E|]. rewrite Hs. ring.
Qed.

Lemma total_map_update (g : WishlistItem -> Q) (T : WishlistItem -> WishlistItem)
  (x : WishlistItem) (l : list WishlistItem) :
  NoDup (map item_id l) -> In x l ->
  total (map g (map (fun i => if String.eqb (item_id i) (item_id x) then T i else i) l))
  == total (map g l) + (g (T x) - g x).
Proof.
  induction l as [|a l IH]; intros ND Hx; [destruct Hx|].
  cbn [map] in *. apply NoDup_cons in ND. destruct ND as [Hnotin ND].
  rewrite list_elem_of_In in Hnotin. rewrite !total_cons.
  destruct Hx as [->|Hx].
  - rewrite String.eqb_refl.
    assert (Hid : map (fun i => if String.eqb (item_id i) (item_id x) then T i else i) l
                  = l).
    { clear IH ND. induction l as [|b l IHl]; [reflexivity|]. cbn [map] in *.
      destruct (String.eqb (item_id b) (item_id x)) eqn:E.
      - apply String.eqb_eq in E. exfalso. apply Hnotin. left. exact E.
      - f_equal. apply IHl. intros H. apply Hnotin. right. exact H. }
    rewrite Hid. ring.
  - destruct (String.eqb (item_id a) (item_id x)) eqn:E.
    + apply String.eqb_eq in E. exfalso. apply Hnotin. rewrite E.
      apply in_map, Hx.
    + rewrite (IH ND Hx). ring.
Qed.

(** X19. The planned wishes of the header are the estimated costs of the
    active wishes; wishes on hold or completed, and wishes without a cost,
    add nothing.  With distinct ids, putting an active wish on hold takes
    its cost out of the total, and resuming a wish on hold puts it back. *)
Theorem planned_wishes (data : WishlistData) (x : WishlistItem) :
  NoDup (map item_id (items data)) -> In x (items data) ->
  exists t t',
    totalPlannedWishes data = Ok t
    /\ t == total (map planned (items data))
    /\ totalPlannedWishes (handleToggleHoldStatus (item_id x) data) = Ok t'
    /\ (status x = active -> t' == t - numberOrZero (estimatedCost x))
    /\ (status x = onHold -> t' == t + numberOrZero (estimatedCost x)).
Proof.
  intros ND Hx. unfold totalPlannedWishes.
  destruct (planned_loop (items data) 0) as (t & E & Ht).
  destruct (planned_loop (items (handleToggleHoldStatus (item_id x) data)) 0)
    as (t' & E' & Ht').
  exists t, t'. split; [exact E|]. split; [rewrite Ht; ring|]. split; [exact E'|].
  cbn [handleToggleHoldStatus items] in Ht'.
  rewrite (total_map_update planned _ x (items data) ND Hx) in Ht'.
  rewrite Ht', Ht. unfold planned. cbn [status estimatedCost].
  split; intros Hs; rewrite Hs; cbn [Status_eqb]; ring.
Qed.

(** ** The order of the wishes *)

Lemma inject_Z_sub (a b : Z) : inject_Z (a - b) == inject_Z a - inject_Z b.
Proof.
  unfold Z.sub. rewrite inject_Z_plus, inject_Z_opp. reflexivity.
Qed.

(** X20. The function that orders the wishes is a consistent comparison: a
    wish compares equal to itself, [a] comes before [b] exactly when [b]
    comes after [a], and the order is transitive.  Every wish is shown under exactly one of the two
    filters. *)
Theorem compareItems_consistent (filter : Filter) (sort : Sort)
  (a b c : WishlistItem) :
  compareItems filter sort a a == 0
  /\ (compareItems filter sort a b < 0 <-> 0 < compareItems filter sort b a)
  /\ (compareItems filter sort a b <= 0 -> compareItems filter sort b c <= 0 ->
      compareItems filter sort a c <= 0)
  /\ xorb (shown showActive a) (shown showCompleted a) = true.
Proof.
  unfold compareItems, shown.
  set (ca := numberOrZero (estimatedCost a)).
  set (cb := numberOrZero (estimatedCost b)).
  set (cc := numberOrZero (estimatedCost c)).
  set (pa := priorityOrder (priority a)).
  set (pb := priorityOrder (priority b)).
  set (pc := priorityOrder (priority c)).
  pose proof (inject_Z_sub pa pa) as Haa. pose proof (inject_Z_sub pb pa) as Hba.
  pose proof (inject_Z_sub pa pb) as Hab. pose proof (inject_Z_sub pc pb) as Hcb.
  pose proof (inject_Z_sub pc pa) as Hca.
  destruct filter, sort, (status a), (status b), (status c); cbn;
    repeat split; intros; lra.
Qed.

(** ** The wishlist on the sample data *)

Lemma categoryBudgetInfo_agrees_witness :
  In (mkCategory health "Health & Fitness"
        "Staying healthy and fit (e.g., Medical, Gym, Sports Gear)." 200 "#1abc9c")
     initialCategories
  /\ exists bd info i v,
       monthlyBreakdown isoDate initialCategories sampleEntries 2023 = Ok bd
       /\ categoryBudgetInfo isoDate (UTCDate 2023 Jun) sampleEntries = Ok info
       /\ property health info = Some i
       /\ bucket bd (monthIndex Jun) health = Some v
       /\ monthlyRemaining i == 200 - v
       /\ yearlyRemaining i == 200 * 12 - yearlyTotal bd health.
Proof.
  assert (Hin : In (mkCategory health "Health & Fitness"
        "Staying healthy and fit (e.g., Medical, Gym, Sports Gear)." 200 "#1abc9c")
     initialCategories).
  { cbn. tauto. }
  split; [exact Hin|].
  destruct (categoryBudgetInfo_agrees isoDate sampleEntries 2023 Jun)
    as (bd & info & E & E' & H).
  destruct (H _ Hin) as (i & v & Hi & Hv & Hm & Hy).
  exists bd, info, i, v. repeat split; assumption.
Defined.

Lemma over_month_budget_witness :
  exists info o a,
    categoryBudgetInfo isoDate (UTCDate 2023 Mar) [rent] = Ok info
    /\ budgetOverview isoDate (UTCDate 2023 Mar) [rent] = Ok o
    /\ affordabilityStatus bike (budgetInfoProp info o bike) = Some a
    /\ statusText a = "⚠️ Over Month Budget"%string
    /\ exists cat i,
         In cat initialCategories
         /\ cat_id cat <> item_categoryId bike
         /\ property (cat_id cat) info = Some i
         /\ monthlyRemaining i < 0.
Proof.
  destruct (over_month_budget isoDate [rent] 2023 Mar bike)
    as (info & o & Hi & Ho & H).
  assert (Ha : affordabilityStatus bike (budgetInfoProp info o bike)
               = Some (mkAffordability "unaffordable" "⚠️ Over Month Budget")).
  { vm_compute in Hi. injection Hi as <-. vm_compute in Ho. injection Ho as <-.
    vm_compute. reflexivity. }
  exists info, o, (mkAffordability "unaffordable" "⚠️ Over Month Budget").
  split; [exact Hi|]. split; [exact Ho|]. split; [exact Ha|].
  split; [reflexivity|]. exact (H _ Ha eq_refl).
Defined.

Lemma complete_wish_witness :
  snd (handleSave wholeNumber
         (Some (mkModal completeItem None (Some bike))) bikeBought "7"
         "2023-03-10T09:30:00.000Z" "2023-03-10T09:30:00.000Z"
         sampleWishes sampleEntries)
  = sampleEntries
    ++ [mkEntry "budget-7" "Wish: Bike" "2023-03-10" 120 health (Some false) None
          (Some "Completed from wishlist."%string)]
  /\ exists info info',
       categoryBudgetInfo isoDate (UTCDate 2023 Mar) sampleEntries = Ok info
       /\ categoryBudgetInfo isoDate (UTCDate 2023 Mar)
            (snd (handleSave wholeNumber
                    (Some (mkModal completeItem None (Some bike))) bikeBought "7"
                    "2023-03-10T09:30:00.000Z" "2023-03-10T09:30:00.000Z"
                    sampleWishes sampleEntries)) = Ok info'
       /\ forall cat, In cat initialCategories ->
            exists i i',
              property (cat_id cat) info = Some i
              /\ property (cat_id cat) info' = Some i'
              /\ monthlyRemaining i'
                 == monthlyRemaining i
                    - (if CategoryId_eqb (cat_id cat) (item_categoryId bike)
                       then 120 else 0)
              /\ yearlyRemaining i'
                 == yearlyRemaining i
                    - (if CategoryId_eqb (cat_id cat) (item_categoryId bike)
                       then 120 else 0).
Proof.
  split; [reflexivity|].
  pose proof (complete_wish wholeNumber isoDate None bike bikeBought "7"
                "2023-03-10T09:30:00.000Z" "2023-03-10T09:30:00.000Z"
                sampleWishes sampleEntries) as H.
  cbv zeta in H. destruct H as (_ & _ & _ & _ & H).
  apply (H 120 2023%Z Mar).
  - reflexivity.
  - reflexivity.
  - intros Hz. vm_compute in Hz. discriminate Hz.
  - reflexivity.
Defined.


Lemma no_orphans_kept_witness :
  noOrphans sampleWishes = true
  /\ noOrphans (handleDeleteList "wishlist-1" true sampleWishes) = true
  /\ noOrphans
       (fst (handleSave wholeNumber
               (Some (mkModal addItem (Some "wishlist-1"%string) None))
               bikeBought "7" "" "" sampleWishes sampleEntries)) = true
  /\ Forall (fun i => listId i <> "wishlist-1"%string)
       (items (handleDeleteList "wishlist-1" true sampleWishes)).
Proof.
  split; [reflexivity|].
  destruct (no_orphans_kept wholeNumber sampleWishes sampleEntries "wishlist-1" true
              (Some (mkModal addItem (Some "wishlist-1"%string) None))
              bikeBought "7" "" "" eq_refl) as (H1 & _ & _ & H4 & H5).
  - intros m l [= <-] _ [= <-]. reflexivity.
  - repeat split; assumption.
Defined.

Lemma sample_wish_ids_distinct : NoDup (map item_id (items sampleWishes)).
Proof.
  repeat (apply NoDup_cons; split;
          [rewrite list_elem_of_In; cbn; intuition discriminate|]).
  apply NoDup_nil_2.
Defined.

Lemma planned_wishes_witness :
  NoDup (map item_id (items sampleWishes))
  /\ In bike (items sampleWishes)
  /\ exists t t',
       totalPlannedWishes sampleWishes = Ok t
       /\ t == 150
       /\ totalPlannedWishes (handleToggleHoldStatus (item_id bike) sampleWishes)
          = Ok t'
       /\ t' == t - 150.
Proof.
  assert (Hin : In bike (items sampleWishes)) by (left; reflexivity).
  split; [exact sample_wish_ids_distinct|]. split; [exact Hin|].
  destruct (planned_wishes sampleWishes bike sample_wish_ids_distinct Hin)
    as (t & t' & E & Ht & E' & Ha & _).
  exists t, t'. split; [exact E|]. split; [rewrite Ht; reflexivity|].
  split; [exact E'|]. exact (Ha eq_refl).
Defined.

Lemma compareItems_consistent_witness :
  compareItems showActive byPriority bike bike <= 0
  /\ compareItems showActive byPriority bike tent <= 0
  /\ compareItems showActive byCost tent bike == 1
  /\ compareItems showActive byPriority bike tent <= 0.
Proof.
  assert (H1 : compareItems showActive byPriority bike bike <= 0)
    by (vm_compute; discriminate).
  assert (H2 : compareItems showActive byPriority bike tent <= 0)
    by (vm_compute; discriminate).
  split; [exact H1|]. split; [exact H2|]. split; [reflexivity|].
  destruct (compareItems_consistent showActive byPriority bike bike tent)
    as (_ & _ & Htrans & _).
  exact (Htrans H1 H2).
Defined.
